(** * Agent Laboratory research UI: a model of [streamlit_app.py]

    The script is glue around two collaborators: the research library
    [laboratory.AgentLaboratory] and a JSON file on disk.  This development
    embeds the script's functions ([save_results], the load at
    initialisation, [conduct_research], the form handler and the viewer with
    its Markdown export) together with the Python primitives they call
    ([str.split], [str.strip], [str.lower], [str.replace], [strftime],
    [json.dump], [json.load]).

    Conventions.
    - A Python [str] is a Rocq [string]; the character with code [n] stands
      for the code point U+00[n], so the model covers the strings over
      U+0000..U+00FF.
    - A Python value is a [pyval]; a [dict] is an association list in
      insertion order, as [dict.items()] and [json.dump] enumerate it.
    - Floats are not modelled.  The JSON decoder answers [Unmodelled] on a
      float literal and on an escape above U+00FF.  Integers are unbounded
      and written in full (no limit on the number of digits).
    - Side effects are explicit: every function takes and returns the
      [world] (session state, disk, what the page shows, the calls made to
      the library). *)

From Stdlib Require Import Bool Arith Lia List ZArith NArith.
From Stdlib Require Import Ascii String.
From Stdlib Require Import DecimalFacts DecimalPos DecimalN.
Import ListNotations.
Local Open Scope string_scope.

(* ================================================================== *)
(** * Characters and strings *)
(* ================================================================== *)

Module PyStr.

(** The double quote and the backslash, by code. *)
Definition dquote : ascii := "034"%char.
Definition backslash : ascii := "092"%char.
Definition newline : ascii := "010"%char.

Definition code (c : ascii) : nat := nat_of_ascii c.

(** [str.isspace] on one character of U+0000..U+00FF: TAB, LF, VT, FF, CR,
    the four separators FS..US, SPACE, NEL and NBSP. *)
Definition isspace (c : ascii) : bool :=
  let n := code c in
  (((9 <=? n) && (n <=? 13)) || ((28 <=? n) && (n <=? 32))
   || (n =? 133) || (n =? 160))%nat.

(** [str.lower] on one character of U+0000..U+00FF: A-Z and the accented
    capitals U+00C0..U+00DE (the multiplication sign U+00D7 apart) move up
    by 32. *)
Definition lower_char (c : ascii) : ascii :=
  let n := code c in
  if (((65 <=? n) && (n <=? 90))
      || ((192 <=? n) && (n <=? 222) && negb (n =? 215)))%nat
  then ascii_of_nat (n + 32) else c.

Fixpoint map_chars (f : ascii -> ascii) (s : string) : string :=
  match s with
  | EmptyString => EmptyString
  | String c r => String (f c) (map_chars f r)
  end.

(** [s.lower()] *)
Definition lower (s : string) : string := map_chars lower_char s.

(** [s.replace(old, new)] for a one-character [old]. *)
Fixpoint replace (old : ascii) (new : string) (s : string) : string :=
  match s with
  | EmptyString => EmptyString
  | String c r =>
      if Ascii.eqb c old then new ++ replace old new r
      else String c (replace old new r)
  end.

(** [s.split(sep)] for a one-character [sep]: never empty, one more piece
    than there are separators. *)
Fixpoint split (sep : ascii) (s : string) : list string :=
  match s with
  | EmptyString => [EmptyString]
  | String c r =>
      if Ascii.eqb c sep then EmptyString :: split sep r
      else match split sep r with
           | p :: ps => String c p :: ps
           | [] => [String c EmptyString]
           end
  end.

(** [s.lstrip()], [s.rstrip()], [s.strip()] *)
Fixpoint lstrip (s : string) : string :=
  match s with
  | EmptyString => EmptyString
  | String c r => if isspace c then lstrip r else s
  end.

Fixpoint rstrip (s : string) : string :=
  match s with
  | EmptyString => EmptyString
  | String c r =>
      match rstrip r with
      | EmptyString => if isspace c then EmptyString else String c EmptyString
      | r' => String c r'
      end
  end.

Definition strip (s : string) : string := rstrip (lstrip s).

(** [sep.join(pieces)] *)
Fixpoint join (sep : string) (l : list string) : string :=
  match l with
  | [] => EmptyString
  | [x] => x
  | x :: r => x ++ sep ++ join sep r
  end.

(** Truthiness of a string: [if s:] *)
Definition truthy (s : string) : bool :=
  match s with EmptyString => false | _ => true end.

(** [c in s] *)
Fixpoint mem (c : ascii) (s : string) : bool :=
  match s with
  | EmptyString => false
  | String d r => Ascii.eqb c d || mem c r
  end.

Definition first_char (s : string) : option ascii :=
  match s with EmptyString => None | String c _ => Some c end.

Fixpoint last_char (s : string) : option ascii :=
  match s with
  | EmptyString => None
  | String c EmptyString => Some c
  | String _ r => last_char r
  end.

Fixpoint spaces (n : nat) : string :=
  match n with O => EmptyString | S k => String " " (spaces k) end.

End PyStr.

(* ================================================================== *)
(** * Python values *)
(* ================================================================== *)

(** Dictionary keys: the script only ever uses [str] keys; [int] keys are
    kept because [json.dump] accepts them and turns them into strings. *)
Inductive pykey : Type :=
| KStr (s : string)
| KInt (z : Z).

(** The values a JSON encoder accepts (floats apart). *)
#[local] Unset Elimination Schemes.
Inductive pyval : Type :=
| PNone
| PBool (b : bool)
| PInt (z : Z)
| PStr (s : string)
| PList (l : list pyval)
| PTuple (l : list pyval)
| PDict (d : list (pykey * pyval)).
#[local] Set Elimination Schemes.

Definition key_eqb (a b : pykey) : bool :=
  match a, b with
  | KStr s, KStr t => String.eqb s t
  | KInt x, KInt y => Z.eqb x y
  | _, _ => false
  end.

(** What a Python operation does: it returns, it raises, or it leaves the
    fragment of Python that this development models. *)
Inductive exn : Type :=
| KeyError (k : pykey)
| TypeError (msg : string)
| JSONDecodeError.

Inductive outcome (A : Type) : Type :=
| Ok (a : A)
| Raise (e : exn)
| Unmodelled.
Arguments Ok {A} a.
Arguments Raise {A} e.
Arguments Unmodelled {A}.

Definition bind {A B} (m : outcome A) (k : A -> outcome B) : outcome B :=
  match m with
  | Ok a => k a
  | Raise e => Raise e
  | Unmodelled => Unmodelled
  end.

Notation "x <- m ;; k" := (bind m (fun x => k))
  (at level 61, m at next level, right associativity).

(** An exception that [except Exception as e] catches is used by the script
    through [str(e)] only: [Raised m] is an exception with [str(e) = m]. *)
Inductive attempt (A : Type) : Type :=
| Returned (a : A)
| Raised (str_e : string).
Arguments Returned {A} a.
Arguments Raised {A} str_e.

Module Dict.

Definition t : Type := list (pykey * pyval).

(** [d.get(k)] / [k in d] *)
Fixpoint get (d : t) (k : pykey) : option pyval :=
  match d with
  | [] => None
  | (k', v) :: r => if key_eqb k' k then Some v else get r k
  end.

Definition contains (d : t) (k : pykey) : bool :=
  match get d k with Some _ => true | None => false end.

(** [d[k] = v]: a key already present keeps its place and takes the new
    value, a new key goes last. *)
Fixpoint set (d : t) (k : pykey) (v : pyval) : t :=
  match d with
  | [] => [(k, v)]
  | (k', v') :: r =>
      if key_eqb k' k then (k', v) :: r else (k', v') :: set r k v
  end.

(** [dict(pairs)] *)
Definition of_pairs (l : list (pykey * pyval)) : t :=
  fold_left (fun d kv => set d (fst kv) (snd kv)) l [].

End Dict.

(** [o[k]] for a string [k]. *)
Definition getitem (o : pyval) (k : string) : outcome pyval :=
  match o with
  | PDict d =>
      match Dict.get d (KStr k) with
      | Some v => Ok v
      | None => Raise (KeyError (KStr k))
      end
  | PList _ => Raise (TypeError "list indices must be integers or slices, not str")
  | PTuple _ => Raise (TypeError "tuple indices must be integers or slices, not str")
  | PStr _ => Raise (TypeError "string indices must be integers, not 'str'")
  | PNone => Raise (TypeError "'NoneType' object is not subscriptable")
  | PBool _ => Raise (TypeError "'bool' object is not subscriptable")
  | PInt _ => Raise (TypeError "'int' object is not subscriptable")
  end.

(** [o[k] = v] for a string [k]; only a [dict] takes it, anything else
    raises a [TypeError] with the message shown. *)
Definition setitem (o : pyval) (k : string) (v : pyval) : attempt pyval :=
  match o with
  | PDict d => Returned (PDict (Dict.set d (KStr k) v))
  | PList _ => Raised "list indices must be integers or slices, not str"
  | PTuple _ => Raised "'tuple' object does not support item assignment"
  | PStr _ => Raised "'str' object does not support item assignment"
  | PNone => Raised "'NoneType' object does not support item assignment"
  | PBool _ => Raised "'bool' object does not support item assignment"
  | PInt _ => Raised "'int' object does not support item assignment"
  end.

(** [len(d)] of a store. *)
Definition len (v : pyval) : nat :=
  match v with
  | PDict d => List.length d
  | PList l | PTuple l => List.length l
  | PStr s => String.length s
  | _ => 0
  end.

(** The value an f-string field [{v}] inserts; modelled for [str]. *)
Definition format_field (v : pyval) : outcome string :=
  match v with
  | PStr s => Ok s
  | _ => Unmodelled
  end.

(* ================================================================== *)
(** * The [json] module: encoder *)
(* ================================================================== *)

Module Json.
Import PyStr.

(** [int.__repr__]: decimal digits, a minus sign for negatives. *)
Definition digit_char (n : nat) : ascii := ascii_of_nat (48 + n).

Fixpoint digits (d : Decimal.uint) : string :=
  match d with
  | Decimal.Nil => EmptyString
  | Decimal.D0 r => String "0" (digits r)
  | Decimal.D1 r => String "1" (digits r)
  | Decimal.D2 r => String "2" (digits r)
  | Decimal.D3 r => String "3" (digits r)
  | Decimal.D4 r => String "4" (digits r)
  | Decimal.D5 r => String "5" (digits r)
  | Decimal.D6 r => String "6" (digits r)
  | Decimal.D7 r => String "7" (digits r)
  | Decimal.D8 r => String "8" (digits r)
  | Decimal.D9 r => String "9" (digits r)
  end.

Definition int_repr (z : Z) : string :=
  match z with
  | Z0 => "0"
  | Zpos p => digits (Pos.to_uint p)
  | Zneg p => String "-" (digits (Pos.to_uint p))
  end.

(** One lower-case hexadecimal digit, as ['{0:04x}'.format] prints it. *)
Definition hex_digit (n : nat) : ascii :=
  if (n <? 10)%nat then ascii_of_nat (48 + n) else ascii_of_nat (87 + n).

(** [ESCAPE_ASCII] and [ESCAPE_DCT] of [json.encoder]: the quote, the
    backslash and everything outside SPACE..~ are escaped; five control
    characters have a short form, the rest is [\u00xx]. *)
Definition escape_char (c : ascii) : string :=
  let n := code c in
  if Ascii.eqb c dquote then String backslash (String dquote EmptyString)
  else if Ascii.eqb c backslash then String backslash (String backslash EmptyString)
  else if (n =? 8)%nat then String backslash "b"
  else if (n =? 12)%nat then String backslash "f"
  else if (n =? 10)%nat then String backslash "n"
  else if (n =? 13)%nat then String backslash "r"
  else if (n =? 9)%nat then String backslash "t"
  else if ((32 <=? n) && (n <=? 126))%nat then String c EmptyString
  else String backslash
         (String "u" (String "0" (String "0"
            (String (hex_digit (n / 16))
               (String (hex_digit (n mod 16)) EmptyString))))).

Fixpoint escape (s : string) : string :=
  match s with
  | EmptyString => EmptyString
  | String c r => escape_char c ++ escape r
  end.

(** [py_encode_basestring_ascii] *)
Definition encode_basestring_ascii (s : string) : string :=
  String dquote (escape s ++ String dquote EmptyString).

(** A key as [_iterencode_dict] writes it: a [str] as it is, an [int]
    through [int.__repr__]. *)
Definition key_str (k : pykey) : string :=
  match k with
  | KStr s => s
  | KInt z => int_repr z
  end.

(** ['\n' + _indent * _current_indent_level] *)
Definition newline_indent (indent level : nat) : string :=
  String newline (spaces (indent * level)).

(** [_iterencode] of [json.encoder] with an integer [indent], the default
    separators of that case ([','] and [': ']) and [ensure_ascii]: the
    chunks it yields, concatenated.  Lists and tuples are written alike. *)
Fixpoint iterencode (indent level : nat) (o : pyval) : string :=
  match o with
  | PStr s => encode_basestring_ascii s
  | PNone => "null"
  | PBool true => "true"
  | PBool false => "false"
  | PInt z => int_repr z
  | PList l | PTuple l =>
      match l with
      | [] => "[]"
      | _ =>
          "[" ++ newline_indent indent (S level)
          ++ join ("," ++ newline_indent indent (S level))
                  (map (iterencode indent (S level)) l)
          ++ newline_indent indent level ++ "]"
      end
  | PDict d =>
      match d with
      | [] => "{}"
      | _ =>
          "{" ++ newline_indent indent (S level)
          ++ join ("," ++ newline_indent indent (S level))
                  (map (fun kv =>
                          encode_basestring_ascii (key_str (fst kv))
                          ++ ": " ++ iterencode indent (S level) (snd kv)) d)
          ++ newline_indent indent level ++ "}"
      end
  end.

(** [json.dumps(o, indent=indent)] *)
Definition dumps (o : pyval) (indent : nat) : string := iterencode indent 0 o.
Arguments dumps : simpl never.

(* ---------------------------------------------------------------- *)
(** ** Decoder *)

(** What a scanning function answers: a value and the text after it, a
    [JSONDecodeError], a text that leaves the model (a float, [NaN],
    an escape above U+00FF), or not enough fuel. *)
Inductive scan (A : Type) : Type :=
| Scanned (a : A) (rest : string)
| DecodeError
| NotModelled
| OutOfFuel.
Arguments Scanned {A} a rest.
Arguments DecodeError {A}.
Arguments NotModelled {A}.
Arguments OutOfFuel {A}.

Definition andThen {A B} (m : scan A) (k : A -> string -> scan B) : scan B :=
  match m with
  | Scanned a rest => k a rest
  | DecodeError => DecodeError
  | NotModelled => NotModelled
  | OutOfFuel => OutOfFuel
  end.

(** [WHITESPACE]: space, TAB, LF, CR. *)
Definition is_ws (c : ascii) : bool :=
  let n := code c in ((n =? 32) || (n =? 9) || (n =? 10) || (n =? 13))%nat.

Fixpoint skip_ws (s : string) : string :=
  match s with
  | EmptyString => EmptyString
  | String c r => if is_ws c then skip_ws r else s
  end.

Definition is_digit (c : ascii) : bool :=
  let n := code c in ((48 <=? n) && (n <=? 57))%nat.

(** [p] removed from the front of [s], when [s] starts with it. *)
Fixpoint strip_prefix (p s : string) : option string :=
  match p, s with
  | EmptyString, _ => Some s
  | String a p', String b s' =>
      if Ascii.eqb a b then strip_prefix p' s' else None
  | String _ _, EmptyString => None
  end.

Definition starts_with (p s : string) : bool :=
  match strip_prefix p s with Some _ => true | None => false end.

(** The value of a hexadecimal digit, either case. *)
Definition hex_val (c : ascii) : option nat :=
  let n := code c in
  if ((48 <=? n) && (n <=? 57))%nat then Some (n - 48)
  else if ((97 <=? n) && (n <=? 102))%nat then Some (n - 87)
  else if ((65 <=? n) && (n <=? 70))%nat then Some (n - 55)
  else None.

(** [_decode_uXXXX]: four hexadecimal digits. *)
Definition decode_uXXXX (h1 h2 h3 h4 : ascii) : option nat :=
  match hex_val h1, hex_val h2, hex_val h3, hex_val h4 with
  | Some a, Some b, Some c, Some d => Some (((a * 16 + b) * 16 + c) * 16 + d)
  | _, _, _, _ => None
  end.

(** [BACKSLASH] of [json.decoder]. *)
Definition unescape (e : ascii) : option ascii :=
  if Ascii.eqb e dquote then Some dquote
  else if Ascii.eqb e backslash then Some backslash
  else if Ascii.eqb e "/" then Some "/"%char
  else if Ascii.eqb e "b" then Some "008"%char
  else if Ascii.eqb e "f" then Some "012"%char
  else if Ascii.eqb e "n" then Some "010"%char
  else if Ascii.eqb e "r" then Some "013"%char
  else if Ascii.eqb e "t" then Some "009"%char
  else None.

Definition push (c : ascii) (m : scan string) : scan string :=
  andThen m (fun str rest => Scanned (String c str) rest).

(** [py_scanstring], strict, from just after the opening quote. *)
Fixpoint scanstring (s : string) : scan string :=
  match s with
  | EmptyString => DecodeError
  | String c r =>
      if Ascii.eqb c dquote then Scanned EmptyString r
      else if Ascii.eqb c backslash then
        match r with
        | EmptyString => DecodeError
        | String e r1 =>
            if Ascii.eqb e "u" then
              match r1 with
              | String h1 (String h2 (String h3 (String h4 r2))) =>
                  match decode_uXXXX h1 h2 h3 h4 with
                  | None => DecodeError
                  | Some n =>
                      if (n <? 256)%nat then push (ascii_of_nat n) (scanstring r2)
                      else NotModelled
                  end
              | _ => DecodeError
              end
            else
              match unescape e with
              | Some ch => push ch (scanstring r1)
              | None => DecodeError
              end
        end
      else if (code c <? 32)%nat then DecodeError
      else push c (scanstring r)
  end.

Definition cons_digit (c : ascii) (d : Decimal.uint) : Decimal.uint :=
  match code c - 48 with
  | 0 => Decimal.D0 d
  | 1 => Decimal.D1 d
  | 2 => Decimal.D2 d
  | 3 => Decimal.D3 d
  | 4 => Decimal.D4 d
  | 5 => Decimal.D5 d
  | 6 => Decimal.D6 d
  | 7 => Decimal.D7 d
  | 8 => Decimal.D8 d
  | _ => Decimal.D9 d
  end.

(** The longest run of digits at the front of [s], and what follows. *)
Fixpoint scan_digits (s : string) : Decimal.uint * string :=
  match s with
  | EmptyString => (Decimal.Nil, EmptyString)
  | String c r =>
      if is_digit c then
        let (d, rest) := scan_digits r in (cons_digit c d, rest)
      else (Decimal.Nil, s)
  end.

(** The fraction (a dot and a digit) and the exponent (e or E, an optional
    sign, a digit) of [NUMBER_RE]: either makes the number a float. *)
Definition starts_frac (s : string) : bool :=
  match s with
  | String "." (String d _) => is_digit d
  | _ => false
  end.

Definition starts_exp (s : string) : bool :=
  match s with
  | String e r =>
      if Ascii.eqb e "e" || Ascii.eqb e "E" then
        match r with
        | String sg (String d _) =>
            if Ascii.eqb sg "+" || Ascii.eqb sg "-" then is_digit d
            else is_digit sg
        | String d EmptyString => is_digit d
        | EmptyString => false
        end
      else false
  | EmptyString => false
  end.

(** The integer part of [NUMBER_RE] without its sign: a single zero, or a
    non-zero digit and the digits after it. *)
Definition scan_unsigned (t : string) : option (N * string) :=
  match t with
  | String c r =>
      if Ascii.eqb c "0" then Some (0%N, r)
      else if is_digit c then
        let (d, rest) := scan_digits t in Some (N.of_uint d, rest)
      else None
  | EmptyString => None
  end.

(** The integer part of [NUMBER_RE], with its optional minus sign: its
    value and what follows, or [None] when the text does not start with
    one. *)
Definition scan_int (s : string) : option (Z * string) :=
  match s with
  | String c r =>
      if Ascii.eqb c "-" then
        match scan_unsigned r with
        | Some (n, rest) => Some (Z.opp (Z.of_N n), rest)
        | None => None
        end
      else
        match scan_unsigned s with
        | Some (n, rest) => Some (Z.of_N n, rest)
        | None => None
        end
  | EmptyString => None
  end.

(** [match_number] and the constants tried after it in [_scan_once]. *)
Definition scan_number (s : string) : scan pyval :=
  match scan_int s with
  | Some (z, rest) =>
      if starts_frac rest || starts_exp rest then NotModelled
      else Scanned (PInt z) rest
  | None =>
      if starts_with "NaN" s || starts_with "Infinity" s
         || starts_with "-Infinity" s
      then NotModelled else DecodeError
  end.

Definition literal (word : string) (v : pyval) (s : string)
    (otherwise : scan pyval) : scan pyval :=
  match strip_prefix word s with
  | Some rest => Scanned v rest
  | None => otherwise
  end.

(** [_scan_once], [JSONArray] and [JSONObject] of [json.scanner] and
    [json.decoder].  [array_loop] starts at an element, [object_loop] just
    after the opening quote of a key.  Each call spends one unit of fuel;
    [loads] gives enough. *)
Fixpoint scan_once (fuel : nat) (s : string) {struct fuel} : scan pyval :=
  match fuel with
  | O => OutOfFuel
  | S fuel' =>
      match s with
      | EmptyString => DecodeError
      | String c r =>
          if Ascii.eqb c dquote then
            andThen (scanstring r) (fun str rest => Scanned (PStr str) rest)
          else if Ascii.eqb c "{" then
            match skip_ws r with
            | String c1 r1 =>
                if Ascii.eqb c1 "}" then Scanned (PDict []) r1
                else if Ascii.eqb c1 dquote then
                  andThen (object_loop fuel' r1)
                    (fun pairs rest => Scanned (PDict (Dict.of_pairs pairs)) rest)
                else DecodeError
            | EmptyString => DecodeError
            end
          else if Ascii.eqb c "[" then
            match skip_ws r with
            | String c1 r1 =>
                if Ascii.eqb c1 "]" then Scanned (PList []) r1
                else andThen (array_loop fuel' (String c1 r1))
                       (fun vs rest => Scanned (PList vs) rest)
            | EmptyString => DecodeError
            end
          else
            literal "null" PNone s
              (literal "true" (PBool true) s
                 (literal "false" (PBool false) s (scan_number s)))
      end
  end

with array_loop (fuel : nat) (s : string) {struct fuel}
  : scan (list pyval) :=
  match fuel with
  | O => OutOfFuel
  | S fuel' =>
      andThen (scan_once fuel' s) (fun v r =>
        match skip_ws r with
        | String c r1 =>
            if Ascii.eqb c "]" then Scanned [v] r1
            else if Ascii.eqb c "," then
              andThen (array_loop fuel' (skip_ws r1))
                (fun vs rest => Scanned (v :: vs) rest)
            else DecodeError
        | EmptyString => DecodeError
        end)
  end

with object_loop (fuel : nat) (s : string) {struct fuel}
  : scan (list (pykey * pyval)) :=
  match fuel with
  | O => OutOfFuel
  | S fuel' =>
      andThen (scanstring s) (fun key r =>
        match skip_ws r with
        | String c r1 =>
            if Ascii.eqb c ":" then
              andThen (scan_once fuel' (skip_ws r1)) (fun v r2 =>
                match skip_ws r2 with
                | String c2 r3 =>
                    if Ascii.eqb c2 "}" then Scanned [(KStr key, v)] r3
                    else if Ascii.eqb c2 "," then
                      match skip_ws r3 with
                      | String c3 r4 =>
                          if Ascii.eqb c3 dquote then
                            andThen (object_loop fuel' r4)
                              (fun ps rest => Scanned ((KStr key, v) :: ps) rest)
                          else DecodeError
                      | EmptyString => DecodeError
                      end
                    else DecodeError
                | EmptyString => DecodeError
                end)
            else DecodeError
        | EmptyString => DecodeError
        end)
  end.

(** The fuel [loads] gives to [scan_once]. *)
Definition fuel_for (s : string) : nat := 2 * String.length s + 1.

(** [json.loads(s)]: white space, one value, white space, the end.  The
    fuel given is always enough ([loads_fuel] below), so the last case
    never occurs. *)
Definition loads (s : string) : outcome pyval :=
  let s0 := skip_ws s in
  match scan_once (fuel_for s0) s0 with
  | Scanned v rest =>
      match skip_ws rest with
      | EmptyString => Ok v
      | String _ _ => Raise JSONDecodeError
      end
  | DecodeError => Raise JSONDecodeError
  | NotModelled => Unmodelled
  | OutOfFuel => Unmodelled
  end.

End Json.

(* ================================================================== *)
(** * The script *)
(* ================================================================== *)

(** ** [datetime.now().strftime("%Y-%m-%d %H:%M:%S")] *)

Record datetime : Type := mkDatetime {
  year : nat; month : nat; day : nat;
  hour : nat; minute : nat; second : nat
}.

Definition pad2 (n : nat) : string :=
  String (Json.digit_char (n / 10 mod 10))
    (String (Json.digit_char (n mod 10)) EmptyString).

Definition pad4 (n : nat) : string :=
  String (Json.digit_char (n / 1000 mod 10))
    (String (Json.digit_char (n / 100 mod 10)) (pad2 n)).

(** The clock of a running system: four-digit years.  (Below the year 1000
    the width of [%Y] depends on the platform.) *)
Definition valid_datetime (t : datetime) : Prop :=
  1000 <= year t < 10 * 1000 /\ 1 <= month t <= 12 /\ 1 <= day t <= 31
  /\ hour t < 24 /\ minute t < 60 /\ second t < 60.

Definition strftime (t : datetime) : string :=
  pad4 (year t) ++ "-" ++ pad2 (month t) ++ "-" ++ pad2 (day t) ++ " "
  ++ pad2 (hour t) ++ ":" ++ pad2 (minute t) ++ ":" ++ pad2 (second t).

Arguments strftime : simpl never.

(** The shape [YYYY-MM-DD HH:MM:SS]: in the mask, [d] stands for a digit
    and every other character for itself. *)
Fixpoint matches_mask (mask s : string) : bool :=
  match mask, s with
  | EmptyString, EmptyString => true
  | String m mask', String c s' =>
      (if Ascii.eqb m "d" then Json.is_digit c else Ascii.eqb m c)
      && matches_mask mask' s'
  | _, _ => false
  end.

Definition timestamp_format (s : string) : bool :=
  matches_mask "dddd-dd-dd dd:dd:dd" s.

(** ** What lies outside the script *)

(** The research library and the clock.  [AgentLaboratory key model] is the
    constructor, [lab_conduct_research key model topic notes] the method
    [conduct_research] of the instance built with [key] and [model]. *)
Record environment : Type := mkEnv {
  AgentLaboratory : string -> string -> attempt unit;
  lab_conduct_research : string -> string -> string -> pyval -> attempt pyval;
  datetime_now : datetime
}.

Inductive lab_call : Type :=
| NewLaboratory (key model_name : string)
| ConductResearch (key model_name topic : string) (task_notes : pyval).

(** What the page shows, in order. *)
Inductive ui : Type :=
| StError (msg : string)
| StSuccess (msg : string)
| StSpinner (msg : string)
| StHeader (text : string)
| StSubheader (text : string)
| StWrite (v : pyval)
| StJson (v : pyval)
| StButton (label : string)
| StDownloadButton (label data file_name mime : string).

Inductive view : Type := new_research | view_research.

(** [st.session_state], the file [research_results.json] ([None]: no such
    file; [disk_writable]: whether [open(..., "w")] succeeds), the page and
    the calls made to the library. *)
Record world : Type := mkWorld {
  api_key : option string;
  research_results : pyval;
  current_view : option view;
  selected_research : option string;
  results_file : option string;
  disk_writable : bool;
  page : list ui;
  lab_calls : list lab_call
}.

Definition show (e : ui) (w : world) : world :=
  mkWorld (api_key w) (research_results w) (current_view w)
    (selected_research w) (results_file w) (disk_writable w)
    (page w ++ [e])%list (lab_calls w).

Definition called (c : lab_call) (w : world) : world :=
  mkWorld (api_key w) (research_results w) (current_view w)
    (selected_research w) (results_file w) (disk_writable w)
    (page w) (lab_calls w ++ [c])%list.

Definition set_research_results (v : pyval) (w : world) : world :=
  mkWorld (api_key w) v (current_view w)
    (selected_research w) (results_file w) (disk_writable w)
    (page w) (lab_calls w).

Definition write_results_file (content : string) (w : world) : world :=
  mkWorld (api_key w) (research_results w) (current_view w)
    (selected_research w) (Some content) (disk_writable w)
    (page w) (lab_calls w).

(** [if st.session_state.api_key:] *)
Definition has_api_key (w : world) : bool :=
  match api_key w with
  | Some k => PyStr.truthy k
  | None => false
  end.

Definition the_api_key (w : world) : string :=
  match api_key w with
  | Some k => k
  | None => EmptyString
  end.

(** ** Persistence *)

(** [save_results]: the whole store, [indent=4], over the old file; a disk
    that refuses the write is ignored. *)
Definition save_results (w : world) : world :=
  if disk_writable w
  then write_results_file (Json.dumps (research_results w) 4) w
  else w.

(** The load at initialisation: an empty store, replaced by the content of
    the file when the file exists and parses. *)
Definition load_results (file : option string) : outcome pyval :=
  match file with
  | None => Ok (PDict [])
  | Some content =>
      match Json.loads content with
      | Ok v => Ok v
      | Raise _ => Ok (PDict [])
      | Unmodelled => Unmodelled
      end
  end.

(** A session that starts: store loaded, no key, no view chosen. *)
Definition init_session (file : option string) (writable : bool)
  : outcome world :=
  store <- load_results file ;;
  Ok (mkWorld None store None None file writable [] []).

(** ** Research dispatch *)

Definition nl : string := String PyStr.newline EmptyString.

Definition build_task_notes (focus_areas : string) : pyval :=
  PDict
    [ (KStr "focus_areas",
       PList (map (fun area => PStr (PyStr.strip area))
                  (PyStr.split "," focus_areas)));
      (KStr "experiment_preferences",
       PDict [ (KStr "dataset_size", PStr "small");
               (KStr "model_complexity", PStr "medium");
               (KStr "evaluation_metrics",
                PList [PStr "accuracy"; PStr "perplexity"]) ]) ].

Definition research_record (topic focus_areas : string) (results : pyval)
  : pyval :=
  PDict [ (KStr "topic", PStr topic);
          (KStr "focus_areas", PStr focus_areas);
          (KStr "results", results) ].

Definition error_during_research (str_e : string) : bool * string :=
  (false, "Error during research: " ++ str_e).

Definition conduct_research (env : environment) (topic focus_areas : string)
    (w : world) : (bool * string) * world :=
  if negb (has_api_key w) then
    ((false, "API key required"),
     show (StError "Please enter your OpenAI API key in the sidebar first!") w)
  else
    let key := the_api_key w in
    let w1 := called (NewLaboratory key "gpt-4o") w in
    match AgentLaboratory env key "gpt-4o" with
    | Raised m => (error_during_research m, w1)
    | Returned _ =>
        let task_notes := build_task_notes focus_areas in
        let w2 := show (StSpinner "Conducting research...") w1 in
        let w3 := called (ConductResearch key "gpt-4o" topic task_notes) w2 in
        match lab_conduct_research env key "gpt-4o" topic task_notes with
        | Raised m => (error_during_research m, w3)
        | Returned results =>
            let timestamp := strftime (datetime_now env) in
            match setitem (research_results w3) timestamp
                    (research_record topic focus_areas results) with
            | Raised m => (error_during_research m, w3)
            | Returned store =>
                ((true, "Research completed successfully!"),
                 save_results (set_research_results store w3))
            end
        end
    end.

(** ** The form of the [new_research] view *)

Definition research_form (env : environment) (topic focus_areas : string)
    (submitted : bool) (w : world) : world :=
  if submitted then
    if negb (has_api_key w) then
      show (StError "Please enter your OpenAI API key in the sidebar first!") w
    else if PyStr.truthy topic && PyStr.truthy focus_areas then
      let '((success, message), w1) := conduct_research env topic focus_areas w in
      if success then show (StSuccess message) w1
      else show (StError message) w1
    else w
  else w.

(** ** The [view_research] view and its export *)

(** [md_content] of the export. *)
Definition md_content (research : pyval) : outcome string :=
  topic <- getitem research "topic" ;;
  t <- format_field topic ;;
  let md1 := "# Research Results: " ++ t ++ nl ++ nl in
  focus <- getitem research "focus_areas" ;;
  f <- format_field focus ;;
  let md2 := md1 ++ ("## Focus Areas" ++ nl ++ f ++ nl ++ nl) in
  results <- getitem research "results" ;;
  Ok (md2 ++ ("## Results" ++ nl ++ "```json" ++ nl
              ++ Json.dumps results 2 ++ nl ++ "```")).

(** [file_name] of the export. *)
Definition file_name (research : pyval) : outcome string :=
  topic <- getitem research "topic" ;;
  t <- format_field topic ;;
  Ok ("research_" ++ PyStr.replace " " "_" (PyStr.lower t) ++ ".md").

Definition view_research_page (export_clicked : bool) (w : world)
  : outcome world :=
  match selected_research w with
  | None => Ok w
  | Some selected =>
      research <- getitem (research_results w) selected ;;
      topic <- getitem research "topic" ;;
      t <- format_field topic ;;
      let w1 := show (StHeader ("Research Results: " ++ t)) w in
      let w2 := show (StSubheader "Focus Areas") w1 in
      focus <- getitem research "focus_areas" ;;
      let w3 := show (StWrite focus) w2 in
      let w4 := show (StSubheader "Results") w3 in
      results <- getitem research "results" ;;
      let w5 := show (StJson results) w4 in
      let w6 := show (StButton "Export as Markdown") w5 in
      if export_clicked then
        md <- md_content research ;;
        name <- file_name research ;;
        Ok (show (StDownloadButton "Download Markdown" md name "text/markdown") w6)
      else Ok w6
  end.

(** ** The sidebar *)

(** What the user did before a run of the script: the text in the key box,
    the buttons pressed (a record button is named by its [key], the
    timestamp), the text in the two fields of the form and whether the form
    was submitted. *)
Record inputs : Type := mkInputs {
  in_api_key : string;
  in_new_research : bool;
  in_record : string -> bool;
  in_topic : string;
  in_focus_areas : string;
  in_submitted : bool;
  in_export : bool
}.

(** What the sidebar shows, in order.  The texts that carry a pictogram
    are constructors of their own: [SbKeySet] is the [st.success] saying
    that the key is set, [SbKeyMissing] the [st.warning] asking for it, and
    [SbRecordButton topic key] the button of a record, labelled with a
    bookmark sign and the topic. *)
Inductive sidebar_ui : Type :=
| SbHeader (text : string)
| SbKeyInput (label : string)
| SbKeySet
| SbKeyMissing
| SbButton (label : string)
| SbSubheader (text : string)
| SbRecordButton (topic key : string).

(** An exception that nothing catches ends the run. *)
Inductive uncaught : Type :=
| Lookup (e : exn)
| AttributeError (msg : string).

(** A run of the script, or of a part of it: it completes, it ends with
    an uncaught exception, or it leaves the modelled fragment. *)
Inductive run (A : Type) : Type :=
| Completed (a : A)
| Crashed (u : uncaught)
| Beyond.
Arguments Completed {A} a.
Arguments Crashed {A} u.
Arguments Beyond {A}.

Definition set_api_key (k : option string) (w : world) : world :=
  mkWorld k (research_results w) (current_view w)
    (selected_research w) (results_file w) (disk_writable w)
    (page w) (lab_calls w).

Definition set_current_view (v : view) (w : world) : world :=
  mkWorld (api_key w) (research_results w) (Some v)
    (selected_research w) (results_file w) (disk_writable w)
    (page w) (lab_calls w).

(** The two assignments made when a record button is pressed. *)
Definition select (timestamp : string) (w : world) : world :=
  mkWorld (api_key w) (research_results w) (Some view_research)
    (Some timestamp) (results_file w) (disk_writable w)
    (page w) (lab_calls w).

(** The script draws the page anew at every run. *)
Definition clear_page (w : world) : world :=
  mkWorld (api_key w) (research_results w) (current_view w)
    (selected_research w) (results_file w) (disk_writable w)
    [] (lab_calls w).

(** Truthiness of a value: [if v:] *)
Definition truthy_value (v : pyval) : bool :=
  match v with
  | PNone => false
  | PBool b => b
  | PInt z => negb (Z.eqb z 0)
  | PStr s => PyStr.truthy s
  | PList l | PTuple l => match l with [] => false | _ => true end
  | PDict d => match d with [] => false | _ => true end
  end.

(** [str(e)] of the [AttributeError] that [v.items()] raises when [v] is
    no dict. *)
Definition no_items_message (v : pyval) : string :=
  match v with
  | PList _ => "'list' object has no attribute 'items'"
  | PTuple _ => "'tuple' object has no attribute 'items'"
  | PStr _ => "'str' object has no attribute 'items'"
  | PInt _ => "'int' object has no attribute 'items'"
  | PBool _ => "'bool' object has no attribute 'items'"
  | PNone => "'NoneType' object has no attribute 'items'"
  | PDict _ => EmptyString
  end.

(** The loop over [research_results.items()]: one button per record; a
    pressed button selects its record.  A key that is no string would make
    [selected_research] an integer, which [world] does not hold. *)
Fixpoint record_buttons (clicked : string -> bool) (items : Dict.t)
    (w : world) (shown : list sidebar_ui) : run (world * list sidebar_ui) :=
  match items with
  | [] => Completed (w, shown)
  | (k, research) :: rest =>
      match getitem research "topic" with
      | Raise e => Crashed (Lookup e)
      | Unmodelled => Beyond
      | Ok topic =>
          match format_field topic, k with
          | Ok t, KStr timestamp =>
              let shown' := (shown ++ [SbRecordButton t timestamp])%list in
              if clicked timestamp
              then record_buttons clicked rest (select timestamp w) shown'
              else record_buttons clicked rest w shown'
          | _, _ => Beyond
          end
      end
  end.

(** The block [with st.sidebar:].  The widgets are taken for what the
    script sees of them, their return values; the bookkeeping of the
    framework (widget identities, the stored text of the box) is not part
    of the model. *)
Definition sidebar (inp : inputs) (w : world) : run (world * list sidebar_ui) :=
  let w1 := if PyStr.truthy (in_api_key inp)
            then set_api_key (Some (in_api_key inp)) w else w in
  let shown :=
    [ SbHeader "Research Projects";
      SbKeyInput "Enter your OpenAI API Key";
      (if has_api_key w1 then SbKeySet else SbKeyMissing);
      SbButton "New Research" ] in
  let w2 := if in_new_research inp then set_current_view new_research w1
            else w1 in
  if truthy_value (research_results w2) then
    match research_results w2 with
    | PDict d =>
        record_buttons (in_record inp) d w2
          (shown ++ [SbSubheader "Previous Research"])%list
    | other => Crashed (AttributeError (no_items_message other))
    end
  else Completed (w2, shown).

(** ** The main panel and a whole run *)

(** The code after [conduct_research]: the view defaults to the form; the
    form is a header, the two fields (present through [in_topic] and
    [in_focus_areas]), the submit button and what a submission shows. *)
Definition main_panel (env : environment) (inp : inputs) (w : world)
  : outcome world :=
  let w1 := match current_view w with
            | None => set_current_view new_research w
            | Some _ => w
            end in
  match current_view w1 with
  | Some new_research =>
      let w2 := show (StHeader "New Research") w1 in
      let w3 := show (StButton "Start Research") w2 in
      Ok (research_form env (in_topic inp) (in_focus_areas inp)
            (in_submitted inp) w3)
  | Some view_research => view_research_page (in_export inp) w1
  | None => Ok w1
  end.

(** One run of the script in a session that exists: the sidebar, then the
    main panel.  [page] holds what the main panel shows in this run, the
    text fields of the form apart.  The banner above it (the logo, or the
    title when the logo cannot be loaded) and [set_page_config] are left
    out: they neither read nor write the session. *)
Definition script (env : environment) (inp : inputs) (w : world)
  : run (world * list sidebar_ui) :=
  match sidebar inp (clear_page w) with
  | Completed (w1, shown) =>
      match main_panel env inp w1 with
      | Ok w2 => Completed (w2, shown)
      | Raise e => Crashed (Lookup e)
      | Unmodelled => Beyond
      end
  | Crashed u => Crashed u
  | Beyond => Beyond
  end.

(** A session: one run after the other, each with the library and the
    clock of its moment and with what the user did. *)
Fixpoint session_runs (steps : list (environment * inputs)) (w : world)
  : run world :=
  match steps with
  | [] => Completed w
  | (env, inp) :: rest =>
      match script env inp w with
      | Completed (w1, _) => session_runs rest w1
      | Crashed u => Crashed u
      | Beyond => Beyond
      end
  end.

(* ================================================================== *)
(** * Predicates used in the statements *)
(* ================================================================== *)

Definition is_str_key (k : pykey) : bool :=
  match k with KStr _ => true | KInt _ => false end.

(** No key twice, as in every Python [dict]. *)
Fixpoint nodup_keys (l : list pykey) : bool :=
  match l with
  | [] => true
  | k :: r => negb (existsb (key_eqb k) r) && nodup_keys r
  end.

(** The values that JSON has a form of its own for: [None], booleans,
    integers, strings, lists and dicts with string keys.  A tuple is written
    as a list and an integer key as a string, so they are left out. *)
Fixpoint json_native (v : pyval) : bool :=
  match v with
  | PNone | PBool _ | PInt _ | PStr _ => true
  | PList l => forallb json_native l
  | PTuple _ => false
  | PDict d =>
      forallb (fun kv => is_str_key (fst kv) && json_native (snd kv)) d
      && nodup_keys (map fst d)
  end.

(** A research record: a dict with a string [topic], a string
    [focus_areas] and some [results]. *)
Definition is_research_record (r : pyval) : bool :=
  match getitem r "topic", getitem r "focus_areas", getitem r "results" with
  | Ok (PStr _), Ok (PStr _), Ok _ => true
  | _, _, _ => false
  end.

(** A research store: a dict from strings to research records. *)
Definition is_research_store (v : pyval) : bool :=
  match v with
  | PDict d =>
      forallb (fun kv => is_str_key (fst kv) && is_research_record (snd kv)) d
  | _ => false
  end.

(** The data and the file name of the download button shown last. *)
Definition last_download (w : world) : option (string * string) :=
  match List.last (page w) (StButton EmptyString) with
  | StDownloadButton _ data name _ => Some (data, name)
  | _ => None
  end.

(** Upper-case ASCII letters. *)
Definition is_ascii_upper (c : ascii) : bool :=
  let n := PyStr.code c in ((65 <=? n) && (n <=? 90))%nat.

Fixpoint string_forallb (p : ascii -> bool) (s : string) : bool :=
  match s with
  | EmptyString => true
  | String c r => p c && string_forallb p r
  end.

Fixpoint count_char (c : ascii) (s : string) : nat :=
  match s with
  | EmptyString => 0
  | String d r => (if Ascii.eqb d c then 1 else 0) + count_char c r
  end.

(** What may follow a value in the text the encoder writes: the end, a
    comma or a line break. *)
Definition delimited (rest : string) : bool :=
  match rest with
  | EmptyString => true
  | String c _ => Ascii.eqb c "," || Ascii.eqb c PyStr.newline
  end.

(** A text that does not start with white space. *)
Definition starts_value (s : string) : bool :=
  match s with
  | EmptyString => false
  | String c _ => negb (Json.is_ws c)
  end.

(** The fuel that scanning the text of a value takes: one unit for the
    value and one more for each element or member, all the way down. *)
Fixpoint size (v : pyval) : nat :=
  match v with
  | PList l | PTuple l => S (list_sum (map (fun x => S (size x)) l))
  | PDict d => S (list_sum (map (fun kv => S (size (snd kv))) d))
  | _ => 1
  end.

(** The selected key, when there is one, is a key of the store. *)
Definition selection_valid (w : world) : bool :=
  match selected_research w with
  | None => true
  | Some selected =>
      match research_results w with
      | PDict d => Dict.contains d (KStr selected)
      | _ => false
      end
  end.

(** The viewer is only shown with a record selected. *)
Definition view_consistent (w : world) : bool :=
  match current_view w, selected_research w with
  | Some view_research, None => false
  | _, _ => true
  end.

(** A session in order: its store is a research store, its selection is
    in the store, and its view has what it needs. *)
Definition session_ok (w : world) : bool :=
  is_research_store (research_results w)
  && selection_valid w && view_consistent w.

(** The topic of a record and the text of a key, for the buttons of the
    sidebar. *)
Definition topic_of (research : pyval) : string :=
  match getitem research "topic" with
  | Ok (PStr t) => t
  | _ => EmptyString
  end.

Definition key_text (k : pykey) : string :=
  match k with
  | KStr s => s
  | KInt _ => EmptyString
  end.

Definition record_button (kv : pykey * pyval) : sidebar_ui :=
  SbRecordButton (topic_of (snd kv)) (key_text (fst kv)).

(** The key of the last pressed button among the buttons of [keys]. *)
Fixpoint last_clicked (clicked : string -> bool) (keys : list pykey)
  : option string :=
  match keys with
  | [] => None
  | k :: rest =>
      match last_clicked clicked rest, k with
      | Some later, _ => Some later
      | None, KStr s => if clicked s then Some s else None
      | None, KInt _ => None
      end
  end.

Definition is_dict (v : pyval) : bool :=
  match v with PDict _ => true | _ => false end.

(** The key a call to the library was made with. *)
Definition call_key (c : lab_call) : string :=
  match c with
  | NewLaboratory key _ => key
  | ConductResearch key _ _ _ => key
  end.

(** The text has white space neither at its start nor at its end. *)
Definition trimmed (s : string) : bool :=
  match PyStr.first_char s, PyStr.last_char s with
  | Some a, Some b => negb (PyStr.isspace a) && negb (PyStr.isspace b)
  | _, _ => true
  end.

Definition is_download (e : ui) : bool :=
  match e with
  | StDownloadButton _ _ _ _ => true
  | _ => false
  end.

(* ================================================================== *)
(** * Concrete scenarios *)
(* ================================================================== *)

(** A library stub that answers [answer] whatever it is asked, and a clock
    stopped at [now]. *)
Definition stub_env (now : datetime) (answer : attempt pyval) : environment :=
  mkEnv (fun _ _ => Returned tt) (fun _ _ _ _ => answer) now.

Definition new_year : datetime := mkDatetime 2024 1 1 0 0 0.

Definition stub_results : pyval :=
  PDict [(KStr "summary", PStr "ok"); (KStr "score", PInt 9)].

(** A session on the form, with a writable disk and no file yet. *)
Definition session (key : option string) (store : pyval) : world :=
  mkWorld key store (Some new_research) None None true [] [].

(** A store that already holds a record made at [new_year]. *)
Definition old_store : pyval :=
  PDict [(KStr "2024-01-01 00:00:00",
          research_record "Earlier topic" "earlier" PNone)].

(** A store whose record holds a tuple. *)
Definition tuple_store : pyval :=
  PDict [(KStr "2024-01-01 00:00:00",
          research_record "Pairs" "order" (PTuple [PInt 1; PInt 2]))].

(** A session looking at the record of [old_store]. *)
Definition viewing (key : option string) (store : pyval) (selected : string)
  : world :=
  mkWorld key store (Some view_research) (Some selected) None true [] [].

(** Nothing typed, nothing pressed. *)
Definition idle : inputs :=
  mkInputs EmptyString false (fun _ => false) EmptyString EmptyString
    false false.

(** The button of the record [key] pressed. *)
Definition press_record (key : string) : inputs :=
  mkInputs EmptyString false (String.eqb key) EmptyString EmptyString
    false false.

(** The form submitted with a topic and focus areas. *)
Definition submit (topic focus_areas : string) : inputs :=
  mkInputs EmptyString false (fun _ => false) topic focus_areas true false.

Definition christmas : datetime := mkDatetime 2024 12 25 18 30 5.

(** A session on the form whose disk refuses every write. *)
Definition read_only_session (key : option string) (store : pyval) : world :=
  mkWorld key store (Some new_research) None None false [] [].

(** A session whose selection is not in its store. *)
Definition dangling : world :=
  mkWorld None old_store (Some view_research) (Some "1999-12-31 23:59:59")
    None true [] [].

(** The key typed in the box, nothing else. *)
Definition type_key (key : string) : inputs :=
  mkInputs key false (fun _ => false) EmptyString EmptyString false false.

(* ================================================================== *)
(** * Facts about the string primitives *)
(* ================================================================== *)

Section StringFacts.
Import PyStr.

Lemma append_assoc (a b c : string) : (a ++ b) ++ c = a ++ (b ++ c).
Proof. induction a as [|x a IH]; simpl; [reflexivity | now rewrite IH]. Qed.

Lemma append_nil_r (a : string) : a ++ EmptyString = a.
Proof. induction a as [|x a IH]; simpl; [reflexivity | now rewrite IH]. Qed.

Lemma length_append (a b : string) :
  String.length (a ++ b) = String.length a + String.length b.
Proof. induction a as [|x a IH]; simpl; [reflexivity | now rewrite IH]. Qed.

Lemma split_nonempty sep s : split sep s <> [].
Proof.
  destruct s as [|c r]; simpl; [discriminate|].
  destruct (Ascii.eqb c sep); [discriminate|].
  destruct (split sep r); discriminate.
Qed.

(** Joining the pieces with the separator gives the text back. *)
Lemma join_split sep s : join (String sep EmptyString) (split sep s) = s.
Proof.
  induction s as [|c r IH]; simpl; [reflexivity|].
  destruct (Ascii.eqb_spec c sep) as [->|Hne].
  - pose proof (split_nonempty sep r) as Hn.
    destruct (split sep r) as [|p ps]; [contradiction|].
    change (join (String sep EmptyString) (EmptyString :: p :: ps))
      with (String sep (join (String sep EmptyString) (p :: ps))).
    now rewrite IH.
  - pose proof (split_nonempty sep r) as Hn.
    destruct (split sep r) as [|p ps]; [contradiction|].
    destruct ps as [|q qs]; simpl in *; now rewrite IH.
Qed.

(** One more piece than there are separators. *)
Lemma split_length sep s :
  List.length (split sep s) = S (count_char sep s).
Proof.
  induction s as [|c r IH]; simpl; [reflexivity|].
  destruct (Ascii.eqb c sep); simpl; [now rewrite IH|].
  pose proof (split_nonempty sep r) as Hn.
  destruct (split sep r) as [|p ps]; [contradiction|].
  simpl in *; exact IH.
Qed.

(** No piece contains the separator. *)
Lemma split_no_sep sep s :
  Forall (fun p => mem sep p = false) (split sep s).
Proof.
  induction s as [|c r IH]; simpl.
  - constructor; [reflexivity | constructor].
  - destruct (Ascii.eqb_spec c sep) as [->|Hne].
    + constructor; [reflexivity | exact IH].
    + destruct (split sep r) as [|p ps].
      * constructor; [|constructor]. simpl.
        rewrite Ascii.eqb_sym.
        destruct (Ascii.eqb_spec c sep); [contradiction | reflexivity].
      * inversion IH as [|? ? Hp Hps]; subst.
        constructor; [|exact Hps]. simpl.
        rewrite Ascii.eqb_sym.
        destruct (Ascii.eqb_spec c sep); [contradiction | exact Hp].
Qed.

Lemma lstrip_spec s :
  exists l, s = l ++ lstrip s /\ string_forallb isspace l = true.
Proof.
  induction s as [|c r [l [Hl Hws]]]; simpl.
  - exists EmptyString; split; reflexivity.
  - destruct (isspace c) eqn:Hc.
    + exists (String c l); simpl; rewrite Hc, Hws; split; [now rewrite <- Hl | reflexivity].
    + exists EmptyString; split; reflexivity.
Qed.

Lemma lstrip_first s c : first_char (lstrip s) = Some c -> isspace c = false.
Proof.
  induction s as [|d r IH]; simpl; [discriminate|].
  destruct (isspace d) eqn:Hd; [exact IH|].
  simpl; intros H; injection H as <-; exact Hd.
Qed.

Lemma rstrip_spec s :
  exists r, s = rstrip s ++ r /\ string_forallb isspace r = true.
Proof.
  induction s as [|c t [r [Hr Hws]]]; simpl.
  - exists EmptyString; split; reflexivity.
  - destruct (rstrip t) as [|d u] eqn:Ht.
    + simpl in Hr; subst t.
      destruct (isspace c) eqn:Hc.
      * exists (String c r); simpl; rewrite Hc, Hws; split; reflexivity.
      * exists r; split; [reflexivity | exact Hws].
    + exists r; split; [simpl; now rewrite Hr at 1 | exact Hws].
Qed.

Lemma rstrip_last s c : last_char (rstrip s) = Some c -> isspace c = false.
Proof.
  induction s as [|d t IH]; simpl; [discriminate|].
  destruct (rstrip t) as [|e u] eqn:Ht.
  - destruct (isspace d) eqn:Hd; simpl; [discriminate|].
    intros H; injection H as <-; exact Hd.
  - intros H; apply IH. exact H.
Qed.

Lemma rstrip_first s c :
  first_char (rstrip s) = Some c -> first_char s = Some c.
Proof.
  destruct s as [|d t]; simpl; [discriminate|].
  destruct (rstrip t); [destruct (isspace d)|]; simpl; intros H;
    try discriminate; exact H.
Qed.

(** [strip] removes white space at both ends and nothing else. *)
Lemma strip_spec s :
  exists l r,
    s = l ++ strip s ++ r
    /\ string_forallb isspace l = true
    /\ string_forallb isspace r = true
    /\ (forall c, first_char (strip s) = Some c -> isspace c = false)
    /\ (forall c, last_char (strip s) = Some c -> isspace c = false).
Proof.
  destruct (lstrip_spec s) as [l [Hl Hlw]].
  destruct (rstrip_spec (lstrip s)) as [r [Hr Hrw]].
  exists l, r; unfold strip; repeat split; auto.
  - now rewrite <- Hr.
  - intros c H. apply (lstrip_first s), rstrip_first, H.
  - intros c H. apply (rstrip_last (lstrip s)), H.
Qed.

(** After [replace old new], [old] is gone when [new] does not bring it
    back. *)
Lemma mem_append c a b : mem c (a ++ b) = mem c a || mem c b.
Proof.
  induction a as [|x a IH]; simpl; [reflexivity|].
  now rewrite IH, orb_assoc.
Qed.

Lemma replace_removes old new s :
  mem old new = false -> mem old (replace old new s) = false.
Proof.
  intros Hn; induction s as [|c r IH]; simpl; [reflexivity|].
  destruct (Ascii.eqb_spec c old) as [->|Hne].
  - now rewrite mem_append, Hn, IH.
  - simpl. rewrite IH, orb_false_r.
    destruct (Ascii.eqb_spec old c); [congruence | reflexivity].
Qed.

Lemma lower_char_not_upper c : is_ascii_upper (lower_char c) = false.
Proof.
  destruct c as [[] [] [] [] [] [] [] []]; reflexivity.
Qed.

Lemma lower_no_upper s :
  string_forallb (fun c => negb (is_ascii_upper c)) (lower s) = true.
Proof.
  unfold lower; induction s as [|c r IH]; simpl; [reflexivity|].
  rewrite lower_char_not_upper; exact IH.
Qed.

Lemma lower_length s : String.length (lower s) = String.length s.
Proof.
  unfold lower; induction s as [|c r IH]; simpl; [reflexivity | now rewrite IH].
Qed.

End StringFacts.

(* ================================================================== *)
(** * Dictionaries and the clock *)
(* ================================================================== *)

Section DictFacts.

Lemma key_eqb_spec a b : reflect (a = b) (key_eqb a b).
Proof.
  destruct a as [s|x], b as [t|y]; simpl; try (constructor; discriminate).
  - destruct (String.eqb_spec s t); constructor; congruence.
  - destruct (Z.eqb_spec x y); constructor; congruence.
Qed.

Lemma key_eqb_refl a : key_eqb a a = true.
Proof. destruct (key_eqb_spec a a); congruence. Qed.

Lemma get_set_same d k v : Dict.get (Dict.set d k v) k = Some v.
Proof.
  induction d as [|[k' v'] r IH]; simpl.
  - now rewrite key_eqb_refl.
  - destruct (key_eqb k' k) eqn:E; simpl; rewrite E; [reflexivity | exact IH].
Qed.

Lemma get_set_other d k v k' :
  k' <> k -> Dict.get (Dict.set d k v) k' = Dict.get d k'.
Proof.
  intros Hne; induction d as [|[k0 v0] r IH]; simpl.
  - destruct (key_eqb_spec k k'); [congruence | reflexivity].
  - destruct (key_eqb_spec k0 k) as [->|Hk]; simpl.
    + destruct (key_eqb_spec k k'); [congruence | reflexivity].
    + destruct (key_eqb k0 k'); [reflexivity | exact IH].
Qed.

Lemma length_set_new d k v :
  Dict.contains d k = false ->
  List.length (Dict.set d k v) = S (List.length d).
Proof.
  unfold Dict.contains; induction d as [|[k0 v0] r IH]; simpl; [reflexivity|].
  destruct (key_eqb k0 k); [discriminate|].
  intros H; simpl; now rewrite IH.
Qed.

Lemma length_set_old d k v :
  Dict.contains d k = true ->
  List.length (Dict.set d k v) = List.length d.
Proof.
  unfold Dict.contains; induction d as [|[k0 v0] r IH]; simpl; [discriminate|].
  destruct (key_eqb k0 k); [reflexivity|].
  intros H; simpl; now rewrite IH.
Qed.

Lemma digit_char_is_digit k : k < 10 -> Json.is_digit (Json.digit_char k) = true.
Proof.
  intros H.
  do 10 (destruct k as [|k]; [reflexivity|]); lia.
Qed.

Lemma mod10_digit n : Json.is_digit (Json.digit_char (n mod 10)) = true.
Proof. apply digit_char_is_digit, Nat.mod_upper_bound; discriminate. Qed.

(** The key has the shape [YYYY-MM-DD HH:MM:SS]. *)
Lemma strftime_format t : timestamp_format (strftime t) = true.
Proof.
  unfold timestamp_format, strftime, pad4, pad2.
  cbn -[Nat.div Nat.modulo Json.is_digit Json.digit_char].
  now rewrite !mod10_digit.
Qed.

End DictFacts.

(* ================================================================== *)
(** * Research dispatch *)
(* ================================================================== *)

Section Dispatch.

Variable env : environment.
Variables topic focus_areas : string.
Variable w : world.

Local Abbreviation key := (the_api_key w).
Local Abbreviation out := (conduct_research env topic focus_areas w).

(** C2.  Without an API key in the session, [conduct_research] returns
    [(False, "API key required")], shows an error, and changes nothing
    else: the store and the file are as before and the library is not
    called. *)
Theorem conduct_research_without_key :
  has_api_key w = false ->
  fst out = (false, "API key required")
  /\ page (snd out)
     = (page w ++ [StError "Please enter your OpenAI API key in the sidebar first!"])%list
  /\ research_results (snd out) = research_results w
  /\ results_file (snd out) = results_file w
  /\ lab_calls (snd out) = lab_calls w.
Proof.
  intros Hk; unfold conduct_research; rewrite Hk; simpl.
  repeat split.
Qed.

(** C3.  When the library raises, in its constructor or in its
    [conduct_research], the exception is caught: the call returns [False]
    with a message that ends with [str(e)], and neither the store nor the
    file has changed. *)
Theorem conduct_research_library_raises (m : string) :
  has_api_key w = true ->
  AgentLaboratory env key "gpt-4o" = Raised m
  \/ (AgentLaboratory env key "gpt-4o" = Returned tt
      /\ lab_conduct_research env key "gpt-4o" topic
           (build_task_notes focus_areas) = Raised m) ->
  fst out = (false, "Error during research: " ++ m)
  /\ research_results (snd out) = research_results w
  /\ results_file (snd out) = results_file w.
Proof.
  intros Hk H; unfold conduct_research; rewrite Hk; simpl.
  destruct H as [H | [H1 H2]].
  - rewrite H; repeat split.
  - rewrite H1, H2; repeat split.
Qed.


(** C1, as amended.  With a key, a store that is a dict and a library that
    returns [results], the call succeeds; the store then holds, under the
    key [strftime now], a record with the topic and the focus areas as
    submitted and the library's results; the other keys keep their values;
    the store is saved when the disk takes the write.  The store grows by
    one entry when the key was not in use, and keeps its size, the older
    record being replaced, when it was. *)
Theorem conduct_research_success (d : Dict.t) (results : pyval) :
  has_api_key w = true ->
  research_results w = PDict d ->
  AgentLaboratory env key "gpt-4o" = Returned tt ->
  lab_conduct_research env key "gpt-4o" topic
    (build_task_notes focus_areas) = Returned results ->
  valid_datetime (datetime_now env) ->
  let timestamp := strftime (datetime_now env) in
  let store := research_results (snd out) in
  fst out = (true, "Research completed successfully!")
  /\ timestamp_format timestamp = true
  /\ (exists record,
        getitem store timestamp = Ok record
        /\ getitem record "topic" = Ok (PStr topic)
        /\ getitem record "focus_areas" = Ok (PStr focus_areas)
        /\ getitem record "results" = Ok results)
  /\ (exists d', store = PDict d'
        /\ forall k, k <> KStr timestamp -> Dict.get d' k = Dict.get d k)
  /\ (Dict.contains d (KStr timestamp) = false ->
      len store = S (len (research_results w)))
  /\ (Dict.contains d (KStr timestamp) = true ->
      len store = len (research_results w))
  /\ results_file (snd out)
     = (if disk_writable w then Some (Json.dumps store 4) else results_file w).
Proof.
  intros Hk Hd Hnew Hrun _ timestamp store.
  assert (Hout : out = ((true, "Research completed successfully!"),
                        save_results
                          (set_research_results
                             (PDict (Dict.set d (KStr timestamp)
                                       (research_record topic focus_areas results)))
                             (called (ConductResearch key "gpt-4o" topic
                                        (build_task_notes focus_areas))
                                (show (StSpinner "Conducting research...")
                                   (called (NewLaboratory key "gpt-4o") w)))))).
  { unfold conduct_research; rewrite Hk; simpl.
    rewrite Hnew, Hrun; simpl. rewrite Hd; reflexivity. }
  assert (Hstore : store = PDict (Dict.set d (KStr timestamp)
                                    (research_record topic focus_areas results))).
  { subst store; rewrite Hout; unfold save_results; simpl.
    destruct (disk_writable w); reflexivity. }
  split; [now rewrite Hout|].
  split; [apply strftime_format|].
  split.
  { exists (research_record topic focus_areas results).
    rewrite Hstore; simpl; rewrite get_set_same. repeat split. }
  split.
  { eexists; split; [exact Hstore|]. intros k Hne. now apply get_set_other. }
  split; [intros Hc; rewrite Hstore, Hd; simpl; now apply length_set_new|].
  split; [intros Hc; rewrite Hstore, Hd; simpl; now apply length_set_old|].
  rewrite Hstore. rewrite Hout; unfold save_results; simpl.
  destruct (disk_writable w); reflexivity.
Qed.

(** C8.  A form submitted with a key but with an empty topic or empty
    focus areas does nothing at all: nothing is shown, the library is not
    called, the store and the file stay as they are. *)
Theorem research_form_empty_field :
  has_api_key w = true ->
  topic = EmptyString \/ focus_areas = EmptyString ->
  research_form env topic focus_areas true w = w.
Proof.
  intros Hk H; unfold research_form; rewrite Hk; simpl.
  destruct H as [-> | ->]; simpl; [reflexivity|].
  now rewrite andb_false_r.
Qed.

End Dispatch.

(** The scenario of C1 that the claim leaves out: a second record made
    within the same second.  The call succeeds, the key was in use, and the
    store has one entry before and one entry after. *)
Lemma conduct_research_same_second :
  let env := stub_env new_year (Returned stub_results) in
  let w := session (Some "sk-test") old_store in
  let out := conduct_research env "Graph Neural Networks"
               "scalability, robustness" w in
  fst out = (true, "Research completed successfully!")
  /\ getitem (research_results w) (strftime (datetime_now env))
     = Ok (research_record "Earlier topic" "earlier" PNone)
  /\ len (research_results w) = 1
  /\ len (research_results (snd out)) = 1
  /\ len (research_results (snd out)) <> S (len (research_results w)).
Proof. vm_compute. repeat split; discriminate. Qed.

Lemma conduct_research_without_key_witness :
  has_api_key (session None (PDict [])) = false
  /\ fst (conduct_research (stub_env new_year (Returned stub_results))
            "Graph Neural Networks" "scalability, robustness"
            (session None (PDict [])))
     = (false, "API key required").
Proof.
  split; [reflexivity|].
  exact (proj1 (conduct_research_without_key
                  (stub_env new_year (Returned stub_results))
                  "Graph Neural Networks" "scalability, robustness"
                  (session None (PDict [])) eq_refl)).
Defined.

Lemma conduct_research_library_raises_witness :
  fst (conduct_research (stub_env new_year (Raised "rate limit exceeded"))
         "Graph Neural Networks" "scalability, robustness"
         (session (Some "sk-test") old_store))
  = (false, "Error during research: rate limit exceeded")
  /\ research_results
       (snd (conduct_research (stub_env new_year (Raised "rate limit exceeded"))
               "Graph Neural Networks" "scalability, robustness"
               (session (Some "sk-test") old_store)))
     = old_store.
Proof.
  pose proof (conduct_research_library_raises
                (stub_env new_year (Raised "rate limit exceeded"))
                "Graph Neural Networks" "scalability, robustness"
                (session (Some "sk-test") old_store)
                "rate limit exceeded" eq_refl
                (or_intror (conj eq_refl eq_refl))) as [H1 [H2 _]].
  split; [exact H1 | exact H2].
Defined.


(** The focus areas of the scenario, as the library receives them. *)
Lemma task_notes_scenario :
  getitem (build_task_notes "scalability, robustness") "focus_areas"
  = Ok (PList [PStr "scalability"; PStr "robustness"]).
Proof. reflexivity. Qed.

(** A store that is not a dict (the file held a JSON array) refuses the
    new record: the [TypeError] is caught like any failure of the
    library. *)
Lemma conduct_research_list_store :
  fst (conduct_research (stub_env new_year (Returned stub_results))
         "Graph Neural Networks" "scalability, robustness"
         (session (Some "sk-test") (PList [])))
  = (false, "Error during research: list indices must be integers or slices, not str").
Proof. reflexivity. Qed.

Lemma valid_new_year : valid_datetime new_year.
Proof. unfold valid_datetime, new_year; simpl; lia. Defined.

Lemma conduct_research_success_witness :
  fst (conduct_research (stub_env new_year (Returned stub_results))
         "Graph Neural Networks" "scalability, robustness"
         (session (Some "sk-test") (PDict [])))
  = (true, "Research completed successfully!")
  /\ len (research_results
            (snd (conduct_research (stub_env new_year (Returned stub_results))
                    "Graph Neural Networks" "scalability, robustness"
                    (session (Some "sk-test") (PDict [])))))
     = 1.
Proof.
  pose proof (conduct_research_success
                (stub_env new_year (Returned stub_results))
                "Graph Neural Networks" "scalability, robustness"
                (session (Some "sk-test") (PDict [])) [] stub_results
                eq_refl eq_refl eq_refl eq_refl valid_new_year)
    as [H1 [_ [_ [_ [H2 _]]]]].
  split; [exact H1 | exact (H2 eq_refl)].
Defined.

Lemma research_form_empty_field_witness :
  research_form (stub_env new_year (Returned stub_results))
    EmptyString "scalability, robustness" true
    (session (Some "sk-test") old_store)
  = session (Some "sk-test") old_store.
Proof.
  exact (research_form_empty_field
           (stub_env new_year (Returned stub_results))
           EmptyString "scalability, robustness"
           (session (Some "sk-test") old_store) eq_refl (or_introl eq_refl)).
Defined.

(* ================================================================== *)
(** * The store as a collection of research records *)
(* ================================================================== *)

Section Store.

Lemma store_lookup d k r :
  is_research_store (PDict d) = true ->
  Dict.get d k = Some r ->
  is_research_record r = true.
Proof.
  simpl; induction d as [|[k0 v0] rest IH]; simpl; [discriminate|].
  intros H; apply andb_prop in H as [H0 Hrest].
  apply andb_prop in H0 as [_ Hv].
  destruct (key_eqb k0 k); [intros E; injection E as <-; exact Hv | now apply IH].
Qed.

Lemma record_fields r :
  is_research_record r = true ->
  exists topic focus_areas results,
    getitem r "topic" = Ok (PStr topic)
    /\ getitem r "focus_areas" = Ok (PStr focus_areas)
    /\ getitem r "results" = Ok results.
Proof.
  unfold is_research_record.
  destruct (getitem r "topic") as [[| | |t| | |]| |]; try discriminate.
  destruct (getitem r "focus_areas") as [[| | |f| | |]| |]; try discriminate.
  destruct (getitem r "results") as [res| |]; try discriminate.
  intros _; now exists t, f, res.
Qed.

Lemma store_set d k r :
  is_research_store (PDict d) = true ->
  is_research_record r = true ->
  is_research_store (PDict (Dict.set d (KStr k) r)) = true.
Proof.
  simpl; intros Hd Hr; induction d as [|[k0 v0] rest IH]; simpl.
  - now rewrite Hr.
  - simpl in Hd; apply andb_prop in Hd as [H0 Hrest].
    destruct (key_eqb_spec k0 (KStr k)) as [->|Hne]; simpl.
    + now rewrite Hr, Hrest.
    + now rewrite H0, IH.
Qed.

(** The store stays a research store: it starts as one and
    [conduct_research] keeps it one. *)
Lemma empty_store_is_research_store : is_research_store (PDict []) = true.
Proof. reflexivity. Qed.

Lemma conduct_research_keeps_store env topic focus_areas w :
  is_research_store (research_results w) = true ->
  is_research_store
    (research_results (snd (conduct_research env topic focus_areas w))) = true.
Proof.
  intros Hs; unfold conduct_research.
  destruct (has_api_key w); simpl; [|exact Hs].
  destruct (AgentLaboratory env _ _) as [u|m]; simpl; [|exact Hs].
  destruct (lab_conduct_research env _ _ _ _) as [results|m]; simpl; [|exact Hs].
  destruct (research_results w) as [| | | | | |d] eqn:Hd; try discriminate.
  cbn [setitem]. unfold save_results; simpl.
  destruct (disk_writable w); simpl; now apply store_set.
Qed.

End Store.

(* ================================================================== *)
(** * The viewer and the export *)
(* ================================================================== *)

Section Viewer.


(** There is no fallback for a key that is not in the store: the lookup
    raises [KeyError]. *)
Lemma view_research_page_dangling (w : world) (selected : string)
    (d : Dict.t) (export_clicked : bool) :
  research_results w = PDict d ->
  selected_research w = Some selected ->
  Dict.contains d (KStr selected) = false ->
  view_research_page export_clicked w = Raise (KeyError (KStr selected)).
Proof.
  intros Hd Hsel Hin. unfold Dict.contains in Hin.
  unfold view_research_page; rewrite Hsel, Hd; simpl.
  destruct (Dict.get d (KStr selected)); [discriminate | reflexivity].
Qed.


Lemma view_research_page_export (w : world) (selected : string)
    (research : pyval) (w' : world) :
  selected_research w = Some selected ->
  getitem (research_results w) selected = Ok research ->
  view_research_page true w = Ok w' ->
  exists md name,
    md_content research = Ok md
    /\ file_name research = Ok name
    /\ last_download w' = Some (md, name).
Proof.
  intros Hsel Hitem. unfold view_research_page; rewrite Hsel, Hitem; simpl.
  destruct (getitem research "topic") as [topic| |]; simpl; try discriminate.
  destruct (format_field topic) as [t| |]; simpl; try discriminate.
  destruct (getitem research "focus_areas") as [focus| |]; simpl; try discriminate.
  destruct (getitem research "results") as [results| |]; simpl; try discriminate.
  destruct (md_content research) as [md| |]; simpl; try discriminate.
  destruct (file_name research) as [name| |]; simpl; try discriminate.
  intros E; injection E as <-.
  exists md, name; repeat split.
  unfold last_download; cbn [page show]. now rewrite last_last.
Qed.

(** C7.  The exported Markdown depends on the record alone: two exports
    of the same record, whatever the rest of the two sessions (key, other
    records, page, disk), offer the same bytes under the same name. *)
Theorem export_deterministic (w1 w2 : world) (s1 s2 : string)
    (research : pyval) (w1' w2' : world) :
  selected_research w1 = Some s1 ->
  getitem (research_results w1) s1 = Ok research ->
  selected_research w2 = Some s2 ->
  getitem (research_results w2) s2 = Ok research ->
  view_research_page true w1 = Ok w1' ->
  view_research_page true w2 = Ok w2' ->
  last_download w1' = last_download w2' /\ last_download w1' <> None.
Proof.
  intros Hs1 Hi1 Hs2 Hi2 H1 H2.
  destruct (view_research_page_export _ _ _ _ Hs1 Hi1 H1) as [md1 [n1 [Hm1 [Hn1 Hd1]]]].
  destruct (view_research_page_export _ _ _ _ Hs2 Hi2 H2) as [md2 [n2 [Hm2 [Hn2 Hd2]]]].
  rewrite Hd1, Hd2. split; [congruence | discriminate].
Qed.

End Viewer.

(* ================================================================== *)
(** * Persistence *)
(* ================================================================== *)

Section Persistence.

(** C9.  What [save_results] leaves in the file is decided by the store
    (and by whether the disk takes the write): two sessions with equal
    stores leave the same file, whatever their API keys. *)
Theorem save_results_ignores_api_key (w1 w2 : world) :
  research_results w1 = research_results w2 ->
  disk_writable w1 = disk_writable w2 ->
  results_file w1 = results_file w2 ->
  results_file (save_results w1) = results_file (save_results w2)
  /\ (disk_writable w1 = true ->
      results_file (save_results w1)
      = Some (Json.dumps (research_results w1) 4)).
Proof.
  intros Hs Hw Hf. unfold save_results. rewrite <- Hw, <- Hs.
  destruct (disk_writable w1); simpl; split; auto; discriminate.
Qed.

End Persistence.



Lemma export_deterministic_witness :
  exists w1 w2,
    view_research_page true
      (viewing (Some "sk-one") old_store "2024-01-01 00:00:00") = Ok w1
    /\ view_research_page true
         (viewing (Some "sk-two") old_store "2024-01-01 00:00:00") = Ok w2
    /\ last_download w1 = last_download w2.
Proof.
  eexists; eexists.
  split; [vm_compute; reflexivity|].
  split; [vm_compute; reflexivity|].
  refine (proj1 (export_deterministic
                   (viewing (Some "sk-one") old_store "2024-01-01 00:00:00")
                   (viewing (Some "sk-two") old_store "2024-01-01 00:00:00")
                   "2024-01-01 00:00:00" "2024-01-01 00:00:00"
                   (research_record "Earlier topic" "earlier" PNone)
                   _ _ eq_refl eq_refl eq_refl eq_refl eq_refl eq_refl)).
Defined.

Lemma save_results_ignores_api_key_witness :
  results_file (save_results (session (Some "sk-one") old_store))
  = results_file (save_results (session (Some "sk-two") old_store)).
Proof.
  exact (proj1 (save_results_ignores_api_key
                  (session (Some "sk-one") old_store)
                  (session (Some "sk-two") old_store)
                  eq_refl eq_refl eq_refl)).
Defined.

(* ================================================================== *)
(** * The JSON encoder and decoder are inverse on native values *)
(* ================================================================== *)

Section JsonStrings.
Import PyStr Json.

(** One escaped character is read back as that character. *)
Lemma scanstring_escape_char (c : ascii) (rest : string) :
  scanstring (escape_char c ++ rest) = push c (scanstring rest).
Proof.
  destruct c as [[] [] [] [] [] [] [] []]; reflexivity.
Qed.

Lemma escape_append (c : ascii) (s rest : string) :
  escape (String c s) ++ rest = escape_char c ++ (escape s ++ rest).
Proof. simpl; apply append_assoc. Qed.

(** [scanstring] undoes [escape]. *)
Lemma scanstring_escape (s rest : string) :
  scanstring (escape s ++ String dquote rest) = Scanned s rest.
Proof.
  induction s as [|c s IH].
  - reflexivity.
  - rewrite escape_append, scanstring_escape_char, IH. reflexivity.
Qed.

Lemma encode_basestring_ascii_append (s rest : string) :
  encode_basestring_ascii s ++ rest
  = String dquote (escape s ++ String dquote rest).
Proof.
  unfold encode_basestring_ascii; simpl. now rewrite append_assoc.
Qed.

End JsonStrings.

Section JsonNumbers.
Import PyStr Json.

Lemma delimited_cases (rest : string) :
  delimited rest = true ->
  rest = EmptyString
  \/ (exists r, rest = String "," r)
  \/ (exists r, rest = String newline r).
Proof.
  destruct rest as [|c r]; simpl; [now left|].
  intros H; apply orb_prop in H as [H|H]; apply Ascii.eqb_eq in H; subst c.
  - right; left; now exists r.
  - right; right; now exists r.
Qed.

Lemma scan_digits_stop (rest : string) :
  delimited rest = true -> scan_digits rest = (Decimal.Nil, rest).
Proof.
  intros H; destruct (delimited_cases rest H) as [->|[[r ->]|[r ->]]];
    reflexivity.
Qed.

Lemma not_a_float (rest : string) :
  delimited rest = true -> starts_frac rest || starts_exp rest = false.
Proof.
  intros H; destruct (delimited_cases rest H) as [->|[[r ->]|[r ->]]];
    reflexivity.
Qed.

(** The digits that [int.__repr__] writes are read back one by one. *)
Lemma scan_digits_digits (d : Decimal.uint) (rest : string) :
  delimited rest = true -> scan_digits (digits d ++ rest) = (d, rest).
Proof.
  intros H; induction d; simpl; try rewrite IHd; try reflexivity.
  now apply scan_digits_stop.
Qed.

Lemma nzhead_not_zero (d : Decimal.uint) :
  match Decimal.nzhead d with Decimal.D0 _ => False | _ => True end.
Proof. induction d; simpl; auto. Qed.

(** A positive number is written without a leading zero. *)
Lemma to_uint_head (p : positive) :
  match Pos.to_uint p with
  | Decimal.Nil | Decimal.D0 _ => False
  | _ => True
  end.
Proof.
  pose proof (DecimalPos.Unsigned.to_of (Pos.to_uint p)) as H.
  rewrite DecimalPos.Unsigned.of_to in H.
  change (N.to_uint (N.pos p)) with (Pos.to_uint p) in H.
  pose proof (nzhead_not_zero (Pos.to_uint p)) as Hz.
  pose proof (DecimalPos.Unsigned.to_uint_nonzero p) as Hnz.
  unfold Decimal.unorm in H.
  destruct (Decimal.nzhead (Pos.to_uint p)); rewrite H; auto.
Qed.

Lemma scan_unsigned_digits (d : Decimal.uint) (rest : string) :
  match d with Decimal.Nil | Decimal.D0 _ => False | _ => True end ->
  delimited rest = true ->
  scan_unsigned (digits d ++ rest) = Some (N.of_uint d, rest).
Proof.
  intros Hd Hrest.
  destruct d as [|d|d|d|d|d|d|d|d|d|d]; try contradiction;
    unfold scan_unsigned; cbn [digits append];
    cbn -[N.of_uint scan_digits cons_digit];
    cbn [scan_digits]; cbn -[N.of_uint scan_digits cons_digit];
    rewrite (scan_digits_digits d rest Hrest); reflexivity.
Qed.

Lemma scan_int_digits (d : Decimal.uint) (rest : string) :
  match d with Decimal.Nil | Decimal.D0 _ => False | _ => True end ->
  delimited rest = true ->
  scan_int (digits d ++ rest) = Some (Z.of_N (N.of_uint d), rest)
  /\ scan_int (String "-" (digits d ++ rest))
     = Some (Z.opp (Z.of_N (N.of_uint d)), rest).
Proof.
  intros Hd Hrest. pose proof (scan_unsigned_digits d rest Hd Hrest) as H.
  split.
  - destruct d as [|d|d|d|d|d|d|d|d|d|d]; try contradiction;
      unfold scan_int; cbn [digits append]; cbn [digits append] in H;
      cbn [Ascii.eqb Bool.eqb andb]; now rewrite H.
  - unfold scan_int. cbn [Ascii.eqb Bool.eqb andb]. now rewrite H.
Qed.

(** [scan_int] undoes [int.__repr__]. *)
Lemma scan_int_repr (z : Z) (rest : string) :
  delimited rest = true ->
  scan_int (int_repr z ++ rest) = Some (z, rest).
Proof.
  intros Hrest; destruct z as [|p|p]; unfold int_repr.
  - reflexivity.
  - destruct (scan_int_digits _ rest (to_uint_head p) Hrest) as [H _].
    rewrite H. unfold N.of_uint.
    now rewrite DecimalPos.Unsigned.of_to.
  - destruct (scan_int_digits _ rest (to_uint_head p) Hrest) as [_ H].
    cbn [append]. rewrite H. unfold N.of_uint.
    now rewrite DecimalPos.Unsigned.of_to.
Qed.

Lemma scan_number_repr (z : Z) (rest : string) :
  delimited rest = true ->
  scan_number (int_repr z ++ rest) = Scanned (PInt z) rest.
Proof.
  intros Hrest; unfold scan_number.
  now rewrite scan_int_repr, not_a_float.
Qed.

End JsonNumbers.

Section PyvalInduction.

Variable P : pyval -> Prop.
Hypothesis HNone : P PNone.
Hypothesis HBool : forall b, P (PBool b).
Hypothesis HInt : forall z, P (PInt z).
Hypothesis HStr : forall s, P (PStr s).
Hypothesis HList : forall l, Forall P l -> P (PList l).
Hypothesis HTuple : forall l, Forall P l -> P (PTuple l).
Hypothesis HDict : forall d, Forall (fun kv => P (snd kv)) d -> P (PDict d).

(** Induction on a value, with the property at hand for every element of
    a list or tuple and every value of a dict. *)
Lemma pyval_induction : forall v, P v.
Proof.
  fix IH 1. intros [|b|z|s|l|l|d].
  - exact HNone.
  - apply HBool.
  - apply HInt.
  - apply HStr.
  - apply HList. induction l as [|x l IHl]; constructor; [apply IH | exact IHl].
  - apply HTuple. induction l as [|x l IHl]; constructor; [apply IH | exact IHl].
  - apply HDict. induction d as [|[k x] d IHd]; constructor;
      [apply IH | exact IHd].
Qed.

End PyvalInduction.

Section JsonScanner.
Import PyStr Json.

Lemma skip_ws_spaces (n : nat) (s : string) :
  skip_ws (spaces n ++ s) = skip_ws s.
Proof. induction n as [|n IH]; simpl; [reflexivity | exact IH]. Qed.

Lemma skip_ws_newline_indent (indent level : nat) (s : string) :
  skip_ws (newline_indent indent level ++ s) = skip_ws s.
Proof. unfold newline_indent; simpl; apply skip_ws_spaces. Qed.

Lemma skip_ws_value (s : string) : starts_value s = true -> skip_ws s = s.
Proof.
  destruct s as [|c r]; simpl; [discriminate|].
  now destruct (is_ws c).
Qed.

Lemma delimited_newline_indent (indent level : nat) (s : string) :
  delimited (newline_indent indent level ++ s) = true.
Proof. reflexivity. Qed.

Lemma int_repr_head (z : Z) (rest : string) :
  exists c r,
    int_repr z ++ rest = String c r
    /\ is_digit c || Ascii.eqb c "-" = true.
Proof.
  destruct z as [|p|p]; unfold int_repr.
  - now exists "0"%char, rest.
  - pose proof (to_uint_head p) as H.
    destruct (Pos.to_uint p) as [|d|d|d|d|d|d|d|d|d|d]; try contradiction;
      eexists; eexists; split; reflexivity.
  - eexists; eexists; split; reflexivity.
Qed.

(** A text that starts with a digit or a minus sign is a number. *)
Lemma scan_once_number (fuel : nat) (c : ascii) (r : string) :
  is_digit c || Ascii.eqb c "-" = true ->
  scan_once (S fuel) (String c r) = scan_number (String c r).
Proof.
  destruct c as [[] [] [] [] [] [] [] []]; try discriminate; reflexivity.
Qed.

Lemma scan_once_string (fuel : nat) (r : string) :
  scan_once (S fuel) (String dquote r)
  = andThen (scanstring r) (fun str rest => Scanned (PStr str) rest).
Proof. reflexivity. Qed.

Lemma array_loop_step (fuel : nat) (s : string) :
  array_loop (S fuel) s
  = andThen (scan_once fuel s) (fun v r =>
      match skip_ws r with
      | String c r1 =>
          if Ascii.eqb c "]" then Scanned [v] r1
          else if Ascii.eqb c "," then
            andThen (array_loop fuel (skip_ws r1))
              (fun vs rest => Scanned (v :: vs) rest)
          else DecodeError
      | EmptyString => DecodeError
      end).
Proof. reflexivity. Qed.

Lemma object_loop_step (fuel : nat) (s : string) :
  object_loop (S fuel) s
  = andThen (scanstring s) (fun key r =>
      match skip_ws r with
      | String c r1 =>
          if Ascii.eqb c ":" then
            andThen (scan_once fuel (skip_ws r1)) (fun v r2 =>
              match skip_ws r2 with
              | String c2 r3 =>
                  if Ascii.eqb c2 "}" then Scanned [(KStr key, v)] r3
                  else if Ascii.eqb c2 "," then
                    match skip_ws r3 with
                    | String c3 r4 =>
                        if Ascii.eqb c3 dquote then
                          andThen (object_loop fuel r4)
                            (fun ps rest => Scanned ((KStr key, v) :: ps) rest)
                        else DecodeError
                    | EmptyString => DecodeError
                    end
                  else DecodeError
              | EmptyString => DecodeError
              end)
          else DecodeError
      | EmptyString => DecodeError
      end).
Proof. reflexivity. Qed.

Lemma join_cons (sep a b : string) (r : list string) :
  join sep (a :: b :: r) = a ++ sep ++ join sep (b :: r).
Proof. reflexivity. Qed.

(** The text of a value starts with the value, not with white space; and
    a list or a dict does not start with its closing bracket. *)
Lemma iterencode_head (indent level : nat) (v : pyval) (rest : string) :
  exists c r,
    iterencode indent level v ++ rest = String c r
    /\ is_ws c = false
    /\ Ascii.eqb c "]" = false.
Proof.
  destruct v as [|[]|z|s|l|l|d].
  - eexists; eexists; repeat split.
  - eexists; eexists; repeat split.
  - eexists; eexists; repeat split.
  - destruct (int_repr_head z rest) as [c [r [E H]]].
    exists c, r; split; [exact E|].
    clear E; destruct c as [[] [] [] [] [] [] [] []]; try discriminate;
      split; reflexivity.
  - eexists; eexists; repeat split.
  - destruct l; eexists; eexists; repeat split.
  - destruct l; eexists; eexists; repeat split.
  - destruct d; eexists; eexists; repeat split.
Qed.

Lemma starts_value_iterencode (indent level : nat) (v : pyval) (rest : string) :
  starts_value (iterencode indent level v ++ rest) = true.
Proof.
  destruct (iterencode_head indent level v rest) as [c [r [E [H _]]]].
  rewrite E; simpl; now rewrite H.
Qed.

End JsonScanner.

Section JsonRoundTrip.
Import PyStr Json.

Variable indent : nat.

(** What the induction carries for one value: its text, at any depth and
    before any delimited rest, is scanned back to the value. *)
Local Abbreviation scans_back v :=
  (forall level fuel rest,
      size v <= fuel ->
      delimited rest = true ->
      scan_once fuel (iterencode indent level v ++ rest) = Scanned v rest).

(** The elements of a non-empty list, as the encoder lays them out. *)
Lemma array_loop_items (level : nat) (l : list pyval) (tail rest : string) :
  l <> [] ->
  Forall (fun x => scans_back x) l ->
  delimited tail = true ->
  skip_ws tail = String "]" rest ->
  forall fuel,
    list_sum (map (fun x => S (size x)) l) <= fuel ->
    array_loop fuel
      (join (String "," (newline_indent indent level))
            (map (iterencode indent level) l) ++ tail)
    = Scanned l rest.
Proof.
  intros Hne Hall Htail Hskip.
  induction l as [|x l IH]; [contradiction|].
  inversion Hall as [|? ? Hx Hl]; subst.
  intros fuel Hfuel. simpl in Hfuel.
  destruct fuel as [|fuel]; [lia|].
  rewrite array_loop_step.
  destruct l as [|y l].
  - cbn [map join].
    rewrite (Hx level fuel tail); [|simpl in Hfuel; lia|exact Htail].
    cbn [andThen]. rewrite Hskip. reflexivity.
  - cbn [map]. rewrite join_cons, !append_assoc.
    rewrite (Hx level fuel); [|simpl in Hfuel; lia|reflexivity].
    cbn [andThen append].
    rewrite (skip_ws_value (String "," _)) by reflexivity.
    cbn [Ascii.eqb Bool.eqb andb].
    rewrite skip_ws_newline_indent.
    rewrite skip_ws_value.
    + change (iterencode indent level y :: map (iterencode indent level) l)
        with (map (iterencode indent level) (y :: l)).
      rewrite (IH ltac:(discriminate) Hl fuel) by (simpl in *; lia).
      reflexivity.
    + change (map (iterencode indent level) (y :: l))
        with (iterencode indent level y :: map (iterencode indent level) l).
      destruct (map (iterencode indent level) l) as [|z zs].
      * cbn [join]. apply starts_value_iterencode.
      * rewrite join_cons, append_assoc. apply starts_value_iterencode.
Qed.

Lemma join_nonempty (sep a : string) (l : list string) :
  l <> [] -> join sep (a :: l) = a ++ sep ++ join sep l.
Proof. destruct l; [contradiction | reflexivity]. Qed.

(** The members of a non-empty dict, as the encoder lays them out: the
    text starts with the quote of the first key, and what follows is
    scanned back to the members. *)
Lemma object_loop_items (level : nat) (d : Dict.t) (tail rest : string) :
  d <> [] ->
  Forall (fun kv => is_str_key (fst kv) = true /\ scans_back (snd kv)) d ->
  delimited tail = true ->
  skip_ws tail = String "}" rest ->
  forall fuel,
    list_sum (map (fun kv => S (size (snd kv))) d) <= fuel ->
    exists body,
      join (String "," (newline_indent indent level))
           (map (fun kv =>
                   encode_basestring_ascii (key_str (fst kv))
                   ++ ": " ++ iterencode indent level (snd kv)) d) ++ tail
      = String dquote body
      /\ object_loop fuel body = Scanned d rest.
Proof.
  intros Hne Hall Htail Hskip.
  induction d as [|[k v] d IH]; [contradiction|].
  inversion Hall as [|? ? [Hk Hv] Hd]; subst.
  cbn [fst snd] in Hk, Hv.
  destruct k as [key|z]; [|discriminate].
  intros fuel Hfuel. simpl in Hfuel.
  destruct fuel as [|fuel]; [lia|].
  destruct d as [|kv d].
  - cbn [map join fst snd key_str].
    rewrite append_assoc, encode_basestring_ascii_append.
    eexists; split; [reflexivity|].
    rewrite object_loop_step, scanstring_escape.
    cbn [andThen append].
    rewrite (skip_ws_value (String ":" _)) by reflexivity.
    cbn [Ascii.eqb Bool.eqb andb].
    change (skip_ws (String " " ?r)) with (skip_ws r).
    rewrite skip_ws_value by apply starts_value_iterencode.
    rewrite (Hv level fuel tail); [|simpl in Hfuel; lia|exact Htail].
    cbn [andThen]. rewrite Hskip. reflexivity.
  - destruct (IH ltac:(discriminate) Hd fuel) as [body [Hbody Hloop]];
      [simpl in *; lia|].
    change (map ?f ((KStr key, v) :: kv :: d))
      with (f (KStr key, v) :: map f (kv :: d)).
    rewrite join_nonempty by discriminate.
    cbn [fst snd key_str].
    rewrite !append_assoc, Hbody, encode_basestring_ascii_append.
    eexists; split; [reflexivity|].
    rewrite object_loop_step, scanstring_escape.
    cbn [andThen append].
    rewrite (skip_ws_value (String ":" _)) by reflexivity.
    cbn [Ascii.eqb Bool.eqb andb].
    change (skip_ws (String " " ?r)) with (skip_ws r).
    rewrite skip_ws_value by apply starts_value_iterencode.
    rewrite (Hv level fuel); [|simpl in Hfuel; lia|reflexivity].
    cbn [andThen].
    rewrite (skip_ws_value (String "," _)) by reflexivity.
    cbn [Ascii.eqb Bool.eqb andb].
    rewrite skip_ws_newline_indent.
    rewrite (skip_ws_value (String dquote _)) by reflexivity.
    rewrite Ascii.eqb_refl, Hloop. reflexivity.
Qed.

Lemma iterencode_list (level : nat) (l : list pyval) (rest : string) :
  l <> [] ->
  iterencode indent level (PList l) ++ rest
  = String "[" (newline_indent indent (S level)
      ++ (join (String "," (newline_indent indent (S level)))
               (map (iterencode indent (S level)) l)
          ++ (newline_indent indent level ++ String "]" rest))).
Proof.
  destruct l as [|x l]; [contradiction|]. intros _.
  cbn [iterencode]. cbn [append]. now rewrite !append_assoc.
Qed.

Lemma iterencode_dict (level : nat) (d : Dict.t) (rest : string) :
  d <> [] ->
  iterencode indent level (PDict d) ++ rest
  = String "{" (newline_indent indent (S level)
      ++ (join (String "," (newline_indent indent (S level)))
               (map (fun kv =>
                       encode_basestring_ascii (key_str (fst kv))
                       ++ ": " ++ iterencode indent (S level) (snd kv)) d)
          ++ (newline_indent indent level ++ String "}" rest))).
Proof.
  destruct d as [|x d]; [contradiction|]. intros _.
  cbn [iterencode]. cbn [append]. now rewrite !append_assoc.
Qed.

Lemma scan_once_array (fuel level : nat) (body : string) (c : ascii) (r : string) :
  body = String c r ->
  is_ws c = false ->
  Ascii.eqb c "]" = false ->
  scan_once (S fuel) (String "[" (newline_indent indent level ++ body))
  = andThen (array_loop fuel body) (fun vs rest => Scanned (PList vs) rest).
Proof.
  intros E Hws Hc.
  change (scan_once (S fuel) (String "[" (newline_indent indent level ++ body)))
    with (match skip_ws (newline_indent indent level ++ body) with
          | String c1 r1 =>
              if Ascii.eqb c1 "]" then Scanned (PList []) r1
              else andThen (array_loop fuel (String c1 r1))
                     (fun vs rest => Scanned (PList vs) rest)
          | EmptyString => DecodeError
          end).
  rewrite skip_ws_newline_indent, E.
  rewrite skip_ws_value by (simpl; now rewrite Hws).
  now rewrite Hc.
Qed.

Lemma scan_once_object (fuel level : nat) (body : string) :
  scan_once (S fuel)
    (String "{" (newline_indent indent level ++ String dquote body))
  = andThen (object_loop fuel body)
      (fun pairs rest => Scanned (PDict (Dict.of_pairs pairs)) rest).
Proof.
  change (scan_once (S fuel)
            (String "{" (newline_indent indent level ++ String dquote body)))
    with (match skip_ws (newline_indent indent level ++ String dquote body) with
          | String c1 r1 =>
              if Ascii.eqb c1 "}" then Scanned (PDict []) r1
              else if Ascii.eqb c1 dquote then
                andThen (object_loop fuel r1)
                  (fun pairs rest => Scanned (PDict (Dict.of_pairs pairs)) rest)
              else DecodeError
          | EmptyString => DecodeError
          end).
  rewrite skip_ws_newline_indent.
  now rewrite (skip_ws_value (String dquote _)) by reflexivity.
Qed.

Lemma join_head (sep a : string) (l : list string) (tail : string) :
  exists t, join sep (a :: l) ++ tail = a ++ t.
Proof.
  destruct l as [|b l].
  - now exists tail.
  - exists (sep ++ join sep (b :: l) ++ tail).
    now rewrite join_cons, !append_assoc.
Qed.

Lemma set_fresh (acc : Dict.t) (k : pykey) (v : pyval) :
  existsb (fun k' => key_eqb k' k) (map fst acc) = false ->
  Dict.set acc k v = (acc ++ [(k, v)])%list.
Proof.
  induction acc as [|[k0 v0] acc IH]; simpl; [reflexivity|].
  intros H; apply orb_false_elim in H as [H0 H1].
  now rewrite H0, IH.
Qed.

Lemma nodup_keys_fresh (acc : list pykey) (k : pykey) (rest : list pykey) :
  nodup_keys (acc ++ k :: rest)%list = true ->
  existsb (fun k' => key_eqb k' k) acc = false.
Proof.
  induction acc as [|a acc IH]; simpl; [reflexivity|].
  intros H; apply andb_prop in H as [Ha Hrest].
  rewrite (IH Hrest), orb_false_r.
  apply negb_true_iff in Ha. rewrite existsb_app in Ha.
  apply orb_false_elim in Ha as [_ Ha]. simpl in Ha.
  now apply orb_false_elim in Ha as [Ha _].
Qed.

Lemma fold_set_nodup (d acc : Dict.t) :
  nodup_keys (map fst (acc ++ d)%list) = true ->
  fold_left (fun d kv => Dict.set d (fst kv) (snd kv)) d acc = (acc ++ d)%list.
Proof.
  revert acc; induction d as [|[k v] d IH]; intros acc H; simpl.
  - now rewrite List.app_nil_r.
  - rewrite set_fresh.
    + rewrite IH; rewrite <- List.app_assoc; [reflexivity | exact H].
    + rewrite map_app in H. simpl in H. exact (nodup_keys_fresh _ _ _ H).
Qed.

(** [dict(pairs)] keeps a list of pairs with distinct keys as it is. *)
Lemma of_pairs_nodup (d : Dict.t) :
  nodup_keys (map fst d) = true -> Dict.of_pairs d = d.
Proof. intros H; unfold Dict.of_pairs; now rewrite fold_set_nodup. Qed.

(** The decoder undoes the encoder on every native value, at any depth
    and before any delimited rest, given fuel for the size of the value. *)
Lemma scan_once_iterencode (v : pyval) :
  json_native v = true -> scans_back v.
Proof.
  induction v as [|b|z|s|l IHl|l IHl|d IHd] using pyval_induction;
    intros Hnat level fuel rest Hfuel Hrest;
    (destruct fuel as [|fuel]; [simpl in Hfuel; lia|]).
  - reflexivity.
  - destruct b; reflexivity.
  - cbn [iterencode].
    destruct (int_repr_head z rest) as [c [r [E H]]].
    rewrite E, scan_once_number by exact H.
    rewrite <- E. now apply scan_number_repr.
  - cbn [iterencode].
    rewrite encode_basestring_ascii_append, scan_once_string.
    now rewrite scanstring_escape.
  - destruct l as [|x l]; [reflexivity|].
    assert (Hall : Forall (fun x => scans_back x) (x :: l)).
    { simpl in Hnat. rewrite Forall_forall in *. intros y Hy.
      apply IHl; [exact Hy|].
      change (forallb json_native (x :: l) = true) in Hnat.
      rewrite forallb_forall in Hnat. now apply Hnat. }
    rewrite iterencode_list by discriminate.
    destruct (join_head (String "," (newline_indent indent (S level)))
                (iterencode indent (S level) x)
                (map (iterencode indent (S level)) l)
                (newline_indent indent level ++ String "]" rest)) as [t Ht].
    destruct (iterencode_head indent (S level) x t) as [c [r [E [Hws Hc]]]].
    change (map (iterencode indent (S level)) (x :: l))
      with (iterencode indent (S level) x :: map (iterencode indent (S level)) l).
    rewrite (scan_once_array fuel (S level) _ c r); [|now rewrite Ht|exact Hws|exact Hc].
    change (iterencode indent (S level) x :: map (iterencode indent (S level)) l)
      with (map (iterencode indent (S level)) (x :: l)).
    rewrite (array_loop_items (S level) (x :: l) _ rest); try reflexivity.
    + discriminate.
    + exact Hall.
    + rewrite skip_ws_newline_indent. reflexivity.
    + simpl in Hfuel. simpl. lia.
  - discriminate.
  - destruct d as [|kv d]; [reflexivity|].
    simpl in Hnat. apply andb_prop in Hnat as [Hmem Hdup].
    assert (Hall : Forall (fun kv => is_str_key (fst kv) = true
                                     /\ scans_back (snd kv)) (kv :: d)).
    { rewrite Forall_forall in *. intros y Hy.
      change (forallb (fun kv => is_str_key (fst kv) && json_native (snd kv))
                (kv :: d) = true) in Hmem.
      rewrite forallb_forall in Hmem.
      specialize (Hmem y Hy). apply andb_prop in Hmem as [Hk Hn].
      split; [exact Hk | now apply IHd]. }
    rewrite iterencode_dict by discriminate.
    destruct (object_loop_items (S level) (kv :: d)
                (newline_indent indent level ++ String "}" rest) rest
                ltac:(discriminate) Hall eq_refl
                ltac:(rewrite skip_ws_newline_indent; reflexivity) fuel)
      as [body [Hbody Hloop]]; [simpl in Hfuel; simpl; lia|].
    rewrite Hbody, scan_once_object, Hloop.
    cbn [andThen]. now rewrite of_pairs_nodup.
Qed.

End JsonRoundTrip.

Section JsonFuel.
Import PyStr Json.

Lemma length_digits_pos (p : positive) :
  1 <= String.length (digits (Pos.to_uint p)).
Proof.
  pose proof (to_uint_head p) as H.
  destruct (Pos.to_uint p); try contradiction; simpl; lia.
Qed.

Lemma length_join_bound {A : Type} (f : A -> string) (g : A -> nat)
    (sep : string) (l : list A) :
  Forall (fun x => g x <= String.length (f x)) l ->
  1 <= String.length sep ->
  l <> [] ->
  list_sum (map (fun x => S (g x)) l)
  <= S (String.length (join sep (map f l))).
Proof.
  intros Hall Hsep Hne.
  induction l as [|x l IH]; [contradiction|].
  inversion Hall as [|? ? Hx Hl]; subst.
  destruct l as [|y l].
  - simpl. lia.
  - change (map f (x :: y :: l)) with (f x :: f y :: map f l).
    rewrite join_cons, !length_append.
    change (f y :: map f l) with (map f (y :: l)).
    specialize (IH Hl ltac:(discriminate)).
    change (list_sum (map (fun x => S (g x)) (x :: y :: l)))
      with (S (g x) + list_sum (map (fun x => S (g x)) (y :: l))).
    lia.
Qed.

(** The text of a value is at least as long as the fuel the value takes. *)
Lemma size_le_length (indent : nat) (v : pyval) :
  forall level, size v <= String.length (iterencode indent level v).
Proof.
  induction v as [|b|z|s|l IHl|l IHl|d IHd] using pyval_induction;
    intros level.
  - simpl; lia.
  - destruct b; simpl; lia.
  - destruct z as [|p|p]; simpl; [lia| |].
    + apply length_digits_pos.
    + pose proof (length_digits_pos p); lia.
  - simpl. lia.
  - destruct l as [|x l]; [simpl; lia|].
    pose proof (iterencode_list indent level (x :: l) EmptyString
                  ltac:(discriminate)) as E.
    rewrite append_nil_r in E. rewrite E.
    cbn [String.length]. rewrite !length_append.
    pose proof (length_join_bound (iterencode indent (S level)) size
                  (String "," (newline_indent indent (S level))) (x :: l)) as Hb.
    cbn [size].
    assert (list_sum (map (fun x => S (size x)) (x :: l))
            <= S (String.length
                    (join (String "," (newline_indent indent (S level)))
                          (map (iterencode indent (S level)) (x :: l))))).
    { apply Hb; [|simpl; lia|discriminate].
      rewrite Forall_forall in *. intros y Hy. now apply IHl. }
    unfold newline_indent at 1 3. cbn [String.length]. lia.
  - destruct l as [|x l]; [simpl; lia|].
    pose proof (iterencode_list indent level (x :: l) EmptyString
                  ltac:(discriminate)) as E.
    rewrite append_nil_r in E.
    change (iterencode indent level (PTuple (x :: l)))
      with (iterencode indent level (PList (x :: l))).
    rewrite E.
    cbn [String.length]. rewrite !length_append.
    pose proof (length_join_bound (iterencode indent (S level)) size
                  (String "," (newline_indent indent (S level))) (x :: l)) as Hb.
    cbn [size].
    assert (list_sum (map (fun x => S (size x)) (x :: l))
            <= S (String.length
                    (join (String "," (newline_indent indent (S level)))
                          (map (iterencode indent (S level)) (x :: l))))).
    { apply Hb; [|simpl; lia|discriminate].
      rewrite Forall_forall in *. intros y Hy. now apply IHl. }
    unfold newline_indent at 1 3. cbn [String.length]. lia.
  - destruct d as [|kv d]; [simpl; lia|].
    pose proof (iterencode_dict indent level (kv :: d) EmptyString
                  ltac:(discriminate)) as E.
    rewrite append_nil_r in E. rewrite E.
    cbn [String.length]. rewrite !length_append.
    pose proof (length_join_bound
                  (fun kv => encode_basestring_ascii (key_str (fst kv))
                             ++ ": " ++ iterencode indent (S level) (snd kv))
                  (fun kv => size (snd kv))
                  (String "," (newline_indent indent (S level))) (kv :: d)) as Hb.
    cbn [size].
    assert (list_sum (map (fun kv => S (size (snd kv))) (kv :: d))
            <= S (String.length
                    (join (String "," (newline_indent indent (S level)))
                          (map (fun kv =>
                                  encode_basestring_ascii (key_str (fst kv))
                                  ++ ": " ++ iterencode indent (S level) (snd kv))
                               (kv :: d))))).
    { apply Hb; [|simpl; lia|discriminate].
      rewrite Forall_forall in *. intros y Hy.
      rewrite !length_append. specialize (IHd y Hy (S level)). lia. }
    unfold newline_indent at 1 3. cbn [String.length]. lia.
Qed.

(** [json.loads] undoes [json.dumps] on every native value, whatever the
    indentation. *)
Lemma loads_dumps (v : pyval) (indent : nat) :
  json_native v = true -> loads (dumps v indent) = Ok v.
Proof.
  intros Hnat. unfold loads, dumps.
  pose proof (starts_value_iterencode indent 0 v EmptyString) as Hs.
  rewrite append_nil_r in Hs. rewrite (skip_ws_value _ Hs).
  pose proof (scan_once_iterencode indent v Hnat 0
                (fuel_for (iterencode indent 0 v)) EmptyString) as H.
  rewrite append_nil_r in H. rewrite H; [reflexivity| |reflexivity].
  pose proof (size_le_length indent v 0). unfold fuel_for. lia.
Qed.

End JsonFuel.

(* ================================================================== *)
(** * The decoder never runs out of fuel *)
(* ================================================================== *)

Section JsonTotal.
Import PyStr Json.

Lemma skip_ws_length (s : string) :
  String.length (skip_ws s) <= String.length s.
Proof.
  induction s as [|c s IH]; simpl; [lia|].
  destruct (is_ws c); simpl; lia.
Qed.

Lemma andThen_scanned {A B} (m : scan A) (k : A -> string -> scan B) b r :
  andThen m k = Scanned b r ->
  exists a r', m = Scanned a r' /\ k a r' = Scanned b r.
Proof. destruct m as [a r'| | |]; simpl; try discriminate; eauto. Qed.

Lemma andThen_fuel {A B} (m : scan A) (k : A -> string -> scan B) :
  m <> OutOfFuel ->
  (forall a r, m = Scanned a r -> k a r <> OutOfFuel) ->
  andThen m k <> OutOfFuel.
Proof.
  destruct m as [a r| | |]; simpl; intros Hm Hk; try discriminate.
  - now apply Hk.
  - contradiction.
Qed.

Lemma scanstring_shrinks (n : nat) :
  forall s a r,
    String.length s <= n ->
    scanstring s = Scanned a r ->
    String.length r < String.length s.
Proof.
  induction n as [|n IH]; intros s a r Hlen H.
  - destruct s; [discriminate | simpl in Hlen; lia].
  - destruct s as [|c s]; [discriminate|].
    cbn [scanstring] in H. simpl in Hlen.
    destruct (Ascii.eqb c dquote).
    { injection H as _ <-. simpl; lia. }
    destruct (Ascii.eqb c backslash).
    + destruct s as [|e r1]; [discriminate|].
      destruct (Ascii.eqb e "u").
      * destruct r1 as [|h1 [|h2 [|h3 [|h4 r2]]]]; try discriminate.
        destruct (decode_uXXXX h1 h2 h3 h4) as [k|]; [|discriminate].
        destruct (k <? 256)%nat; [|discriminate].
        apply andThen_scanned in H as [a' [r' [H E]]].
        injection E as _ <-.
        apply IH in H; simpl in *; lia.
      * destruct (unescape e); [|discriminate].
        apply andThen_scanned in H as [a' [r' [H E]]].
        injection E as _ <-.
        apply IH in H; simpl in *; lia.
    + destruct (code c <? 32)%nat; [discriminate|].
      apply andThen_scanned in H as [a' [r' [H E]]].
      injection E as _ <-.
      apply IH in H; simpl in *; lia.
Qed.

Lemma scanstring_fuel (s : string) : scanstring s <> OutOfFuel.
Proof.
  assert (G : forall n s, String.length s <= n -> scanstring s <> OutOfFuel).
  { clear s; induction n as [|n IH]; intros s Hlen.
    - destruct s; [discriminate | simpl in Hlen; lia].
    - destruct s as [|c s]; [discriminate|].
      cbn [scanstring]. simpl in Hlen.
      destruct (Ascii.eqb c dquote); [discriminate|].
      destruct (Ascii.eqb c backslash).
      + destruct s as [|e r1]; [discriminate|].
        destruct (Ascii.eqb e "u").
        * destruct r1 as [|h1 [|h2 [|h3 [|h4 r2]]]]; try discriminate.
          destruct (decode_uXXXX h1 h2 h3 h4) as [k|]; [|discriminate].
          destruct (k <? 256)%nat; [|discriminate].
          apply andThen_fuel; [apply IH; simpl in *; lia | discriminate].
        * destruct (unescape e); [|discriminate].
          apply andThen_fuel; [apply IH; simpl in *; lia | discriminate].
      + destruct (code c <? 32)%nat; [discriminate|].
        apply andThen_fuel; [apply IH; simpl in *; lia | discriminate]. }
  exact (G (String.length s) s (le_n _)).
Qed.

Lemma scan_digits_length (s : string) :
  String.length (snd (scan_digits s)) <= String.length s.
Proof.
  induction s as [|c s IH]; simpl; [lia|].
  destruct (is_digit c); [|simpl; lia].
  destruct (scan_digits s); simpl in *; lia.
Qed.

Lemma scan_unsigned_shrinks (t : string) (n : N) (r : string) :
  scan_unsigned t = Some (n, r) -> String.length r < String.length t.
Proof.
  destruct t as [|c t]; [discriminate|]. unfold scan_unsigned.
  destruct (Ascii.eqb c "0"); [intros H; injection H as _ <-; simpl; lia|].
  destruct (is_digit c) eqn:Hc; [|discriminate].
  cbn [scan_digits]. rewrite Hc.
  pose proof (scan_digits_length t) as Hl.
  destruct (scan_digits t) as [d rest]. simpl in Hl.
  intros H; injection H as _ <-. simpl; lia.
Qed.

Lemma scan_int_shrinks (s : string) (z : Z) (r : string) :
  scan_int s = Some (z, r) -> String.length r < String.length s.
Proof.
  destruct s as [|c s]; [discriminate|]. unfold scan_int.
  destruct (Ascii.eqb c "-").
  - destruct (scan_unsigned s) as [[n rest]|] eqn:E; [|discriminate].
    intros H; injection H as _ <-.
    apply scan_unsigned_shrinks in E. simpl; lia.
  - destruct (scan_unsigned (String c s)) as [[n rest]|] eqn:E; [|discriminate].
    intros H; injection H as _ <-.
    now apply scan_unsigned_shrinks in E.
Qed.

Lemma scan_number_shrinks (s : string) (v : pyval) (r : string) :
  scan_number s = Scanned v r -> String.length r < String.length s.
Proof.
  unfold scan_number.
  destruct (scan_int s) as [[z rest]|] eqn:E.
  - destruct (starts_frac rest || starts_exp rest); [discriminate|].
    intros H; injection H as _ <-. now apply scan_int_shrinks in E.
  - destruct (_ || _); discriminate.
Qed.

Lemma scan_number_fuel (s : string) : scan_number s <> OutOfFuel.
Proof.
  unfold scan_number.
  destruct (scan_int s) as [[z rest]|].
  - destruct (starts_frac rest || starts_exp rest); discriminate.
  - destruct (_ || _); discriminate.
Qed.

Lemma strip_prefix_length (p s r : string) :
  strip_prefix p s = Some r ->
  String.length r + String.length p = String.length s.
Proof.
  revert s; induction p as [|a p IH]; intros s; simpl.
  - intros H; injection H as <-; lia.
  - destruct s as [|b s]; [discriminate|].
    destruct (Ascii.eqb a b); [|discriminate].
    intros H; apply IH in H; simpl; lia.
Qed.

Lemma literal_shrinks (word : string) (v : pyval) (s : string)
    (otherwise : scan pyval) (a : pyval) (r : string) :
  1 <= String.length word ->
  (otherwise = Scanned a r -> String.length r < String.length s) ->
  literal word v s otherwise = Scanned a r ->
  String.length r < String.length s.
Proof.
  intros Hw Ho. unfold literal.
  destruct (strip_prefix word s) as [rest|] eqn:E; [|exact Ho].
  intros H; injection H as _ <-.
  apply strip_prefix_length in E; lia.
Qed.

Lemma literal_fuel (word : string) (v : pyval) (s : string)
    (otherwise : scan pyval) :
  otherwise <> OutOfFuel -> literal word v s otherwise <> OutOfFuel.
Proof.
  intros Ho. unfold literal.
  destruct (strip_prefix word s); [discriminate | exact Ho].
Qed.

Lemma scan_once_step (fuel : nat) (c : ascii) (r : string) :
  scan_once (S fuel) (String c r)
  = if Ascii.eqb c dquote then
      andThen (scanstring r) (fun str rest => Scanned (PStr str) rest)
    else if Ascii.eqb c "{" then
      match skip_ws r with
      | String c1 r1 =>
          if Ascii.eqb c1 "}" then Scanned (PDict []) r1
          else if Ascii.eqb c1 dquote then
            andThen (object_loop fuel r1)
              (fun pairs rest => Scanned (PDict (Dict.of_pairs pairs)) rest)
          else DecodeError
      | EmptyString => DecodeError
      end
    else if Ascii.eqb c "[" then
      match skip_ws r with
      | String c1 r1 =>
          if Ascii.eqb c1 "]" then Scanned (PList []) r1
          else andThen (array_loop fuel (String c1 r1))
                 (fun vs rest => Scanned (PList vs) rest)
      | EmptyString => DecodeError
      end
    else
      literal "null" PNone (String c r)
        (literal "true" (PBool true) (String c r)
           (literal "false" (PBool false) (String c r)
              (scan_number (String c r)))).
Proof. reflexivity. Qed.

(** Whatever is scanned consumes at least one character. *)
Lemma scan_shrinks (fuel : nat) :
  (forall s v r, scan_once fuel s = Scanned v r ->
                 String.length r < String.length s)
  /\ (forall s l r, array_loop fuel s = Scanned l r ->
                    String.length r < String.length s)
  /\ (forall s l r, object_loop fuel s = Scanned l r ->
                    String.length r < String.length s).
Proof.
  induction fuel as [|fuel [IHv [IHa IHo]]].
  { repeat split; intros; discriminate. }
  split; [|split].
  - intros s v r H. destruct s as [|c s]; [discriminate|].
    rewrite scan_once_step in H.
    destruct (Ascii.eqb c dquote).
    { apply andThen_scanned in H as [a [r' [H E]]]. injection E as _ <-.
      apply (scanstring_shrinks _ _ _ _ (le_n _)) in H. simpl; lia. }
    destruct (Ascii.eqb c "{").
    { pose proof (skip_ws_length s) as Hs.
      destruct (skip_ws s) as [|c1 r1]; [discriminate|]. simpl in Hs.
      destruct (Ascii.eqb c1 "}").
      { injection H as _ <-. simpl; lia. }
      destruct (Ascii.eqb c1 dquote); [|discriminate].
      apply andThen_scanned in H as [a [r' [H E]]]. injection E as _ <-.
      apply IHo in H. simpl; lia. }
    destruct (Ascii.eqb c "[").
    { pose proof (skip_ws_length s) as Hs.
      destruct (skip_ws s) as [|c1 r1]; [discriminate|]. simpl in Hs.
      destruct (Ascii.eqb c1 "]").
      { injection H as _ <-. simpl; lia. }
      apply andThen_scanned in H as [a [r' [H E]]]. injection E as _ <-.
      apply IHa in H. simpl in *; lia. }
    revert H.
    apply literal_shrinks; [simpl; lia|].
    apply literal_shrinks; [simpl; lia|].
    apply literal_shrinks; [simpl; lia|].
    apply scan_number_shrinks.
  - intros s l r H. rewrite array_loop_step in H.
    apply andThen_scanned in H as [v [r1 [Hv H]]].
    apply IHv in Hv.
    pose proof (skip_ws_length r1) as Hs.
    destruct (skip_ws r1) as [|c r2]; [discriminate|]. simpl in Hs.
    destruct (Ascii.eqb c "]").
    { injection H as _ <-. lia. }
    destruct (Ascii.eqb c ","); [|discriminate].
    apply andThen_scanned in H as [vs [r3 [H E]]]. injection E as _ <-.
    apply IHa in H. pose proof (skip_ws_length r2). lia.
  - intros s l r H. rewrite object_loop_step in H.
    apply andThen_scanned in H as [key [r1 [Hk H]]].
    apply (scanstring_shrinks _ _ _ _ (le_n _)) in Hk.
    pose proof (skip_ws_length r1) as Hs.
    destruct (skip_ws r1) as [|c r2]; [discriminate|]. simpl in Hs.
    destruct (Ascii.eqb c ":"); [|discriminate].
    apply andThen_scanned in H as [v [r3 [Hv H]]].
    apply IHv in Hv. pose proof (skip_ws_length r2) as Hs2.
    pose proof (skip_ws_length r3) as Hs3.
    destruct (skip_ws r3) as [|c2 r4]; [discriminate|]. simpl in Hs3.
    destruct (Ascii.eqb c2 "}").
    { injection H as _ <-. lia. }
    destruct (Ascii.eqb c2 ","); [|discriminate].
    pose proof (skip_ws_length r4) as Hs4.
    destruct (skip_ws r4) as [|c3 r5]; [discriminate|]. simpl in Hs4.
    destruct (Ascii.eqb c3 dquote); [|discriminate].
    apply andThen_scanned in H as [ps [r6 [H E]]]. injection E as _ <-.
    apply IHo in H. lia.
Qed.

(** Twice the length of the text, and a little, is fuel enough. *)
Lemma scan_fuel (fuel : nat) :
  (forall s, 2 * String.length s + 1 <= fuel -> scan_once fuel s <> OutOfFuel)
  /\ (forall s, 2 * String.length s + 2 <= fuel ->
                array_loop fuel s <> OutOfFuel)
  /\ (forall s, 2 * String.length s + 2 <= fuel ->
                object_loop fuel s <> OutOfFuel).
Proof.
  induction fuel as [|fuel [IHv [IHa IHo]]].
  { repeat split; intros; lia. }
  destruct (scan_shrinks fuel) as [Sv [Sa So]].
  split; [|split].
  - intros s Hf. destruct s as [|c s]; [discriminate|].
    rewrite scan_once_step. simpl in Hf.
    destruct (Ascii.eqb c dquote).
    { apply andThen_fuel; [apply scanstring_fuel | discriminate]. }
    destruct (Ascii.eqb c "{").
    { pose proof (skip_ws_length s) as Hs.
      destruct (skip_ws s) as [|c1 r1]; [discriminate|]. simpl in Hs.
      destruct (Ascii.eqb c1 "}"); [discriminate|].
      destruct (Ascii.eqb c1 dquote); [|discriminate].
      apply andThen_fuel; [apply IHo; lia | discriminate]. }
    destruct (Ascii.eqb c "[").
    { pose proof (skip_ws_length s) as Hs.
      destruct (skip_ws s) as [|c1 r1]; [discriminate|]. simpl in Hs.
      destruct (Ascii.eqb c1 "]"); [discriminate|].
      apply andThen_fuel; [apply IHa; simpl; lia | discriminate]. }
    repeat apply literal_fuel. apply scan_number_fuel.
  - intros s Hf. rewrite array_loop_step.
    apply andThen_fuel; [apply IHv; lia|].
    intros v r1 Hv. apply Sv in Hv.
    pose proof (skip_ws_length r1) as Hs.
    destruct (skip_ws r1) as [|c r2]; [discriminate|]. simpl in Hs.
    destruct (Ascii.eqb c "]"); [discriminate|].
    destruct (Ascii.eqb c ","); [|discriminate].
    apply andThen_fuel; [|discriminate].
    apply IHa. pose proof (skip_ws_length r2). lia.
  - intros s Hf. rewrite object_loop_step.
    apply andThen_fuel; [apply scanstring_fuel|].
    intros key r1 Hk.
    apply (scanstring_shrinks _ _ _ _ (le_n _)) in Hk.
    pose proof (skip_ws_length r1) as Hs.
    destruct (skip_ws r1) as [|c r2]; [discriminate|]. simpl in Hs.
    destruct (Ascii.eqb c ":"); [|discriminate].
    pose proof (skip_ws_length r2) as Hs2.
    apply andThen_fuel; [apply IHv; lia|].
    intros v r3 Hv. apply Sv in Hv.
    pose proof (skip_ws_length r3) as Hs3.
    destruct (skip_ws r3) as [|c2 r4]; [discriminate|]. simpl in Hs3.
    destruct (Ascii.eqb c2 "}"); [discriminate|].
    destruct (Ascii.eqb c2 ","); [|discriminate].
    pose proof (skip_ws_length r4) as Hs4.
    destruct (skip_ws r4) as [|c3 r5]; [discriminate|]. simpl in Hs4.
    destruct (Ascii.eqb c3 dquote); [|discriminate].
    apply andThen_fuel; [apply IHo; lia | discriminate].
Qed.

(** [loads] always gives [scan_once] enough fuel: for every text, the
    scan ends with a value, a [JSONDecodeError], or a text that leaves the
    model. *)
Lemma loads_fuel (s : string) : scan_once (fuel_for s) s <> OutOfFuel.
Proof. apply (scan_fuel (fuel_for s)). unfold fuel_for; lia. Qed.

End JsonTotal.

Section RoundTrip.


End RoundTrip.


(** Likewise an integer key comes back as a string. *)
Lemma loads_dumps_int_key :
  Json.loads (Json.dumps (PDict [(KInt 1, PStr "one")]) 4)
  = Ok (PDict [(KStr "1", PStr "one")]).
Proof. vm_compute; reflexivity. Qed.


(* ================================================================== *)
(** * More on the research dispatch *)
(* ================================================================== *)

Section DispatchMore.

Variable env : environment.
Variables topic focus_areas : string.

Local Abbreviation run_on w := (conduct_research env topic focus_areas w).

(** [conduct_research] leaves the key, the view, the selection and the
    state of the disk as they are. *)
Lemma conduct_research_frame (w : world) :
  api_key (snd (run_on w)) = api_key w
  /\ current_view (snd (run_on w)) = current_view w
  /\ selected_research (snd (run_on w)) = selected_research w
  /\ disk_writable (snd (run_on w)) = disk_writable w.
Proof.
  unfold conduct_research.
  destruct (has_api_key w); simpl; [|repeat split].
  destruct (AgentLaboratory env _ _); simpl; [|repeat split].
  destruct (lab_conduct_research env _ _ _ _); simpl; [|repeat split].
  destruct (setitem _ _ _); simpl; [|repeat split].
  unfold save_results; simpl.
  destruct (disk_writable w) eqn:E; repeat split; exact E.
Qed.

Lemma conduct_research_failure_frame (w : world) :
  fst (fst (run_on w)) = false ->
  research_results (snd (run_on w)) = research_results w
  /\ results_file (snd (run_on w)) = results_file w.
Proof.
  unfold conduct_research.
  destruct (has_api_key w); simpl; [|repeat split].
  destruct (AgentLaboratory env _ _); simpl; [|repeat split].
  destruct (lab_conduct_research env _ _ _ _); simpl; [|repeat split].
  destruct (setitem _ _ _); simpl; [discriminate|repeat split].
Qed.

(** X1.  Whenever [conduct_research] returns [False], whatever the
    reason (no key, the library raising in its constructor or in its
    method, a store that takes no item), the store and the file are as
    they were. *)
Theorem conduct_research_failure_atomic (w : world) :
  fst (fst (run_on w)) = false ->
  research_results (snd (run_on w)) = research_results w
  /\ results_file (snd (run_on w)) = results_file w.
Proof.
  unfold conduct_research.
  destruct (has_api_key w); simpl; [|repeat split].
  destruct (AgentLaboratory env _ _); simpl; [|repeat split].
  destruct (lab_conduct_research env _ _ _ _); simpl; [|repeat split].
  destruct (setitem _ _ _); simpl; [discriminate|repeat split].
Qed.

(** X2.  The outcome of [conduct_research] and the store it leaves depend
    on the key and the store only, not on the disk: a save that fails is
    never reported and never undoes the record. *)
Theorem conduct_research_ignores_disk (w1 w2 : world) :
  api_key w1 = api_key w2 ->
  research_results w1 = research_results w2 ->
  fst (run_on w1) = fst (run_on w2)
  /\ research_results (snd (run_on w1)) = research_results (snd (run_on w2)).
Proof.
  intros Hk Hs. unfold conduct_research, has_api_key, the_api_key.
  rewrite Hk. destruct (match api_key w2 with Some k => PyStr.truthy k | None => false end);
    simpl; [|now split].
  destruct (AgentLaboratory env _ _); simpl; [|now split].
  destruct (lab_conduct_research env _ _ _ _); simpl; [|now split].
  rewrite Hs. destruct (setitem _ _ _); simpl; [|now split].
  unfold save_results; simpl.
  destruct (disk_writable w1), (disk_writable w2); now split.
Qed.

Lemma contains_set (d : Dict.t) (k k' : pykey) (v : pyval) :
  Dict.contains d k' = true -> Dict.contains (Dict.set d k v) k' = true.
Proof.
  unfold Dict.contains. intros H.
  destruct (key_eqb_spec k' k) as [->|Hne].
  - now rewrite get_set_same.
  - now rewrite get_set_other.
Qed.

Lemma length_set_le (d : Dict.t) (k : pykey) (v : pyval) :
  List.length d <= List.length (Dict.set d k v).
Proof.
  destruct (Dict.contains d k) eqn:E.
  - rewrite length_set_old by exact E. lia.
  - rewrite length_set_new by exact E. lia.
Qed.

Lemma conduct_research_keys (w : world) (d : Dict.t) :
  research_results w = PDict d ->
  exists d',
    research_results (snd (run_on w)) = PDict d'
    /\ (forall k, Dict.contains d k = true -> Dict.contains d' k = true)
    /\ List.length d <= List.length d'.
Proof.
  intros Hd. unfold conduct_research.
  destruct (has_api_key w); simpl; [|exists d; auto].
  destruct (AgentLaboratory env _ _); simpl; [|exists d; auto].
  destruct (lab_conduct_research env _ _ _ _); simpl; [|exists d; auto].
  rewrite Hd; cbn [setitem]. unfold save_results; simpl.
  eexists; split; [destruct (disk_writable w); reflexivity|].
  split; [intros k; apply contains_set | apply length_set_le].
Qed.

(** X3.  No call of [conduct_research] removes a record: every key of
    the store is still a key afterwards, and the number of records never
    goes down. *)
Theorem conduct_research_keeps_keys (w : world) (d : Dict.t) :
  research_results w = PDict d ->
  exists d',
    research_results (snd (run_on w)) = PDict d'
    /\ (forall k, Dict.contains d k = true -> Dict.contains d' k = true)
    /\ List.length d <= List.length d'.
Proof.
  intros Hd. unfold conduct_research.
  destruct (has_api_key w); simpl; [|exists d; auto].
  destruct (AgentLaboratory env _ _); simpl; [|exists d; auto].
  destruct (lab_conduct_research env _ _ _ _); simpl; [|exists d; auto].
  rewrite Hd; cbn [setitem]. unfold save_results; simpl.
  eexists; split; [destruct (disk_writable w); reflexivity|].
  split; [intros k; apply contains_set | apply length_set_le].
Qed.

(** X4.  A store that is no dict (the file held a JSON array, a number,
    a string, [null]) never takes a record: with a key and a library that
    works, the call still returns [False] and the store stays. *)
Theorem conduct_research_needs_dict (w : world) :
  is_dict (research_results w) = false ->
  fst (fst (run_on w)) = false
  /\ research_results (snd (run_on w)) = research_results w.
Proof.
  intros Hd.
  assert (H : fst (fst (run_on w)) = false).
  { unfold conduct_research.
    destruct (has_api_key w); simpl; [|reflexivity].
    destruct (AgentLaboratory env _ _); simpl; [|reflexivity].
    destruct (lab_conduct_research env _ _ _ _); simpl; [|reflexivity].
    destruct (research_results w); try discriminate; reflexivity. }
  split; [exact H | apply (conduct_research_failure_frame w H)].
Qed.

(** X5.  The library is never called with an empty key: every call that
    [conduct_research] makes carries a key that is not empty. *)
Theorem conduct_research_calls_with_key (w : world) :
  exists calls,
    lab_calls (snd (run_on w)) = (lab_calls w ++ calls)%list
    /\ Forall (fun c => PyStr.truthy (call_key c) = true) calls.
Proof.
  unfold conduct_research.
  destruct (has_api_key w) eqn:Hk; simpl.
  2:{ exists []; split; [now rewrite List.app_nil_r | constructor]. }
  assert (Ht : PyStr.truthy (the_api_key w) = true).
  { unfold has_api_key in Hk; unfold the_api_key.
    destruct (api_key w); [exact Hk | discriminate]. }
  destruct (AgentLaboratory env _ _); simpl.
  2:{ eexists; split; [reflexivity|]. repeat constructor; exact Ht. }
  exists [NewLaboratory (the_api_key w) "gpt-4o";
          ConductResearch (the_api_key w) "gpt-4o" topic
            (build_task_notes focus_areas)].
  split; [|repeat constructor; exact Ht].
  destruct (lab_conduct_research env _ _ _ _); simpl.
  - destruct (setitem _ _ _); simpl.
    + unfold save_results; simpl.
      destruct (disk_writable w); simpl; now rewrite <- List.app_assoc.
    + now rewrite <- List.app_assoc.
  - now rewrite <- List.app_assoc.
Qed.

End DispatchMore.

(* ================================================================== *)
(** * Timestamps as keys *)
(* ================================================================== *)

Section Timestamps.

Lemma digit_char_inj (a b : nat) :
  a < 10 -> b < 10 -> Json.digit_char a = Json.digit_char b -> a = b.
Proof.
  unfold Json.digit_char; intros Ha Hb H.
  apply (f_equal nat_of_ascii) in H.
  rewrite !nat_ascii_embedding in H by lia. lia.
Qed.

Lemma decimal4 (n : nat) :
  n < 10 * 1000 ->
  n = 1000 * (n / 1000 mod 10) + 100 * (n / 100 mod 10)
      + 10 * (n / 10 mod 10) + n mod 10.
Proof.
  intros H.
  replace (n / 1000) with (n / 10 / 10 / 10)
    by (rewrite !Nat.Div0.div_div; reflexivity).
  replace (n / 100) with (n / 10 / 10)
    by (rewrite !Nat.Div0.div_div; reflexivity).
  pose proof (Nat.div_mod_eq n 10) as E0.
  pose proof (Nat.div_mod_eq (n / 10) 10) as E1.
  pose proof (Nat.div_mod_eq (n / 10 / 10) 10) as E2.
  pose proof (Nat.div_mod_eq (n / 10 / 10 / 10) 10) as E3.
  pose proof (Nat.mod_upper_bound n 10 ltac:(discriminate)).
  pose proof (Nat.mod_upper_bound (n / 10) 10 ltac:(discriminate)).
  pose proof (Nat.mod_upper_bound (n / 10 / 10) 10 ltac:(discriminate)).
  pose proof (Nat.mod_upper_bound (n / 10 / 10 / 10) 10 ltac:(discriminate)).
  lia.
Qed.

Lemma decimal2 (n : nat) : n < 100 -> n = 10 * (n / 10 mod 10) + n mod 10.
Proof.
  intros H.
  pose proof (Nat.div_mod_eq n 10) as E0.
  pose proof (Nat.div_mod_eq (n / 10) 10) as E1.
  pose proof (Nat.mod_upper_bound n 10 ltac:(discriminate)).
  pose proof (Nat.mod_upper_bound (n / 10) 10 ltac:(discriminate)).
  lia.
Qed.

Lemma string_cons_inj (a b : ascii) (s t : string) :
  String a s = String b t -> a = b /\ s = t.
Proof. intros H; injection H; auto. Qed.

Lemma strftime_inj (t1 t2 : datetime) :
  valid_datetime t1 -> valid_datetime t2 ->
  strftime t1 = strftime t2 -> t1 = t2.
Proof.
  destruct t1 as [y1 mo1 d1' h1 mi1 s1], t2 as [y2 mo2 d2' h2 mi2 s2].
  unfold valid_datetime; cbn [year month day hour minute second].
  intros V1 V2 H.
  unfold strftime, pad4, pad2 in H.
  cbn -[Nat.div Nat.modulo Json.digit_char] in H.
  repeat (apply string_cons_inj in H; destruct H as [? H]).
  repeat match goal with
         | E : Json.digit_char _ = Json.digit_char _ |- _ =>
             apply digit_char_inj in E;
             [| apply Nat.mod_upper_bound; discriminate
              | apply Nat.mod_upper_bound; discriminate]
         end.
  pose proof (decimal4 y1 ltac:(lia)). pose proof (decimal4 y2 ltac:(lia)).
  pose proof (decimal2 mo1 ltac:(lia)). pose proof (decimal2 mo2 ltac:(lia)).
  pose proof (decimal2 d1' ltac:(lia)). pose proof (decimal2 d2' ltac:(lia)).
  pose proof (decimal2 h1 ltac:(lia)). pose proof (decimal2 h2 ltac:(lia)).
  pose proof (decimal2 mi1 ltac:(lia)). pose proof (decimal2 mi2 ltac:(lia)).
  pose proof (decimal2 s1 ltac:(lia)). pose proof (decimal2 s2 ltac:(lia)).
  f_equal; lia.
Qed.


End Timestamps.

(* ================================================================== *)
(** * A success, then what follows *)
(* ================================================================== *)

Section AfterSuccess.

(** What a success leaves behind. *)
Lemma conduct_research_stores (env : environment) (topic focus_areas : string)
    (w : world) (d : Dict.t) (results : pyval) :
  has_api_key w = true ->
  research_results w = PDict d ->
  AgentLaboratory env (the_api_key w) "gpt-4o" = Returned tt ->
  lab_conduct_research env (the_api_key w) "gpt-4o" topic
    (build_task_notes focus_areas) = Returned results ->
  fst (conduct_research env topic focus_areas w)
  = (true, "Research completed successfully!")
  /\ research_results (snd (conduct_research env topic focus_areas w))
     = PDict (Dict.set d (KStr (strftime (datetime_now env)))
                (research_record topic focus_areas results))
  /\ results_file (snd (conduct_research env topic focus_areas w))
     = (if disk_writable w
        then Some (Json.dumps
                     (PDict (Dict.set d (KStr (strftime (datetime_now env)))
                               (research_record topic focus_areas results))) 4)
        else results_file w).
Proof.
  intros Hk Hd Hnew Hrun.
  unfold conduct_research; rewrite Hk; simpl.
  rewrite Hnew, Hrun; simpl. rewrite Hd; cbn [setitem].
  unfold save_results; simpl.
  destruct (disk_writable w); repeat split.
Qed.

Lemma existsb_set (k0 k : pykey) (d : Dict.t) (v : pyval) :
  key_eqb k0 k = false ->
  existsb (key_eqb k0) (map fst d) = false ->
  existsb (key_eqb k0) (map fst (Dict.set d k v)) = false.
Proof.
  intros Hk; induction d as [|[k1 v1] d IH]; simpl.
  - intros _. now rewrite Hk.
  - intros H; apply orb_false_elim in H as [H1 H2].
    destruct (key_eqb k1 k); simpl; rewrite H1; [exact H2 | now apply IH].
Qed.

(** Storing a native value under a string key keeps a native dict
    native. *)
Lemma json_native_set (d : Dict.t) (k : string) (v : pyval) :
  json_native (PDict d) = true ->
  json_native v = true ->
  json_native (PDict (Dict.set d (KStr k) v)) = true.
Proof.
  intros Hd Hv.
  change (forallb (fun kv => is_str_key (fst kv) && json_native (snd kv)) d
          && nodup_keys (map fst d) = true) in Hd.
  change (forallb (fun kv => is_str_key (fst kv) && json_native (snd kv))
            (Dict.set d (KStr k) v)
          && nodup_keys (map fst (Dict.set d (KStr k) v)) = true).
  induction d as [|[k0 v0] d IH].
  - simpl. now rewrite Hv.
  - cbn [forallb map fst snd nodup_keys] in Hd.
    apply andb_prop in Hd as [Hall Hnd].
    apply andb_prop in Hall as [H0 Hall].
    apply andb_prop in H0 as [Hk0 Hv0].
    apply andb_prop in Hnd as [Hfresh Hnd].
    cbn [Dict.set].
    destruct (key_eqb k0 (KStr k)) eqn:E;
      cbn [forallb map fst snd nodup_keys].
    + now rewrite Hk0, Hv, Hall, Hfresh, Hnd.
    + specialize (IH ltac:(now rewrite Hall, Hnd)).
      apply andb_prop in IH as [IH1 IH2].
      rewrite Hk0, Hv0, IH1, IH2.
      apply negb_true_iff in Hfresh.
      now rewrite existsb_set.
Qed.

Lemma json_native_record (topic focus_areas : string) (results : pyval) :
  json_native results = true ->
  json_native (research_record topic focus_areas results) = true.
Proof.
  intros H. unfold research_record.
  change (json_native (PStr topic) && (json_native (PStr focus_areas)
          && (json_native results && true)) && true = true).
  now rewrite H.
Qed.


(** X8.  Two successful researches made at two different moments are both
    in the store afterwards, each under its own timestamp. *)
Theorem two_researches (env1 env2 : environment)
    (topic1 focus1 topic2 focus2 : string)
    (w : world) (d : Dict.t) (results1 results2 : pyval) :
  has_api_key w = true ->
  research_results w = PDict d ->
  AgentLaboratory env1 (the_api_key w) "gpt-4o" = Returned tt ->
  lab_conduct_research env1 (the_api_key w) "gpt-4o" topic1
    (build_task_notes focus1) = Returned results1 ->
  AgentLaboratory env2 (the_api_key w) "gpt-4o" = Returned tt ->
  lab_conduct_research env2 (the_api_key w) "gpt-4o" topic2
    (build_task_notes focus2) = Returned results2 ->
  valid_datetime (datetime_now env1) ->
  valid_datetime (datetime_now env2) ->
  datetime_now env1 <> datetime_now env2 ->
  let w1 := snd (conduct_research env1 topic1 focus1 w) in
  let w2 := snd (conduct_research env2 topic2 focus2 w1) in
  getitem (research_results w2) (strftime (datetime_now env1))
  = Ok (research_record topic1 focus1 results1)
  /\ getitem (research_results w2) (strftime (datetime_now env2))
     = Ok (research_record topic2 focus2 results2).
Proof.
  intros Hk Hd Hn1 Hr1 Hn2 Hr2 V1 V2 Hne w1 w2.
  destruct (conduct_research_stores env1 topic1 focus1 w d results1
              Hk Hd Hn1 Hr1) as [_ [Hs1 _]].
  destruct (conduct_research_frame env1 topic1 focus1 w) as [Hkey _].
  fold w1 in Hs1, Hkey.
  assert (Hk1 : has_api_key w1 = true) by (unfold has_api_key; now rewrite Hkey).
  assert (Hthe : the_api_key w1 = the_api_key w)
    by (unfold the_api_key; now rewrite Hkey).
  destruct (conduct_research_stores env2 topic2 focus2 w1 _ results2
              Hk1 Hs1 ltac:(now rewrite Hthe) ltac:(now rewrite Hthe))
    as [_ [Hs2 _]].
  fold w2 in Hs2. rewrite Hs2. cbn [getitem].
  split.
  - rewrite get_set_other, get_set_same; [reflexivity|].
    intros E; apply (f_equal key_text) in E; cbn [key_text] in E.
    apply Hne. now apply strftime_inj.
  - now rewrite get_set_same.
Qed.

End AfterSuccess.

(* ================================================================== *)
(** * The form, the preferences, the viewer *)
(* ================================================================== *)

Section FormMore.

Variable env : environment.
Variables topic focus_areas : string.
Variable submitted : bool.
Variable w : world.

Local Abbreviation after := (research_form env topic focus_areas submitted w).

Lemma conduct_research_page (w0 : world) :
  has_api_key w0 = true ->
  exists shown,
    page (snd (conduct_research env topic focus_areas w0))
    = (page w0 ++ shown)%list
    /\ Forall (fun e => e = StSpinner "Conducting research...") shown.
Proof.
  intros Hk. unfold conduct_research; rewrite Hk; simpl.
  destruct (AgentLaboratory env _ _); simpl.
  2:{ exists []; split; [now rewrite List.app_nil_r | constructor]. }
  exists [StSpinner "Conducting research..."].
  split; [|repeat constructor].
  destruct (lab_conduct_research env _ _ _ _); simpl; [|reflexivity].
  destruct (setitem _ _ _); simpl; [|reflexivity].
  unfold save_results; simpl. now destruct (disk_writable w0).
Qed.

Lemma conduct_research_messages (w0 : world) :
  has_api_key w0 = true ->
  fst (conduct_research env topic focus_areas w0)
  = (true, "Research completed successfully!")
  \/ exists m,
       fst (conduct_research env topic focus_areas w0)
       = (false, "Error during research: " ++ m).
Proof.
  intros Hk. unfold conduct_research; rewrite Hk; simpl.
  destruct (AgentLaboratory env _ _); simpl; [|right; eexists; reflexivity].
  destruct (lab_conduct_research env _ _ _ _); simpl;
    [|right; eexists; reflexivity].
  destruct (setitem _ _ _); simpl;
    [left; reflexivity | right; eexists; reflexivity].
Qed.

(** X9.  The form changes the store or the file only when it reports
    success: either both are as they were, or the form was submitted with
    a key and two non-empty fields and the last thing on the page is the
    success message. *)
Theorem research_form_changes_on_success :
  (research_results after = research_results w
   /\ results_file after = results_file w)
  \/ (submitted = true
      /\ has_api_key w = true
      /\ PyStr.truthy topic = true
      /\ PyStr.truthy focus_areas = true
      /\ List.last (page after) (StButton EmptyString)
         = StSuccess "Research completed successfully!").
Proof.
  unfold research_form.
  destruct submitted; [|left; split; reflexivity].
  destruct (has_api_key w) eqn:Hk; simpl; [|left; split; reflexivity].
  destruct (PyStr.truthy topic) eqn:Ht; simpl; [|left; split; reflexivity].
  destruct (PyStr.truthy focus_areas) eqn:Hf; simpl; [|left; split; reflexivity].
  pose proof (conduct_research_failure_frame env topic focus_areas w) as Hat.
  destruct (conduct_research_messages w Hk) as [E|[m E]].
  - right. destruct (conduct_research env topic focus_areas w) as [[ok msg] w1].
    simpl in E; injection E as -> ->.
    repeat split. cbn [page show]. now rewrite last_last.
  - left. destruct (conduct_research env topic focus_areas w) as [[ok msg] w1].
    simpl in E; injection E as -> ->. simpl in *. now apply Hat.
Qed.

(** X10.  The form never shows the message ["API key required"] of
    [conduct_research]: it checks the key itself, so that message stays
    inside.  What the form adds to the page holds no such error. *)
Theorem research_form_never_key_required :
  exists shown,
    page (research_form env topic focus_areas submitted w)
    = (page w ++ shown)%list
    /\ ~ In (StError "API key required") shown.
Proof.
  unfold research_form.
  destruct submitted.
  2:{ exists []; split; [now rewrite List.app_nil_r | intros []]. }
  destruct (has_api_key w) eqn:Hk; simpl.
  2:{ eexists; split; [reflexivity|]. intros [H|[]]; discriminate. }
  destruct (PyStr.truthy topic && PyStr.truthy focus_areas).
  2:{ exists []; split; [now rewrite List.app_nil_r | intros []]. }
  destruct (conduct_research_page w Hk) as [shown [Hp Hall]].
  destruct (conduct_research_messages w Hk) as [E|[m E]];
    destruct (conduct_research env topic focus_areas w) as [[ok msg] w1];
    simpl in E, Hp; injection E as -> ->; cbn [page show]; rewrite Hp;
    rewrite <- List.app_assoc; eexists; (split; [reflexivity|]);
    intros Hin; apply in_app_or in Hin as [Hin|[Hin|[]]];
    try discriminate;
    rewrite Forall_forall in Hall; apply Hall in Hin; discriminate.
Qed.

End FormMore.

Section TaskNotes.
Import PyStr.

Lemma mem_strip (c : ascii) (s : string) :
  mem c s = false -> mem c (strip s) = false.
Proof.
  intros H. destruct (strip_spec s) as [l [r [E _]]].
  rewrite E in H. rewrite !mem_append in H.
  apply orb_false_elim in H as [_ H].
  now apply orb_false_elim in H as [H _].
Qed.

Lemma trimmed_strip (s : string) : trimmed (strip s) = true.
Proof.
  destruct (strip_spec s) as [l [r [_ [_ [_ [Hf Hl]]]]]].
  unfold trimmed.
  destruct (first_char (strip s)) as [a|] eqn:Ea; [|reflexivity].
  destruct (last_char (strip s)) as [b|] eqn:Eb; [|reflexivity].
  now rewrite (Hf a eq_refl), (Hl b eq_refl).
Qed.

(** X11.  The library receives one focus area more than the input has
    commas, whatever the input: an empty input gives one (empty) focus
    area, a trailing comma one more. *)
Theorem task_notes_count (focus_areas : string) :
  exists areas,
    getitem (build_task_notes focus_areas) "focus_areas" = Ok (PList areas)
    /\ List.length areas = S (count_char "," focus_areas).
Proof.
  eexists; split; [reflexivity|].
  now rewrite length_map, split_length.
Qed.

(** X12.  Every focus area the library receives is a string without a
    comma and without white space at either end. *)
Theorem task_notes_clean (focus_areas : string) :
  exists areas,
    getitem (build_task_notes focus_areas) "focus_areas" = Ok (PList areas)
    /\ Forall (fun v => exists s,
                  v = PStr s /\ mem "," s = false /\ trimmed s = true) areas.
Proof.
  eexists; split; [reflexivity|].
  rewrite Forall_forall. intros v Hin.
  apply in_map_iff in Hin as [p [<- Hp]].
  exists (strip p); repeat split.
  - apply mem_strip.
    pose proof (split_no_sep "," focus_areas) as H.
    rewrite Forall_forall in H. now apply H.
  - apply trimmed_strip.
Qed.

End TaskNotes.

Section ViewerMore.

Lemma view_research_page_frame (clicked : bool) (w w' : world) :
  view_research_page clicked w = Ok w' ->
  research_results w' = research_results w
  /\ results_file w' = results_file w
  /\ api_key w' = api_key w
  /\ current_view w' = current_view w
  /\ selected_research w' = selected_research w
  /\ lab_calls w' = lab_calls w.
Proof.
  unfold view_research_page.
  destruct (selected_research w) as [selected|] eqn:Hsel.
  2:{ intros E; injection E as <-. now rewrite Hsel. }
  destruct (getitem (research_results w) selected) as [research| |];
    simpl; try discriminate.
  destruct (getitem research "topic") as [topic| |]; simpl; try discriminate.
  destruct (format_field topic) as [t| |]; simpl; try discriminate.
  destruct (getitem research "focus_areas") as [focus| |]; simpl; try discriminate.
  destruct (getitem research "results") as [results| |]; simpl; try discriminate.
  destruct clicked.
  - destruct (md_content research) as [md| |]; simpl; try discriminate.
    destruct (file_name research) as [name| |]; simpl; try discriminate.
    intros E; injection E as <-. cbn. now rewrite Hsel.
  - intros E; injection E as <-. cbn. now rewrite Hsel.
Qed.

(** X13.  Looking at a record, exporting included, only adds to the page:
    the store, the file, the key, the view, the selection and the calls to
    the library are as before. *)
Theorem view_research_page_only_shows (clicked : bool) (w w' : world) :
  view_research_page clicked w = Ok w' ->
  research_results w' = research_results w
  /\ results_file w' = results_file w
  /\ api_key w' = api_key w
  /\ current_view w' = current_view w
  /\ selected_research w' = selected_research w
  /\ lab_calls w' = lab_calls w.
Proof.
  unfold view_research_page.
  destruct (selected_research w) as [selected|] eqn:Hsel.
  2:{ intros E; injection E as <-. now rewrite Hsel. }
  destruct (getitem (research_results w) selected) as [research| |];
    simpl; try discriminate.
  destruct (getitem research "topic") as [topic| |]; simpl; try discriminate.
  destruct (format_field topic) as [t| |]; simpl; try discriminate.
  destruct (getitem research "focus_areas") as [focus| |]; simpl; try discriminate.
  destruct (getitem research "results") as [results| |]; simpl; try discriminate.
  destruct clicked.
  - destruct (md_content research) as [md| |]; simpl; try discriminate.
    destruct (file_name research) as [name| |]; simpl; try discriminate.
    intros E; injection E as <-. cbn. now rewrite Hsel.
  - intros E; injection E as <-. cbn. now rewrite Hsel.
Qed.

(** X14.  The download button is shown exactly when the export button
    was pressed: once then, never otherwise. *)
Theorem view_research_page_downloads (clicked : bool) (w w' : world)
    (selected : string) :
  selected_research w = Some selected ->
  view_research_page clicked w = Ok w' ->
  exists shown,
    page w' = (page w ++ shown)%list
    /\ List.length (filter is_download shown) = (if clicked then 1 else 0).
Proof.
  intros Hsel. unfold view_research_page. rewrite Hsel.
  destruct (getitem (research_results w) selected) as [research| |];
    simpl; try discriminate.
  destruct (getitem research "topic") as [topic| |]; simpl; try discriminate.
  destruct (format_field topic) as [t| |]; simpl; try discriminate.
  destruct (getitem research "focus_areas") as [focus| |]; simpl; try discriminate.
  destruct (getitem research "results") as [results| |]; simpl; try discriminate.
  destruct clicked.
  - destruct (md_content research) as [md| |]; simpl; try discriminate.
    destruct (file_name research) as [name| |]; simpl; try discriminate.
    intros E; injection E as <-. cbn [page show].
    rewrite <- !List.app_assoc. eexists; split; reflexivity.
  - intros E; injection E as <-. cbn [page show].
    rewrite <- !List.app_assoc. eexists; split; reflexivity.
Qed.

End ViewerMore.

(* ================================================================== *)
(** * The sidebar *)
(* ================================================================== *)

Section Sidebar.

Lemma contains_in (d : Dict.t) (k : pykey) :
  Dict.contains d k = true <-> In k (map fst d).
Proof.
  unfold Dict.contains. induction d as [|[k0 v0] d IH]; simpl.
  - split; [discriminate | intros []].
  - destruct (key_eqb_spec k0 k) as [->|Hne].
    + split; auto.
    + rewrite IH. split; [auto | intros [E|H]; [contradiction | exact H]].
Qed.

Lemma last_clicked_spec (clicked : string -> bool) (keys : list pykey)
    (k : string) :
  last_clicked clicked keys = Some k ->
  clicked k = true /\ In (KStr k) keys.
Proof.
  induction keys as [|k0 keys IH]; simpl; [discriminate|].
  destruct (last_clicked clicked keys) as [later|].
  - intros E; injection E as ->. destruct (IH eq_refl); auto.
  - destruct k0 as [s|z]; [|discriminate].
    destruct (clicked s) eqn:Hs; [|discriminate].
    intros E; injection E as <-. auto.
Qed.

Lemma last_clicked_none (clicked : string -> bool) (keys : list pykey) :
  (forall k, In (KStr k) keys -> clicked k = false) ->
  last_clicked clicked keys = None.
Proof.
  induction keys as [|k0 keys IH]; simpl; [reflexivity|].
  intros H. rewrite IH by (intros k Hk; apply H; auto).
  destruct k0 as [s|z]; [|reflexivity].
  now rewrite (H s (or_introl eq_refl)).
Qed.

Lemma last_clicked_only (clicked : string -> bool) (keys : list pykey)
    (k : string) :
  In (KStr k) keys ->
  clicked k = true ->
  (forall k', In (KStr k') keys -> clicked k' = true -> k' = k) ->
  last_clicked clicked keys = Some k.
Proof.
  intros Hin Hk Honly.
  destruct (last_clicked clicked keys) as [later|] eqn:E.
  - apply last_clicked_spec in E as [Hc Hl]. f_equal. now apply Honly.
  - exfalso. clear Honly. induction keys as [|k0 keys IH]; [destruct Hin|].
    simpl in E.
    destruct (last_clicked clicked keys) as [later|]; [discriminate|].
    destruct Hin as [->|Hin]; [now rewrite Hk in E | now apply IH].
Qed.

(** The loop of the buttons touches the view and the selection only. *)
Lemma record_buttons_frame (clicked : string -> bool) (items : Dict.t) :
  forall w shown w' shown',
    record_buttons clicked items w shown = Completed (w', shown') ->
    api_key w' = api_key w
    /\ research_results w' = research_results w
    /\ results_file w' = results_file w
    /\ disk_writable w' = disk_writable w
    /\ page w' = page w
    /\ lab_calls w' = lab_calls w.
Proof.
  induction items as [|[k research] items IH]; intros w shown w' shown'; simpl.
  - intros E; injection E as <- _. repeat split.
  - destruct (getitem research "topic") as [topic| |]; try discriminate.
    destruct (format_field topic) as [t| |]; try discriminate.
    destruct k as [timestamp|z]; try discriminate.
    destruct (clicked timestamp); intros E; apply IH in E; exact E.
Qed.

Lemma record_buttons_selection (clicked : string -> bool) (items : Dict.t) :
  forall w shown w' shown',
    record_buttons clicked items w shown = Completed (w', shown') ->
    match last_clicked clicked (map fst items) with
    | Some k =>
        current_view w' = Some view_research /\ selected_research w' = Some k
    | None =>
        current_view w' = current_view w
        /\ selected_research w' = selected_research w
    end.
Proof.
  induction items as [|[k research] items IH]; intros w shown w' shown'; simpl.
  - intros E; injection E as <- _. split; reflexivity.
  - destruct (getitem research "topic") as [topic| |]; try discriminate.
    destruct (format_field topic) as [t| |]; try discriminate.
    destruct k as [timestamp|z]; try discriminate.
    destruct (clicked timestamp); intros E; apply IH in E;
      destruct (last_clicked clicked (map fst items)); exact E.
Qed.

(** On the items of a research store the loop completes, with one button
    per record. *)
Lemma record_buttons_store (clicked : string -> bool) (items : Dict.t) :
  forallb (fun kv => is_str_key (fst kv) && is_research_record (snd kv)) items
  = true ->
  forall w shown,
  exists w',
    record_buttons clicked items w shown
    = Completed (w', (shown ++ map record_button items)%list).
Proof.
  induction items as [|[k research] items IH]; intros Hall w shown.
  - exists w. simpl. now rewrite List.app_nil_r.
  - cbn [forallb fst snd] in Hall.
    apply andb_prop in Hall as [H0 Hall].
    apply andb_prop in H0 as [Hk Hr].
    destruct k as [timestamp|z]; [|discriminate].
    destruct (record_fields research Hr) as [t [f [res [Ht _]]]].
    cbn [record_buttons]. rewrite Ht. cbn [format_field].
    assert (Hb : record_button (KStr timestamp, research)
                 = SbRecordButton t timestamp).
    { unfold record_button, topic_of. cbn [fst snd key_text]. now rewrite Ht. }
    cbn [map]. rewrite Hb.
    destruct (clicked timestamp);
      [destruct (IH Hall (select timestamp w)
                   (shown ++ [SbRecordButton t timestamp])%list) as [w' E]
      |destruct (IH Hall w (shown ++ [SbRecordButton t timestamp])%list)
         as [w' E]];
      exists w'; rewrite E, <- List.app_assoc; reflexivity.
Qed.

(** What a completed sidebar leaves: the data as they were, the key
    replaced by what was typed. *)
Lemma sidebar_frame (inp : inputs) (w w' : world) (shown : list sidebar_ui) :
  sidebar inp w = Completed (w', shown) ->
  research_results w' = research_results w
  /\ results_file w' = results_file w
  /\ disk_writable w' = disk_writable w
  /\ page w' = page w
  /\ lab_calls w' = lab_calls w
  /\ api_key w'
     = (if PyStr.truthy (in_api_key inp) then Some (in_api_key inp)
        else api_key w).
Proof.
  unfold sidebar.
  set (w1 := if PyStr.truthy (in_api_key inp)
             then set_api_key (Some (in_api_key inp)) w else w).
  set (w2 := if in_new_research inp then set_current_view new_research w1
             else w1).
  assert (H2 : api_key w2
               = (if PyStr.truthy (in_api_key inp) then Some (in_api_key inp)
                  else api_key w)
               /\ research_results w2 = research_results w
               /\ results_file w2 = results_file w
               /\ disk_writable w2 = disk_writable w
               /\ page w2 = page w
               /\ lab_calls w2 = lab_calls w).
  { subst w2 w1. destruct (in_new_research inp), (PyStr.truthy (in_api_key inp));
      repeat split. }
  destruct H2 as [Ha [Hs [Hf [Hd [Hp Hl]]]]].
  destruct (truthy_value (research_results w2)).
  - destruct (research_results w2) as [| | | | | |d] eqn:E; try discriminate.
    intros H. apply record_buttons_frame in H
      as [Ha' [Hs' [Hf' [Hd' [Hp' Hl']]]]].
    repeat split; congruence.
  - intros H; injection H as <- _. repeat split; assumption.
Qed.

Lemma sidebar_selection (inp : inputs) (w w' : world)
    (shown : list sidebar_ui) (d : Dict.t) :
  sidebar inp w = Completed (w', shown) ->
  research_results w = PDict d ->
  match last_clicked (in_record inp) (map fst d) with
  | Some k =>
      current_view w' = Some view_research /\ selected_research w' = Some k
  | None =>
      current_view w'
      = (if in_new_research inp then Some new_research else current_view w)
      /\ selected_research w' = selected_research w
  end.
Proof.
  unfold sidebar.
  set (w1 := if PyStr.truthy (in_api_key inp)
             then set_api_key (Some (in_api_key inp)) w else w).
  set (w2 := if in_new_research inp then set_current_view new_research w1
             else w1).
  assert (H2 : research_results w2 = research_results w
               /\ current_view w2
                  = (if in_new_research inp then Some new_research
                     else current_view w)
               /\ selected_research w2 = selected_research w).
  { subst w2 w1. destruct (in_new_research inp), (PyStr.truthy (in_api_key inp));
      repeat split. }
  destruct H2 as [Hs [Hv Hsel]].
  intros H Hd. rewrite Hs, Hd in H.
  destruct d as [|kv d].
  - cbn in H. injection H as <- _. cbn. now rewrite Hv, Hsel.
  - cbn [truthy_value] in H.
    apply record_buttons_selection in H.
    destruct (last_clicked (in_record inp) (map fst (kv :: d))).
    + exact H.
    + now rewrite <- Hv, <- Hsel.
Qed.

End Sidebar.

(* ================================================================== *)
(** * A run of the script, and a session *)
(* ================================================================== *)

Section Script.

Lemma session_ok_intro (w : world) :
  is_research_store (research_results w) = true ->
  selection_valid w = true ->
  view_consistent w = true ->
  session_ok w = true.
Proof. intros H1 H2 H3; unfold session_ok; now rewrite H1, H2, H3. Qed.

Lemma session_ok_elim (w : world) :
  session_ok w = true ->
  is_research_store (research_results w) = true
  /\ selection_valid w = true
  /\ view_consistent w = true.
Proof.
  unfold session_ok; intros H.
  apply andb_prop in H as [H H3]. apply andb_prop in H as [H1 H2]. auto.
Qed.

Lemma research_form_frame (env : environment) (topic focus_areas : string)
    (submitted : bool) (w : world) :
  api_key (research_form env topic focus_areas submitted w) = api_key w
  /\ current_view (research_form env topic focus_areas submitted w)
     = current_view w
  /\ selected_research (research_form env topic focus_areas submitted w)
     = selected_research w.
Proof.
  unfold research_form.
  destruct submitted; [|repeat split].
  destruct (has_api_key w); simpl; [|repeat split].
  destruct (PyStr.truthy topic && PyStr.truthy focus_areas); [|repeat split].
  destruct (conduct_research_frame env topic focus_areas w) as [Ha [Hv [Hs _]]].
  destruct (conduct_research env topic focus_areas w) as [[ok msg] w1].
  simpl in *. destruct ok; repeat split; assumption.
Qed.

Lemma research_form_store (env : environment) (topic focus_areas : string)
    (submitted : bool) (w : world) (d : Dict.t) :
  research_results w = PDict d ->
  exists d',
    research_results (research_form env topic focus_areas submitted w)
    = PDict d'
    /\ (forall k, Dict.contains d k = true -> Dict.contains d' k = true)
    /\ List.length d <= List.length d'
    /\ (is_research_store (PDict d) = true
        -> is_research_store (PDict d') = true).
Proof.
  intros Hd. unfold research_form.
  destruct submitted; [|exists d; rewrite Hd; auto].
  destruct (has_api_key w); simpl; [|exists d; rewrite Hd; auto].
  destruct (PyStr.truthy topic && PyStr.truthy focus_areas);
    [|exists d; rewrite Hd; auto].
  destruct (conduct_research_keys env topic focus_areas w d Hd)
    as [d' [Hs [Hk Hl]]].
  pose proof (conduct_research_keeps_store env topic focus_areas w) as Hrs.
  rewrite Hd, Hs in Hrs.
  destruct (conduct_research env topic focus_areas w) as [[ok msg] w1].
  simpl in *. exists d'. destruct ok; simpl; auto.
Qed.

Lemma research_form_idle (env : environment) (topic focus_areas : string)
    (w : world) :
  research_form env topic focus_areas false w = w.
Proof. reflexivity. Qed.

(** The viewer on a research record. *)
Lemma view_page_of_record (clicked : bool) (w : world) (selected : string)
    (research : pyval) :
  selected_research w = Some selected ->
  getitem (research_results w) selected = Ok research ->
  is_research_record research = true ->
  exists w' topic focus_areas results,
    view_research_page clicked w = Ok w'
    /\ getitem research "topic" = Ok (PStr topic)
    /\ getitem research "focus_areas" = Ok (PStr focus_areas)
    /\ getitem research "results" = Ok results
    /\ (clicked = false ->
        page w'
        = (page w ++ [ StHeader ("Research Results: " ++ topic);
                       StSubheader "Focus Areas";
                       StWrite (PStr focus_areas);
                       StSubheader "Results";
                       StJson results;
                       StButton "Export as Markdown" ])%list).
Proof.
  intros Hsel Hitem Hrec.
  destruct (record_fields research Hrec) as [t [f [res [Ht [Hf Hr]]]]].
  unfold view_research_page. rewrite Hsel, Hitem. cbn [bind].
  rewrite Ht. cbn [bind format_field]. rewrite Hf. cbn [bind]. rewrite Hr.
  cbn [bind].
  destruct clicked.
  - unfold md_content, file_name. rewrite Ht, Hf, Hr. cbn [bind format_field].
    eexists; exists t, f, res; repeat split; try assumption. discriminate.
  - eexists; exists t, f, res; repeat split; try assumption.
    intros _. cbn [page show]. now rewrite <- !List.app_assoc.
Qed.

(** A sidebar on a session in order completes and leaves it in order. *)
Lemma sidebar_keeps_session_ok (inp : inputs) (w : world) :
  session_ok w = true ->
  exists w' shown,
    sidebar inp w = Completed (w', shown) /\ session_ok w' = true.
Proof.
  intros Hok. apply session_ok_elim in Hok as [Hs [Hsel Hv]].
  destruct (research_results w) as [| | | | | |d] eqn:Hd; try discriminate.
  assert (Hc : exists w' shown, sidebar inp w = Completed (w', shown)).
  { unfold sidebar.
    set (w1 := if PyStr.truthy (in_api_key inp)
               then set_api_key (Some (in_api_key inp)) w else w).
    set (w2 := if in_new_research inp then set_current_view new_research w1
               else w1).
    assert (H2 : research_results w2 = PDict d).
    { subst w2 w1. rewrite <- Hd.
      destruct (in_new_research inp), (PyStr.truthy (in_api_key inp));
        reflexivity. }
    rewrite H2. destruct (truthy_value (PDict d)); [|eauto].
    destruct (record_buttons_store (in_record inp) d Hs w2
                ([SbHeader "Research Projects";
                  SbKeyInput "Enter your OpenAI API Key";
                  (if has_api_key w1 then SbKeySet else SbKeyMissing);
                  SbButton "New Research"] ++ [SbSubheader "Previous Research"])%list)
      as [w' E].
    eauto. }
  destruct Hc as [w' [shown E]]. exists w', shown. split; [exact E|].
  destruct (sidebar_frame inp w w' shown E) as [Hs' _].
  pose proof (sidebar_selection inp w w' shown d E Hd) as Hn.
  apply session_ok_intro.
  - now rewrite Hs', Hd.
  - unfold selection_valid. rewrite Hs', Hd.
    destruct (last_clicked (in_record inp) (map fst d)) as [k|] eqn:Hl.
    + destruct Hn as [_ ->]. apply last_clicked_spec in Hl as [_ Hin].
      now apply contains_in.
    + destruct Hn as [_ ->]. unfold selection_valid in Hsel.
      now rewrite Hd in Hsel.
  - unfold view_consistent.
    destruct (last_clicked (in_record inp) (map fst d)) as [k|].
    + destruct Hn as [-> ->]. reflexivity.
    + destruct Hn as [-> ->]. unfold view_consistent in Hv.
      destruct (in_new_research inp); [reflexivity | exact Hv].
Qed.

(** A main panel on a session in order returns and leaves it in order. *)
Lemma main_panel_keeps_session_ok (env : environment) (inp : inputs)
    (w : world) :
  session_ok w = true ->
  exists w', main_panel env inp w = Ok w' /\ session_ok w' = true.
Proof.
  intros Hok. apply session_ok_elim in Hok as [Hs [Hsel Hv]].
  destruct (research_results w) as [| | | | | |d] eqn:Hd; try discriminate.
  assert (Hform : forall w0,
             research_results w0 = PDict d ->
             selected_research w0 = selected_research w ->
             current_view w0 = Some new_research ->
             session_ok (research_form env (in_topic inp) (in_focus_areas inp)
                           (in_submitted inp) w0) = true).
  { intros w0 H0 Hsel0 Hv0.
    destruct (research_form_frame env (in_topic inp) (in_focus_areas inp)
                (in_submitted inp) w0) as [_ [Hfv Hfs]].
    destruct (research_form_store env (in_topic inp) (in_focus_areas inp)
                (in_submitted inp) w0 d H0) as [d' [Hd' [Hk [_ Hrs]]]].
    apply session_ok_intro.
    - rewrite Hd'. now apply Hrs.
    - unfold selection_valid. rewrite Hfs, Hsel0, Hd'.
      unfold selection_valid in Hsel. rewrite Hd in Hsel.
      destruct (selected_research w); [now apply Hk | reflexivity].
    - unfold view_consistent. now rewrite Hfv, Hv0. }
  unfold main_panel.
  destruct (current_view w) as [[|]|] eqn:Hcv; cbn [current_view set_current_view].
  - rewrite Hcv. eexists; split; [reflexivity|].
    apply Hform; [exact Hd | reflexivity | exact Hcv].
  - rewrite Hcv.
    unfold view_consistent in Hv. rewrite Hcv in Hv.
    destruct (selected_research w) as [selected|] eqn:Hse; [|discriminate].
    unfold selection_valid in Hsel. rewrite Hse, Hd in Hsel.
    unfold Dict.contains in Hsel.
    destruct (Dict.get d (KStr selected)) as [research|] eqn:Hg; [|discriminate].
    assert (Hitem : getitem (research_results w) selected = Ok research)
      by (rewrite Hd; cbn [getitem]; now rewrite Hg).
    destruct (view_page_of_record (in_export inp) w selected research Hse Hitem
                (store_lookup d _ research Hs Hg))
      as [w' [t [f [res [E _]]]]].
    exists w'. split; [exact E|].
    destruct (view_research_page_frame _ _ _ E) as [Hs' [_ [_ [Hv' [Hsel' _]]]]].
    apply session_ok_intro.
    + now rewrite Hs', Hd.
    + unfold selection_valid. rewrite Hsel', Hse, Hs', Hd.
      unfold Dict.contains. now rewrite Hg.
    + unfold view_consistent. now rewrite Hv', Hsel', Hcv, Hse.
  - eexists; split; [reflexivity|].
    apply Hform; [exact Hd | reflexivity | reflexivity].
Qed.

Lemma clear_page_session_ok (w : world) :
  session_ok (clear_page w) = session_ok w.
Proof. reflexivity. Qed.

Lemma script_session_ok (env : environment) (inp : inputs) (w : world) :
  session_ok w = true ->
  exists w' shown,
    script env inp w = Completed (w', shown) /\ session_ok w' = true.
Proof.
  intros Hok. unfold script.
  destruct (sidebar_keeps_session_ok inp (clear_page w)) as [w1 [shown [E1 Hok1]]];
    [now rewrite clear_page_session_ok|].
  rewrite E1.
  destruct (main_panel_keeps_session_ok env inp w1 Hok1) as [w2 [E2 Hok2]].
  rewrite E2. eauto.
Qed.


Lemma session_runs_ok (steps : list (environment * inputs)) :
  forall w,
    session_ok w = true ->
    exists w', session_runs steps w = Completed w' /\ session_ok w' = true.
Proof.
  induction steps as [|[env inp] steps IH]; intros w Hok.
  - exists w; split; [reflexivity | exact Hok].
  - cbn [session_runs].
    destruct (script_session_ok env inp w Hok) as [w1 [shown [E Hok1]]].
    rewrite E. now apply IH.
Qed.



End Script.

Section ScriptMore.

Lemma script_parts (env : environment) (inp : inputs) (w w' : world)
    (shown : list sidebar_ui) :
  script env inp w = Completed (w', shown) ->
  exists w1,
    sidebar inp (clear_page w) = Completed (w1, shown)
    /\ main_panel env inp w1 = Ok w'.
Proof.
  unfold script.
  destruct (sidebar inp (clear_page w)) as [[w1 shown1]| |]; try discriminate.
  destruct (main_panel env inp w1) as [w2| |] eqn:E2; try discriminate.
  intros E; injection E as <- <-. now exists w1.
Qed.

Lemma main_panel_api_key (env : environment) (inp : inputs) (w w' : world) :
  main_panel env inp w = Ok w' -> api_key w' = api_key w.
Proof.
  unfold main_panel.
  destruct (current_view w) as [[|]|] eqn:Hcv;
    cbn [current_view set_current_view]; rewrite ?Hcv.
  - intros E; injection E as <-.
    now destruct (research_form_frame env (in_topic inp) (in_focus_areas inp)
                    (in_submitted inp)
                    (show (StButton "Start Research")
                       (show (StHeader "New Research") w))) as [-> _].
  - intros E. now apply view_research_page_frame in E as [_ [_ [-> _]]].
  - intros E; injection E as <-.
    now destruct (research_form_frame env (in_topic inp) (in_focus_areas inp)
                    (in_submitted inp)
                    (show (StButton "Start Research")
                       (show (StHeader "New Research")
                          (set_current_view new_research w)))) as [-> _].
Qed.

Lemma main_panel_idle (env : environment) (inp : inputs) (w w' : world) :
  in_submitted inp = false ->
  main_panel env inp w = Ok w' ->
  research_results w' = research_results w
  /\ results_file w' = results_file w
  /\ lab_calls w' = lab_calls w.
Proof.
  intros Hsub. unfold main_panel. rewrite Hsub.
  destruct (current_view w) as [[|]|] eqn:Hcv;
    cbn [current_view set_current_view]; rewrite ?Hcv.
  - intros E; injection E as <-. repeat split.
  - intros E. apply view_research_page_frame in E
      as [-> [-> [_ [_ [_ ->]]]]]. repeat split.
  - intros E; injection E as <-. repeat split.
Qed.

Lemma main_panel_keys (env : environment) (inp : inputs) (w w' : world)
    (d : Dict.t) :
  research_results w = PDict d ->
  main_panel env inp w = Ok w' ->
  exists d',
    research_results w' = PDict d'
    /\ (forall k, Dict.contains d k = true -> Dict.contains d' k = true)
    /\ List.length d <= List.length d'.
Proof.
  intros Hd. unfold main_panel.
  destruct (current_view w) as [[|]|] eqn:Hcv;
    cbn [current_view set_current_view]; rewrite ?Hcv.
  - intros E; injection E as <-.
    destruct (research_form_store env (in_topic inp) (in_focus_areas inp)
                (in_submitted inp)
                (show (StButton "Start Research")
                   (show (StHeader "New Research") w)) d Hd)
      as [d' [H1 [H2 [H3 _]]]].
    exists d'; auto.
  - intros E. apply view_research_page_frame in E as [Hs _].
    exists d. rewrite Hs. auto.
  - intros E; injection E as <-.
    destruct (research_form_store env (in_topic inp) (in_focus_areas inp)
                (in_submitted inp)
                (show (StButton "Start Research")
                   (show (StHeader "New Research")
                      (set_current_view new_research w))) d Hd)
      as [d' [H1 [H2 [H3 _]]]].
    exists d'; auto.
Qed.

(** X17.  The key lives as long as the session: after a run it is what
    was typed in the box when the box is not empty, and what it was before
    when the box is empty.  Neither an empty box nor any other part of the
    script clears a key. *)
Theorem script_api_key (env : environment) (inp : inputs) (w w' : world)
    (shown : list sidebar_ui) :
  script env inp w = Completed (w', shown) ->
  api_key w'
  = (if PyStr.truthy (in_api_key inp) then Some (in_api_key inp)
     else api_key w).
Proof.
  intros E. apply script_parts in E as [w1 [E1 E2]].
  apply main_panel_api_key in E2. rewrite E2.
  now apply sidebar_frame in E1 as [_ [_ [_ [_ [_ ->]]]]].
Qed.

(** X18.  A run in which the form is not submitted changes neither the
    store nor the file and calls the library not at all: navigating,
    viewing and exporting are free of effects on the data. *)
Theorem script_without_submission (env : environment) (inp : inputs)
    (w w' : world) (shown : list sidebar_ui) :
  in_submitted inp = false ->
  script env inp w = Completed (w', shown) ->
  research_results w' = research_results w
  /\ results_file w' = results_file w
  /\ lab_calls w' = lab_calls w.
Proof.
  intros Hsub E. apply script_parts in E as [w1 [E1 E2]].
  apply (main_panel_idle env inp w1 w' Hsub) in E2 as [-> [-> ->]].
  apply sidebar_frame in E1 as [-> [-> [_ [_ [-> _]]]]].
  repeat split.
Qed.

(** X19.  No run removes a record: every key of the store is still a key
    after the run and the number of records does not go down.  The script
    has no way to delete. *)
Theorem script_keeps_keys (env : environment) (inp : inputs) (w w' : world)
    (shown : list sidebar_ui) (d : Dict.t) :
  research_results w = PDict d ->
  script env inp w = Completed (w', shown) ->
  exists d',
    research_results w' = PDict d'
    /\ (forall k, Dict.contains d k = true -> Dict.contains d' k = true)
    /\ List.length d <= List.length d'.
Proof.
  intros Hd E. apply script_parts in E as [w1 [E1 E2]].
  apply sidebar_frame in E1 as [Hs _].
  apply (main_panel_keys env inp w1 w' d); [|exact E2].
  now rewrite Hs.
Qed.

(** X20.  A store that is no dict and is not empty (the file held a JSON
    array with elements, a number, a string) stops every run in the
    sidebar: [items] is no attribute of it. *)
Theorem script_crashes_without_dict (env : environment) (inp : inputs)
    (w : world) :
  is_dict (research_results w) = false ->
  truthy_value (research_results w) = true ->
  script env inp w
  = Crashed (AttributeError (no_items_message (research_results w))).
Proof.
  intros Hd Ht. unfold script, sidebar.
  set (w1 := if PyStr.truthy (in_api_key inp)
             then set_api_key (Some (in_api_key inp)) (clear_page w)
             else clear_page w).
  set (w2 := if in_new_research inp then set_current_view new_research w1
             else w1).
  assert (H2 : research_results w2 = research_results w).
  { subst w2 w1.
    destruct (in_new_research inp), (PyStr.truthy (in_api_key inp));
      reflexivity. }
  rewrite H2, Ht.
  destruct (research_results w); try reflexivity; discriminate.
Qed.

Lemma sidebar_shown (inp : inputs) (w : world) (d : Dict.t) :
  research_results w = PDict d ->
  is_research_store (PDict d) = true ->
  exists w',
    sidebar inp w
    = Completed
        (w',
         [ SbHeader "Research Projects";
           SbKeyInput "Enter your OpenAI API Key";
           (if has_api_key w' then SbKeySet else SbKeyMissing);
           SbButton "New Research" ]
         ++ match d with
            | [] => []
            | _ => SbSubheader "Previous Research" :: map record_button d
            end)%list.
Proof.
  intros Hd Hs. unfold sidebar.
  set (w1 := if PyStr.truthy (in_api_key inp)
             then set_api_key (Some (in_api_key inp)) w else w).
  set (w2 := if in_new_research inp then set_current_view new_research w1
             else w1).
  assert (H2 : research_results w2 = PDict d /\ api_key w2 = api_key w1).
  { subst w2 w1. rewrite <- Hd.
    destruct (in_new_research inp), (PyStr.truthy (in_api_key inp));
      split; reflexivity. }
  destruct H2 as [H2 Hk2]. rewrite H2.
  destruct d as [|kv d].
  - exists w2. cbn [truthy_value]. unfold has_api_key. now rewrite Hk2.
  - cbn [truthy_value].
    destruct (record_buttons_store (in_record inp) (kv :: d) Hs w2
                ([SbHeader "Research Projects";
                  SbKeyInput "Enter your OpenAI API Key";
                  (if has_api_key w1 then SbKeySet else SbKeyMissing);
                  SbButton "New Research"] ++ [SbSubheader "Previous Research"])%list)
      as [w' E].
    exists w'. rewrite E.
    destruct (record_buttons_frame _ _ _ _ _ _ E) as [Hk' _].
    unfold has_api_key. rewrite Hk', Hk2. reflexivity.
Qed.

(** X21.  On a research store the sidebar shows, after its four fixed
    elements, nothing when the store is empty and otherwise the heading
    and one button per record, in the order of the store, each labelled
    with the topic of its record and keyed by its timestamp. *)
Theorem sidebar_lists_records (inp : inputs) (w : world) (d : Dict.t) :
  research_results w = PDict d ->
  is_research_store (PDict d) = true ->
  exists w',
    sidebar inp w
    = Completed
        (w',
         [ SbHeader "Research Projects";
           SbKeyInput "Enter your OpenAI API Key";
           (if has_api_key w' then SbKeySet else SbKeyMissing);
           SbButton "New Research" ]
         ++ match d with
            | [] => []
            | _ => SbSubheader "Previous Research" :: map record_button d
            end)%list.
Proof.
  intros Hd Hs. unfold sidebar.
  set (w1 := if PyStr.truthy (in_api_key inp)
             then set_api_key (Some (in_api_key inp)) w else w).
  set (w2 := if in_new_research inp then set_current_view new_research w1
             else w1).
  assert (H2 : research_results w2 = PDict d /\ api_key w2 = api_key w1).
  { subst w2 w1. rewrite <- Hd.
    destruct (in_new_research inp), (PyStr.truthy (in_api_key inp));
      split; reflexivity. }
  destruct H2 as [H2 Hk2]. rewrite H2.
  destruct d as [|kv d].
  - exists w2. cbn [truthy_value]. unfold has_api_key. now rewrite Hk2.
  - cbn [truthy_value].
    destruct (record_buttons_store (in_record inp) (kv :: d) Hs w2
                ([SbHeader "Research Projects";
                  SbKeyInput "Enter your OpenAI API Key";
                  (if has_api_key w1 then SbKeySet else SbKeyMissing);
                  SbButton "New Research"] ++ [SbSubheader "Previous Research"])%list)
      as [w' E].
    exists w'. rewrite E.
    destruct (record_buttons_frame _ _ _ _ _ _ E) as [Hk' _].
    unfold has_api_key. rewrite Hk', Hk2. reflexivity.
Qed.

(** X22.  Pressing the button of a stored record shows that record in the
    same run: the view becomes the viewer, the record becomes the
    selection, and the page is the header with its topic, its focus areas
    and its results. *)
Theorem press_record_shows_it (env : environment) (inp : inputs) (w : world)
    (d : Dict.t) (key : string) (research : pyval) :
  session_ok w = true ->
  research_results w = PDict d ->
  Dict.get d (KStr key) = Some research ->
  in_record inp key = true ->
  (forall k, In (KStr k) (map fst d) -> in_record inp k = true -> k = key) ->
  in_export inp = false ->
  exists w' shown topic focus_areas results,
    script env inp w = Completed (w', shown)
    /\ current_view w' = Some view_research
    /\ selected_research w' = Some key
    /\ getitem research "topic" = Ok (PStr topic)
    /\ getitem research "focus_areas" = Ok (PStr focus_areas)
    /\ getitem research "results" = Ok results
    /\ page w' = [ StHeader ("Research Results: " ++ topic);
                   StSubheader "Focus Areas";
                   StWrite (PStr focus_areas);
                   StSubheader "Results";
                   StJson results;
                   StButton "Export as Markdown" ].
Proof.
  intros Hok Hd Hget Hpress Honly Hexp.
  destruct (sidebar_keeps_session_ok inp (clear_page w))
    as [w1 [shown [E1 Hok1]]]; [exact Hok|].
  pose proof (sidebar_selection inp (clear_page w) w1 shown d E1 Hd) as Hn.
  assert (Hin : In (KStr key) (map fst d)).
  { apply contains_in. unfold Dict.contains. now rewrite Hget. }
  rewrite (last_clicked_only (in_record inp) (map fst d) key Hin Hpress Honly)
    in Hn.
  destruct Hn as [Hv1 Hs1].
  destruct (sidebar_frame _ _ _ _ E1) as [Hst [_ [_ [Hp1 _]]]].
  cbn [clear_page research_results page] in Hst, Hp1.
  apply session_ok_elim in Hok1 as [Hrs _]. rewrite Hst, Hd in Hrs.
  assert (Hitem : getitem (research_results w1) key = Ok research)
    by (rewrite Hst, Hd; cbn [getitem]; now rewrite Hget).
  destruct (view_page_of_record false w1 key research Hs1 Hitem
              (store_lookup d _ research Hrs Hget))
    as [w' [t [f [res [E2 [Ht [Hf [Hr Hpage]]]]]]]].
  exists w', shown, t, f, res.
  destruct (view_research_page_frame _ _ _ E2) as [_ [_ [_ [Hv' [Hs' _]]]]].
  repeat split; try assumption.
  - unfold script. rewrite E1. unfold main_panel. rewrite Hv1.
    cbn beta iota. rewrite Hv1, Hexp, E2. reflexivity.
  - now rewrite Hv', Hv1.
  - now rewrite Hs', Hs1.
  - rewrite (Hpage eq_refl), Hp1. reflexivity.
Qed.

(** X23.  With no record button pressed and the form not submitted, a
    session that is on the form, or has no view yet, or whose "New
    Research" button was pressed, is on the form after the run, and the
    main panel shows the form only: its header and its submit button, no
    message and no record. *)
Theorem form_is_shown (env : environment) (inp : inputs) (w : world) :
  session_ok w = true ->
  current_view w <> Some view_research \/ in_new_research inp = true ->
  (forall k, in_record inp k = false) ->
  in_submitted inp = false ->
  exists w' shown,
    script env inp w = Completed (w', shown)
    /\ current_view w' = Some new_research
    /\ page w' = [StHeader "New Research"; StButton "Start Research"].
Proof.
  intros Hok Hview Hnone Hsub.
  destruct (sidebar_keeps_session_ok inp (clear_page w))
    as [w1 [shown [E1 Hok1]]]; [exact Hok|].
  apply session_ok_elim in Hok as [Hs _].
  destruct (research_results w) as [| | | | | |d] eqn:Hd; try discriminate.
  pose proof (sidebar_selection inp (clear_page w) w1 shown d E1 Hd) as Hn.
  rewrite (last_clicked_none (in_record inp) (map fst d)) in Hn
    by (intros k _; apply Hnone).
  destruct Hn as [Hv1 _]. cbn [clear_page current_view] in Hv1.
  destruct (sidebar_frame _ _ _ _ E1) as [_ [_ [_ [Hp1 _]]]].
  cbn [clear_page page] in Hp1.
  assert (Hcases : current_view w1 = Some new_research
                   \/ current_view w1 = None).
  { rewrite Hv1. destruct (in_new_research inp); [now left|].
    destruct Hview as [Hview|Hview]; [|discriminate].
    destruct (current_view w) as [[|]|]; auto. contradiction. }
  unfold script. rewrite E1. unfold main_panel. rewrite Hsub.
  destruct Hcases as [Hc|Hc]; rewrite Hc; cbn [current_view set_current_view];
    rewrite ?Hc; eexists; eexists; (split; [reflexivity|]);
    cbn [research_form current_view page show set_current_view];
    rewrite ?Hc, Hp1; split; reflexivity.
Qed.

End ScriptMore.

Section SubmitThenList.

Lemma in_set (d : Dict.t) (k : pykey) (v : pyval) :
  In (k, v) (Dict.set d k v).
Proof.
  induction d as [|[k0 v0] d IH]; simpl; [now left|].
  destruct (key_eqb_spec k0 k) as [->|Hne]; [now left | now right].
Qed.

(** X25.  A submission that succeeds shows the success message, puts
    the record in the store under its timestamp, and from the next run on
    the sidebar offers a button for it, labelled with the submitted
    topic. *)
Theorem submitted_record_is_listed (env : environment) (inp : inputs)
    (w : world) (d : Dict.t) (results : pyval)
    (env' : environment) (inp' : inputs) :
  session_ok w = true ->
  research_results w = PDict d ->
  has_api_key w = true ->
  in_api_key inp = EmptyString ->
  current_view w <> Some view_research \/ in_new_research inp = true ->
  (forall k, in_record inp k = false) ->
  in_submitted inp = true ->
  PyStr.truthy (in_topic inp) = true ->
  PyStr.truthy (in_focus_areas inp) = true ->
  AgentLaboratory env (the_api_key w) "gpt-4o" = Returned tt ->
  lab_conduct_research env (the_api_key w) "gpt-4o" (in_topic inp)
    (build_task_notes (in_focus_areas inp)) = Returned results ->
  exists w1 shown,
    script env inp w = Completed (w1, shown)
    /\ List.last (page w1) (StButton EmptyString)
       = StSuccess "Research completed successfully!"
    /\ getitem (research_results w1) (strftime (datetime_now env))
       = Ok (research_record (in_topic inp) (in_focus_areas inp) results)
    /\ exists w2 shown',
         script env' inp' w1 = Completed (w2, shown')
         /\ In (SbRecordButton (in_topic inp) (strftime (datetime_now env)))
               shown'.
Proof.
  intros Hok Hd Hkey Hbox Hview Hnone Hsub Htopic Hfocus Hnew Hrun.
  destruct (script_session_ok env inp w Hok) as [w1 [shown [E Hok1]]].
  exists w1, shown. split; [exact E|].
  (* the first run, part by part *)
  destruct (script_parts env inp w w1 shown E) as [ws [Es Em]].
  destruct (sidebar_frame _ _ _ _ Es) as [Hst [_ [_ [_ [_ Hk]]]]].
  rewrite Hbox in Hk. cbn [PyStr.truthy clear_page api_key research_results]
    in Hk, Hst.
  pose proof (sidebar_selection inp (clear_page w) ws shown d Es Hd) as Hn.
  rewrite (last_clicked_none (in_record inp) (map fst d)) in Hn
    by (intros k _; apply Hnone).
  destruct Hn as [Hv _]. cbn [clear_page current_view] in Hv.
  assert (Hcases : current_view ws = Some new_research
                   \/ current_view ws = None).
  { rewrite Hv. destruct (in_new_research inp); [now left|].
    destruct Hview as [Hview|Hview]; [|discriminate].
    destruct (current_view w) as [[|]|]; auto. contradiction. }
  assert (Hform : exists w3,
             api_key w3 = api_key w
             /\ research_results w3 = PDict d
             /\ w1 = research_form env (in_topic inp) (in_focus_areas inp)
                       true w3).
  { unfold main_panel in Em. rewrite Hsub in Em.
    destruct Hcases as [Hc|Hc]; rewrite Hc in Em;
      cbn [current_view set_current_view] in Em; rewrite ?Hc in Em;
      injection Em as <-; eexists; (split; [|split; [|reflexivity]]);
      cbn [api_key research_results show set_current_view];
      congruence. }
  destruct Hform as [w3 [Hk3 [Hs3 ->]]].
  assert (Hkey3 : has_api_key w3 = true)
    by (unfold has_api_key; now rewrite Hk3).
  assert (Hthe : the_api_key w3 = the_api_key w)
    by (unfold the_api_key; now rewrite Hk3).
  destruct (conduct_research_stores env (in_topic inp) (in_focus_areas inp)
              w3 d results Hkey3 Hs3
              ltac:(now rewrite Hthe) ltac:(now rewrite Hthe))
    as [Hres [Hstore _]].
  assert (Hafter :
            research_results
              (research_form env (in_topic inp) (in_focus_areas inp) true w3)
            = PDict (Dict.set d (KStr (strftime (datetime_now env)))
                       (research_record (in_topic inp) (in_focus_areas inp)
                          results))
            /\ List.last
                 (page (research_form env (in_topic inp) (in_focus_areas inp)
                          true w3)) (StButton EmptyString)
               = StSuccess "Research completed successfully!").
  { unfold research_form. rewrite Hkey3, Htopic, Hfocus. cbn [negb andb].
    destruct (conduct_research env (in_topic inp) (in_focus_areas inp) w3)
      as [[ok msg] w4].
    cbn [fst snd] in Hres, Hstore. injection Hres as -> ->.
    cbn [research_results page show]. split; [exact Hstore|].
    now rewrite last_last. }
  destruct Hafter as [Hstore1 Hlast].
  split; [exact Hlast|].
  split; [rewrite Hstore1; cbn [getitem]; now rewrite get_set_same|].
  (* the next run *)
  destruct (script_session_ok env' inp' _ Hok1) as [w2 [shown' [E' _]]].
  exists w2, shown'. split; [exact E'|].
  destruct (script_parts env' inp' _ w2 shown' E') as [ws' [Es' _]].
  apply session_ok_elim in Hok1 as [Hrs _]. rewrite Hstore1 in Hrs.
  destruct (sidebar_shown inp' (clear_page
              (research_form env (in_topic inp) (in_focus_areas inp) true w3))
              _ Hstore1 Hrs) as [wx Ex].
  rewrite Ex in Es'. injection Es' as _ <-.
  do 4 right.
  pose proof (in_set d (KStr (strftime (datetime_now env)))
                (research_record (in_topic inp) (in_focus_areas inp) results))
    as Hin.
  destruct (Dict.set d (KStr (strftime (datetime_now env)))
              (research_record (in_topic inp) (in_focus_areas inp) results))
    as [|kv rest]; [destruct Hin|].
  right. apply (in_map record_button) in Hin. exact Hin.
Qed.

End SubmitThenList.

(* ================================================================== *)
(** * The statements above, on the scenarios *)
(* ================================================================== *)

(** The lookup of a key that is not in the store, as a statement of its
    own. *)

(** X26.  The viewer has no fallback for a selected key that is not in
    the store: the run ends with an uncaught [KeyError] on that key,
    whether or not the export was asked for. *)
Theorem view_research_page_key_error (w : world) (selected : string)
    (d : Dict.t) (clicked : bool) :
  research_results w = PDict d ->
  selected_research w = Some selected ->
  Dict.contains d (KStr selected) = false ->
  view_research_page clicked w = Raise (KeyError (KStr selected)).
Proof.
  intros Hd Hsel Hin. unfold Dict.contains in Hin.
  unfold view_research_page; rewrite Hsel, Hd; simpl.
  destruct (Dict.get d (KStr selected)); [discriminate | reflexivity].
Qed.

Lemma conduct_research_failure_atomic_witness :
  research_results
    (snd (conduct_research (stub_env new_year (Raised "quota"))
            "Graph Neural Networks" "scalability, robustness"
            (session (Some "sk-test") old_store)))
  = old_store.
Proof.
  exact (proj1 (conduct_research_failure_atomic
                  (stub_env new_year (Raised "quota"))
                  "Graph Neural Networks" "scalability, robustness"
                  (session (Some "sk-test") old_store) eq_refl)).
Defined.

Lemma conduct_research_ignores_disk_witness :
  fst (conduct_research (stub_env new_year (Returned stub_results))
         "Graph Neural Networks" "scalability, robustness"
         (session (Some "sk-test") old_store))
  = fst (conduct_research (stub_env new_year (Returned stub_results))
           "Graph Neural Networks" "scalability, robustness"
           (read_only_session (Some "sk-test") old_store)).
Proof.
  exact (proj1 (conduct_research_ignores_disk
                  (stub_env new_year (Returned stub_results))
                  "Graph Neural Networks" "scalability, robustness"
                  (session (Some "sk-test") old_store)
                  (read_only_session (Some "sk-test") old_store)
                  eq_refl eq_refl)).
Defined.

Lemma conduct_research_keeps_keys_witness :
  exists d',
    research_results
      (snd (conduct_research (stub_env christmas (Returned stub_results))
              "Graph Neural Networks" "scalability, robustness"
              (session (Some "sk-test") old_store)))
    = PDict d'
    /\ 1 <= List.length d'.
Proof.
  destruct (conduct_research_keeps_keys
              (stub_env christmas (Returned stub_results))
              "Graph Neural Networks" "scalability, robustness"
              (session (Some "sk-test") old_store) _ eq_refl)
    as [d' [H1 [_ H2]]].
  exists d'; split; [exact H1 | exact H2].
Defined.

Lemma conduct_research_needs_dict_witness :
  fst (fst (conduct_research (stub_env new_year (Returned stub_results))
              "Graph Neural Networks" "scalability, robustness"
              (session (Some "sk-test") (PList []))))
  = false.
Proof.
  exact (proj1 (conduct_research_needs_dict
                  (stub_env new_year (Returned stub_results))
                  "Graph Neural Networks" "scalability, robustness"
                  (session (Some "sk-test") (PList [])) eq_refl)).
Defined.

Lemma valid_christmas : valid_datetime christmas.
Proof. unfold valid_datetime, christmas; simpl; lia. Defined.



Lemma new_year_is_not_christmas : new_year <> christmas.
Proof. discriminate. Defined.

Lemma two_researches_witness :
  getitem
    (research_results
       (snd (conduct_research (stub_env christmas (Returned PNone))
               "Second" "b"
               (snd (conduct_research
                       (stub_env new_year (Returned stub_results))
                       "First" "a" (session (Some "sk-test") (PDict [])))))))
    (strftime new_year)
  = Ok (research_record "First" "a" stub_results).
Proof.
  exact (proj1 (two_researches
                  (stub_env new_year (Returned stub_results))
                  (stub_env christmas (Returned PNone))
                  "First" "a" "Second" "b"
                  (session (Some "sk-test") (PDict [])) [] stub_results PNone
                  eq_refl eq_refl eq_refl eq_refl eq_refl eq_refl
                  valid_new_year valid_christmas new_year_is_not_christmas)).
Defined.

Lemma view_research_page_only_shows_witness :
  exists w',
    view_research_page true
      (viewing (Some "sk-test") old_store "2024-01-01 00:00:00") = Ok w'
    /\ research_results w' = old_store.
Proof.
  eexists. split; [vm_compute; reflexivity|].
  refine (proj1 (view_research_page_only_shows true
                   (viewing (Some "sk-test") old_store "2024-01-01 00:00:00")
                   _ eq_refl)).
Defined.

Lemma view_research_page_downloads_witness :
  exists w' shown,
    view_research_page true
      (viewing (Some "sk-test") old_store "2024-01-01 00:00:00") = Ok w'
    /\ page w' = shown
    /\ List.length (filter is_download shown) = 1.
Proof.
  eexists.
  assert (E : view_research_page true
                (viewing (Some "sk-test") old_store "2024-01-01 00:00:00")
              = Ok _) by (vm_compute; reflexivity).
  destruct (view_research_page_downloads true
              (viewing (Some "sk-test") old_store "2024-01-01 00:00:00")
              _ "2024-01-01 00:00:00" eq_refl E) as [shown [H1 H2]].
  exists shown. split; [exact E | split; [exact H1 | exact H2]].
Defined.

Lemma view_research_page_key_error_witness :
  view_research_page false dangling
  = Raise (KeyError (KStr "1999-12-31 23:59:59")).
Proof.
  exact (view_research_page_key_error dangling "1999-12-31 23:59:59" _ false
           eq_refl eq_refl eq_refl).
Defined.



Lemma script_api_key_witness :
  exists w' shown,
    script (stub_env new_year (Returned stub_results)) idle
      (session (Some "sk-test") old_store)
    = Completed (w', shown)
    /\ api_key w' = Some "sk-test".
Proof.
  eexists; eexists. split; [vm_compute; reflexivity|].
  refine (script_api_key (stub_env new_year (Returned stub_results)) idle
            (session (Some "sk-test") old_store) _ _ eq_refl).
Defined.

Lemma script_without_submission_witness :
  exists w' shown,
    script (stub_env new_year (Returned stub_results))
      (press_record "2024-01-01 00:00:00")
      (session (Some "sk-test") old_store)
    = Completed (w', shown)
    /\ research_results w' = old_store.
Proof.
  eexists; eexists. split; [vm_compute; reflexivity|].
  refine (proj1 (script_without_submission
                   (stub_env new_year (Returned stub_results))
                   (press_record "2024-01-01 00:00:00")
                   (session (Some "sk-test") old_store) _ _ eq_refl eq_refl)).
Defined.

Lemma script_keeps_keys_witness :
  exists w' shown d',
    script (stub_env christmas (Returned stub_results))
      (submit "Graph Neural Networks" "scalability, robustness")
      (session (Some "sk-test") old_store)
    = Completed (w', shown)
    /\ research_results w' = PDict d'
    /\ 1 <= List.length d'.
Proof.
  eexists; eexists.
  assert (E : script (stub_env christmas (Returned stub_results))
                (submit "Graph Neural Networks" "scalability, robustness")
                (session (Some "sk-test") old_store)
              = Completed (_, _)) by (vm_compute; reflexivity).
  destruct (script_keeps_keys
              (stub_env christmas (Returned stub_results))
              (submit "Graph Neural Networks" "scalability, robustness")
              (session (Some "sk-test") old_store) _ _ _ eq_refl E)
    as [d' [H1 [_ H2]]].
  exists d'. split; [exact E | split; [exact H1 | exact H2]].
Defined.

Lemma script_crashes_without_dict_witness :
  script (stub_env new_year (Returned stub_results)) idle
    (session (Some "sk-test") (PList [PInt 1]))
  = Crashed (AttributeError "'list' object has no attribute 'items'").
Proof.
  exact (script_crashes_without_dict
           (stub_env new_year (Returned stub_results)) idle
           (session (Some "sk-test") (PList [PInt 1])) eq_refl eq_refl).
Defined.

Lemma sidebar_lists_records_witness :
  exists w',
    sidebar idle (session (Some "sk-test") old_store)
    = Completed
        (w',
         [ SbHeader "Research Projects";
           SbKeyInput "Enter your OpenAI API Key";
           (if has_api_key w' then SbKeySet else SbKeyMissing);
           SbButton "New Research";
           SbSubheader "Previous Research";
           SbRecordButton "Earlier topic" "2024-01-01 00:00:00" ]).
Proof.
  exact (sidebar_lists_records idle (session (Some "sk-test") old_store) _
           eq_refl eq_refl).
Defined.

Lemma only_that_record (k : string) :
  In (KStr k) [KStr "2024-01-01 00:00:00"] ->
  String.eqb "2024-01-01 00:00:00" k = true ->
  k = "2024-01-01 00:00:00".
Proof. intros _ H. apply String.eqb_eq in H. now symmetry. Defined.

Lemma press_record_shows_it_witness :
  exists w' shown,
    script (stub_env new_year (Returned stub_results))
      (press_record "2024-01-01 00:00:00")
      (session (Some "sk-test") old_store)
    = Completed (w', shown)
    /\ selected_research w' = Some "2024-01-01 00:00:00".
Proof.
  destruct (press_record_shows_it
              (stub_env new_year (Returned stub_results))
              (press_record "2024-01-01 00:00:00")
              (session (Some "sk-test") old_store) _
              "2024-01-01 00:00:00" _
              eq_refl eq_refl eq_refl eq_refl only_that_record eq_refl)
    as [w' [shown [t [f [res [H1 [_ [H2 _]]]]]]]].
  exists w', shown. split; [exact H1 | exact H2].
Defined.

Lemma on_the_form : Some new_research <> Some view_research.
Proof. discriminate. Defined.

Lemma form_is_shown_witness :
  exists w' shown,
    script (stub_env new_year (Returned stub_results)) idle
      (session (Some "sk-test") old_store)
    = Completed (w', shown)
    /\ current_view w' = Some new_research
    /\ page w' = [StHeader "New Research"; StButton "Start Research"].
Proof.
  exact (form_is_shown (stub_env new_year (Returned stub_results)) idle
           (session (Some "sk-test") old_store) eq_refl
           (or_introl on_the_form) (fun _ => eq_refl) eq_refl).
Defined.


Lemma submitted_record_is_listed_witness :
  exists w1 shown,
    script (stub_env christmas (Returned stub_results))
      (submit "Graph Neural Networks" "scalability, robustness")
      (session (Some "sk-test") old_store)
    = Completed (w1, shown)
    /\ exists w2 shown',
         script (stub_env christmas (Raised "quota")) idle w1
         = Completed (w2, shown')
         /\ In (SbRecordButton "Graph Neural Networks" "2024-12-25 18:30:05")
               shown'.
Proof.
  destruct (submitted_record_is_listed
              (stub_env christmas (Returned stub_results))
              (submit "Graph Neural Networks" "scalability, robustness")
              (session (Some "sk-test") old_store) _ stub_results
              (stub_env christmas (Raised "quota")) idle
              eq_refl eq_refl eq_refl eq_refl (or_introl on_the_form)
              (fun _ => eq_refl) eq_refl eq_refl eq_refl eq_refl eq_refl)
    as [w1 [shown [H1 [_ [_ H2]]]]].
  exists w1, shown. split; [exact H1 | exact H2].
Defined.
